(** * quiz-analysis-tool: the loader and the performance analyzer

    A shallow embedding of [src/data_loader.py] (class [DataLoader]) and of
    [scripts/analyze_results.py] (class [PerformanceAnalyzer]), followed by
    the properties of the scoring and comparison engine.

    Conventions of the embedding:
    - a Python exception is a value of [exn]; code that can raise returns a
      [result];
    - a Python [dict] is an association list with unique keys, in insertion
      order ([dict_set] replaces in place or appends, as Python does);
    - a cell of a [pandas] frame is a [pyval]: a missing cell is [VNaN];
    - a Python [int] is a [Z]; a finite [float] is idealised as an exact
      rational and [nan] is kept apart ([pyfloat]);
    - [int(str)], [float(str)] and the floating-point square root behind
      [numpy.std] are builtins outside the repository: they are section
      variables. *)

From Stdlib Require Import List String Ascii ZArith QArith Qround Qabs Bool Lia.
From Stdlib Require Import Decimal DecimalString DecimalNat.
Import ListNotations.

Set Implicit Arguments.
Open Scope string_scope.
Open Scope list_scope.
Open Scope Z_scope.

(* ------------------------------------------------------------------ *)
(** ** Exceptions and results *)

Inductive exn : Type :=
| KeyError
| TypeError
| ZeroDivisionError
| FileNotFoundError
| ValueError
| MissingColumns (file : string) (missing : list string).

Inductive result (A : Type) : Type :=
| Ok (a : A)
| Raise (e : exn).

Arguments Ok {A} a.
Arguments Raise {A} e.

Definition bind {A B : Type} (m : result A) (k : A -> result B) : result B :=
  match m with
  | Ok a => k a
  | Raise e => Raise e
  end.

Notation "x <- m ;; k" := (bind m (fun x => k))
  (at level 61, m at next level, right associativity).
Notation "' p <- m ;; k" := (bind m (fun x => match x with p => k end))
  (at level 61, p pattern, m at next level, right associativity).

(** A [for] loop whose body can raise: the state is threaded from left to
    right and the first exception ends the loop. *)
Fixpoint for_each {A S : Type} (body : A -> S -> result S) (xs : list A) (s : S)
  : result S :=
  match xs with
  | [] => Ok s
  | x :: xs' => s' <- body x s ;; for_each body xs' s'
  end.

(* ------------------------------------------------------------------ *)
(** ** Dictionaries *)

Class Key (K : Type) : Type := keqb : K -> K -> bool.

Definition dict (K V : Type) : Type := list (K * V).

Section Dict.
Context {K V : Type} `{Key K}.

Fixpoint dict_get (k : K) (d : dict K V) : option V :=
  match d with
  | [] => None
  | (k', v) :: d' => if keqb k' k then Some v else dict_get k d'
  end.

Definition dict_mem (k : K) (d : dict K V) : bool :=
  match dict_get k d with Some _ => true | None => false end.

(** [d[k] = v] *)
Fixpoint dict_set (k : K) (v : V) (d : dict K V) : dict K V :=
  match d with
  | [] => [(k, v)]
  | (k', v') :: d' =>
      if keqb k' k then (k', v) :: d' else (k', v') :: dict_set k v d'
  end.

(** [d[k]], which raises [KeyError] on a missing key *)
Definition dict_item (k : K) (d : dict K V) : result V :=
  match dict_get k d with Some v => Ok v | None => Raise KeyError end.

Definition keys (d : dict K V) : list K := map fst d.
Definition values (d : dict K V) : list V := map snd d.
End Dict.

(** [k in xs] for a list or a set *)
Definition mem {K : Type} `{Key K} (k : K) (xs : list K) : bool :=
  existsb (keqb k) xs.

(** [s.add(k)] on a set kept as a duplicate-free list *)
Definition set_add {K : Type} `{Key K} (k : K) (xs : list K) : list K :=
  if mem k xs then xs else xs ++ [k].

(** [set(xs)] *)
Definition set_of_list {K : Type} `{Key K} (xs : list K) : list K :=
  fold_left (fun acc k => set_add k acc) xs [].

#[export] Instance Key_string : Key string := String.eqb.

(* ------------------------------------------------------------------ *)
(** ** Values of cells, and floats *)

(** What [pandas.read_csv] leaves in a cell: a missing value, a number or a
    text. As dictionary keys and set members cells are compared
    structurally. *)
Inductive pyval : Type :=
| VNaN
| VNum (q : Q)
| VStr (s : string).

Definition Q_eqb (a b : Q) : bool :=
  Z.eqb (Qnum a) (Qnum b) && Pos.eqb (Qden a) (Qden b).

Definition pyval_eqb (a b : pyval) : bool :=
  match a, b with
  | VNaN, VNaN => true
  | VNum p, VNum q => Q_eqb p q
  | VStr s, VStr t => String.eqb s t
  | _, _ => false
  end.

#[export] Instance Key_pyval : Key pyval := pyval_eqb.

(** Python's [a == b] on cells: [nan] equals nothing, numbers are compared by
    value, texts character by character, and a number never equals a text. *)
Definition py_eq (a b : pyval) : bool :=
  match a, b with
  | VNum p, VNum q => Qeq_bool p q
  | VStr s, VStr t => String.eqb s t
  | _, _ => false
  end.

Inductive pyfloat : Type :=
| NaN
| Fin (q : Q).

Definition float_of_Z (z : Z) : pyfloat := Fin (inject_Z z).

Definition lift2 (op : Q -> Q -> Q) (a b : pyfloat) : pyfloat :=
  match a, b with
  | Fin x, Fin y => Fin (Qred (op x y))
  | _, _ => NaN
  end.

Definition fadd : pyfloat -> pyfloat -> pyfloat := lift2 Qplus.
Definition fsub : pyfloat -> pyfloat -> pyfloat := lift2 Qminus.
Definition fmul : pyfloat -> pyfloat -> pyfloat := lift2 Qmult.
(** division without the zero check, for callers that have made it *)
Definition fquot : pyfloat -> pyfloat -> pyfloat := lift2 Qdiv.

Definition fabs (a : pyfloat) : pyfloat :=
  match a with Fin x => Fin (Qabs x) | NaN => NaN end.

Definition Qltb (x y : Q) : bool :=
  Z.ltb (Qnum x * QDen y) (Qnum y * QDen x).

(** [a < b]; every comparison with [nan] is false *)
Definition flt (a b : pyfloat) : bool :=
  match a, b with
  | Fin x, Fin y => Qltb x y
  | _, _ => false
  end.

Definition is_zero (a : pyfloat) : bool :=
  match a with Fin x => Qeq_bool x 0 | NaN => false end.

(** [a / b] *)
Definition truediv (a b : pyfloat) : result pyfloat :=
  if is_zero b then Raise ZeroDivisionError else Ok (fquot a b).

(** [sum(xs)] *)
Definition fsum (xs : list pyfloat) : pyfloat :=
  fold_left fadd xs (Fin 0).

Definition Zsum (xs : list Z) : Z := fold_left Z.add xs 0.

(** [len(xs)] *)
Definition len {A : Type} (xs : list A) : Z := Z.of_nat (List.length xs).

(** [min(a, b)] and [max(a, b)]: the second argument wins only when the
    comparison says so *)
Definition fmin2 (a b : pyfloat) : pyfloat := if flt b a then b else a.
Definition fmax2 (a b : pyfloat) : pyfloat := if flt a b then b else a.

(** [min(xs)] and [max(xs)] on a non-empty list *)
Definition fmin_list (x : pyfloat) (xs : list pyfloat) : pyfloat :=
  fold_left fmin2 xs x.
Definition fmax_list (x : pyfloat) (xs : list pyfloat) : pyfloat :=
  fold_left fmax2 xs x.

(** Rounding to the nearest integer, ties to the even one *)
Definition round_half_even (x : Q) : Z :=
  let f := Qfloor x in
  match Qcompare (x - inject_Z f) (1 # 2) with
  | Lt => f
  | Gt => f + 1
  | Eq => if Z.even f then f else f + 1
  end.

Definition pow10 (n : nat) : Q := inject_Z (10 ^ Z.of_nat n).

(** [round(a, ndigits)] *)
Definition round (a : pyfloat) (ndigits : nat) : pyfloat :=
  match a with
  | NaN => NaN
  | Fin x =>
      Fin (Qred (inject_Z (round_half_even (x * pow10 ndigits)) / pow10 ndigits))
  end.

(** [str(n)] for a natural number *)
Definition str_of_nat (n : nat) : string :=
  NilEmpty.string_of_uint (Nat.to_uint n).

(* ------------------------------------------------------------------ *)
(** ** Frames *)

(** A frame as read from a CSV file: the header and the rows. A row shorter
    than the header is padded with missing cells, as [pandas] does. *)
Record DataFrame : Type := {
  columns : list string;
  rows : list (list pyval)
}.

(** The files of the data directory; [None] is a file that does not exist. *)
Record data_dir : Type := {
  questions_csv : option DataFrame;
  results_csv : option DataFrame;
  self_assessment_csv : option DataFrame
}.

(** [pd.read_csv(path)] *)
Definition read_csv (file : option DataFrame) : result DataFrame :=
  match file with
  | Some df => Ok df
  | None => Raise FileNotFoundError
  end.

(** [{v: k for k, v in column_mappings.items()}] *)
Definition inverse_of (column_mappings : dict string string) : dict string string :=
  fold_left (fun acc kv => dict_set (snd kv) (fst kv) acc) column_mappings [].

(** [df.rename(columns=inverse_mappings)] *)
Definition rename (inverse_mappings : dict string string) (df : DataFrame)
  : DataFrame :=
  {| columns := map (fun c => match dict_get c inverse_mappings with
                              | Some k => k
                              | None => c
                              end) (columns df);
     rows := rows df |}.

Fixpoint index_of (name : string) (cols : list string) : option nat :=
  match cols with
  | [] => None
  | c :: cols' =>
      if String.eqb c name then Some O
      else match index_of name cols' with
           | Some i => Some (S i)
           | None => None
           end
  end.

(** [row[name]] *)
Definition row_get (cols : list string) (row : list pyval) (name : string)
  : result pyval :=
  match index_of name cols with
  | Some i => Ok (nth i row VNaN)
  | None => Raise KeyError
  end.

(** [v in df.columns]: the labels of a header are texts *)
Definition in_columns (v : pyval) (cols : list string) : bool :=
  match v with
  | VStr s => mem s cols
  | _ => false
  end.

(** [row[v]] for a label held in a cell *)
Definition row_item (cols : list string) (row : list pyval) (v : pyval)
  : result pyval :=
  match v with
  | VStr s => row_get cols row s
  | _ => Raise KeyError
  end.

(** [df[name]] *)
Definition column (df : DataFrame) (name : string) : result (list pyval) :=
  match index_of name (columns df) with
  | Some i => Ok (map (fun row => nth i row VNaN) (rows df))
  | None => Raise KeyError
  end.

(** [[col for col in required_cols if col not in df.columns]] *)
Definition missing_cols (required_cols : list string) (df : DataFrame)
  : list string :=
  filter (fun col => negb (mem col (columns df))) required_cols.

(* ------------------------------------------------------------------ *)
(** ** The normalized model *)

Module Question.
Record t : Type := {
  text : pyval;
  category : pyval;
  correct_answer : pyval;
  worth : Z
}.
End Question.

Module Response.
Record t : Type := {
  timestamp : pyval;
  answer : pyval;
  is_correct : bool;
  points_earned : Z;
  worth : Z
}.
End Response.

Module SelfAssessment.
Record t : Type := {
  timestamp : pyval;
  scores : dict pyval pyfloat
}.
End SelfAssessment.

Module CategoryScore.
Record t : Type := {
  points_earned : Z;
  points_possible : Z;
  normalized_score : pyfloat;
  (** the key is there only for a category the user rated *)
  normalized_self_assessment : option pyfloat
}.
End CategoryScore.

Module TotalScore.
Record t : Type := {
  points_earned : Z;
  points_possible : Z;
  normalized_score : pyfloat
}.
End TotalScore.

(** A user's dictionary. [_load_responses] creates it with the first two
    keys; [_combine_data] adds ["total_score"] and ["score"], which are
    [None] here as long as the key is not there. *)
Module User.
Record t : Type := {
  responses : dict string Response.t;
  self_assessment : option SelfAssessment.t;
  total_score : option TotalScore.t;
  score_by_category : option (dict pyval CategoryScore.t)
}.

Definition set_responses (r : dict string Response.t) (u : t) : t :=
  {| responses := r;
     self_assessment := self_assessment u;
     total_score := total_score u;
     score_by_category := score_by_category u |}.

Definition set_self_assessment (sa : SelfAssessment.t) (u : t) : t :=
  {| responses := responses u;
     self_assessment := Some sa;
     total_score := total_score u;
     score_by_category := score_by_category u |}.

Definition set_scores (ts : TotalScore.t) (cs : dict pyval CategoryScore.t)
           (u : t) : t :=
  {| responses := responses u;
     self_assessment := self_assessment u;
     total_score := Some ts;
     score_by_category := Some cs |}.
End User.

Module CategoryMeta.
Record t : Type := {
  question_count : Z;
  total_points : Z;
  has_self_assessment : bool;
  self_assessment_max : Z
}.
End CategoryMeta.

Module Metadata.
Record t : Type := {
  total_questions : Z;
  total_users : Z;
  total_points_possible : Z;
  categories : dict pyval CategoryMeta.t;
  self_assessment_categories : list pyval;
  self_assessment_max_score : Z
}.
End Metadata.

Module Data.
Record t : Type := {
  questions : dict string Question.t;
  users : dict pyval User.t;
  metadata : Metadata.t
}.
End Data.

(* ------------------------------------------------------------------ *)
(** ** [class DataLoader] *)

Record DataLoader : Type := {
  dir : data_dir;
  column_mappings : dict string string;
  questions : dict string Question.t;
  quiz_categories : list pyval;
  users : dict pyval User.t;
  (** what [print] has written *)
  stdout : list string
}.

Definition set_questions (cats : list pyval) (qs : dict string Question.t)
           (self : DataLoader) : DataLoader :=
  {| dir := dir self; column_mappings := column_mappings self;
     questions := qs; quiz_categories := cats;
     users := users self; stdout := stdout self |}.

Definition set_users (us : dict pyval User.t) (self : DataLoader) : DataLoader :=
  {| dir := dir self; column_mappings := column_mappings self;
     questions := questions self; quiz_categories := quiz_categories self;
     users := us; stdout := stdout self |}.

Definition print (line : string) (self : DataLoader) : DataLoader :=
  {| dir := dir self; column_mappings := column_mappings self;
     questions := questions self; quiz_categories := quiz_categories self;
     users := users self; stdout := stdout self ++ [line] |}.

Definition default_mappings : dict string string :=
  [("question", "question"); ("category", "category"); ("answer", "answer");
   ("value", "value"); ("date_time", "date_time"); ("user_id", "user_id")].

(** [d.update(other)] *)
Definition dict_update {K V : Type} `{Key K} (other d : dict K V) : dict K V :=
  fold_left (fun acc kv => dict_set (fst kv) (snd kv) acc) other d.

(** [DataLoader.__init__] *)
Definition init (data : data_dir) (mappings : option (dict string string))
  : DataLoader :=
  {| dir := data;
     column_mappings :=
       match mappings with
       | Some (m :: ms) => dict_update (m :: ms) default_mappings
       | _ => default_mappings
       end;
     questions := [];
     quiz_categories := [];
     users := [];
     stdout := [] |}.

Definition required_cols : list string := ["date_time"; "user_id"].

Definition new_user : User.t :=
  {| User.responses := []; User.self_assessment := None;
     User.total_score := None; User.score_by_category := None |}.

(** The response stored for one question of one row *)
Definition grade (timestamp answer : pyval) (question : Question.t) : Response.t :=
  let is_correct := py_eq answer (Question.correct_answer question) in
  let points := if is_correct then Question.worth question else 0 in
  {| Response.timestamp := timestamp;
     Response.answer := answer;
     Response.is_correct := is_correct;
     Response.points_earned := points;
     Response.worth := Question.worth question |}.

Section Loader.
(** [int(s)] and [float(s)] on a text; [None] is a [ValueError] *)
Variable int_of_str : string -> option Z.
Variable float_of_str : string -> option pyfloat.

(** [int(v)]: truncation toward zero; [nan] cannot be converted *)
Definition py_int (v : pyval) : result Z :=
  match v with
  | VNaN => Raise ValueError
  | VNum q => Ok (Z.quot (Qnum q) (QDen q))
  | VStr s => match int_of_str s with
              | Some z => Ok z
              | None => Raise ValueError
              end
  end.

(** [float(v)] *)
Definition py_float (v : pyval) : result pyfloat :=
  match v with
  | VNaN => Ok NaN
  | VNum q => Ok (Fin q)
  | VStr s => match float_of_str s with
              | Some f => Ok f
              | None => Raise ValueError
              end
  end.

(** The body of the loop of [_load_questions] *)
Definition load_question (cols : list string) (row : list pyval)
           (qs : dict string Question.t) : result (dict string Question.t) :=
  let question_id := ("Q" ++ str_of_nat (List.length qs + 1))%string in
  text <- row_get cols row "question" ;;
  category <- row_get cols row "category" ;;
  answer <- row_get cols row "answer" ;;
  value <- row_get cols row "value" ;;
  worth <- py_int value ;;
  Ok (dict_set question_id
        {| Question.text := text;
           Question.category := category;
           Question.correct_answer := answer;
           Question.worth := worth |} qs).

Definition _load_questions (self : DataLoader) : result DataLoader :=
  df <- read_csv (questions_csv (dir self)) ;;
  let df := rename (inverse_of (column_mappings self)) df in
  cats <- column df "category" ;;
  qs <- for_each (load_question (columns df)) (rows df) [] ;;
  Ok (set_questions (set_of_list cats) qs self).

(** The body of the inner loop of [_load_responses] *)
Definition record_response (cols : list string) (row : list pyval)
           (user_id timestamp : pyval) (item : string * Question.t)
           (us : dict pyval User.t) : result (dict pyval User.t) :=
  let (q_id, question) := item in
  let q_text := Question.text question in
  if in_columns q_text cols then
    answer <- row_item cols row q_text ;;
    user <- dict_item user_id us ;;
    Ok (dict_set user_id
          (User.set_responses
             (dict_set q_id (grade timestamp answer question)
                       (User.responses user)) user) us)
  else Ok us.

(** The body of the outer loop of [_load_responses] *)
Definition load_response_row (qs : dict string Question.t)
           (cols : list string) (row : list pyval) (us : dict pyval User.t)
  : result (dict pyval User.t) :=
  user_id <- row_get cols row "user_id" ;;
  timestamp <- row_get cols row "date_time" ;;
  let us := if dict_mem user_id us then us
            else dict_set user_id new_user us in
  for_each (record_response cols row user_id timestamp) qs us.

Definition _load_responses (self : DataLoader) : result DataLoader :=
  df <- read_csv (results_csv (dir self)) ;;
  let df := rename (inverse_of (column_mappings self)) df in
  match missing_cols required_cols df with
  | (_ :: _) as missing => Raise (MissingColumns "results.csv" missing)
  | [] =>
      us <- for_each (load_response_row (questions self) (columns df))
                     (rows df) (users self) ;;
      Ok (set_users us self)
  end.

(** The loop that fills [scores] for one row of the self-assessment *)
Definition rate_category (cols : list string) (row : list pyval)
           (category : pyval) (scores : dict pyval pyfloat)
  : result (dict pyval pyfloat) :=
  if in_columns category cols then
    cell <- row_item cols row category ;;
    score <- py_float cell ;;
    Ok (dict_set category score scores)
  else Ok scores.

(** The body of the loop of [_load_self_assessment] *)
Definition load_assessment_row (cats : list pyval) (cols : list string)
           (row : list pyval) (us : dict pyval User.t)
  : result (dict pyval User.t) :=
  user_id <- row_get cols row "user_id" ;;
  timestamp <- row_get cols row "date_time" ;;
  if dict_mem user_id us then
    scores <- for_each (rate_category cols row) cats [] ;;
    user <- dict_item user_id us ;;
    Ok (dict_set user_id
          (User.set_self_assessment
             {| SelfAssessment.timestamp := timestamp;
                SelfAssessment.scores := scores |} user) us)
  else Ok us.

Definition warning : string := "Warning: self_assessment.csv not found".

Definition _load_self_assessment (self : DataLoader) : result DataLoader :=
  let attempt :=
    df <- read_csv (self_assessment_csv (dir self)) ;;
    let df := rename (inverse_of (column_mappings self)) df in
    match missing_cols required_cols df with
    | (_ :: _) as missing => Raise (MissingColumns "self_assessment.csv" missing)
    | [] =>
        us <- for_each (load_assessment_row (quiz_categories self) (columns df))
                       (rows df) (users self) ;;
        Ok (set_users us self)
    end in
  match attempt with
  | Raise FileNotFoundError => Ok (print warning self)
  | outcome => outcome
  end.
End Loader.

(** A comprehension whose element can raise *)
Fixpoint traverse {A B : Type} (f : A -> result B) (xs : list A)
  : result (list B) :=
  match xs with
  | [] => Ok []
  | x :: xs' => y <- f x ;; ys <- traverse f xs' ;; Ok (y :: ys)
  end.

(** The truth value of [user_data.get("self_assessment") and
    user_data["self_assessment"].get("scores")]: the scores when both are
    there and the scores are not empty. *)
Definition rated_scores (user_data : User.t) : option (dict pyval pyfloat) :=
  match User.self_assessment user_data with
  | Some sa =>
      match SelfAssessment.scores sa with
      | [] => None
      | (_ :: _) as scores => Some scores
      end
  | None => None
  end.

(** The first loop of [_combine_data] over a user's responses. The entry of
    a category holds [points_earned] and [points_possible]; the running
    totals are the second and third components. *)
Definition tally_response (qs : dict string Question.t)
           (item : string * Response.t)
           (acc : dict pyval (Z * Z) * Z * Z)
  : result (dict pyval (Z * Z) * Z * Z) :=
  let (q_id, response) := item in
  let '(category_scores, total_points, total_possible) := acc in
  question <- dict_item q_id qs ;;
  let category := Question.category question in
  let category_scores :=
    if dict_mem category category_scores then category_scores
    else dict_set category (0, 0) category_scores in
  entry <- dict_item category category_scores ;;
  let category_scores :=
    dict_set category
      (fst entry + Response.points_earned response,
       snd entry + Response.worth response) category_scores in
  Ok (category_scores,
      total_points + Response.points_earned response,
      total_possible + Response.worth response).

(** The second loop of [_combine_data]: the normalized scores of a category *)
Definition normalize_category (user_data : User.t) (item : pyval * (Z * Z))
  : result (pyval * CategoryScore.t) :=
  let '(category, (earned, possible)) := item in
  normalized <-
    (if 0 <? possible
     then truediv (float_of_Z earned) (float_of_Z possible)
     else Ok (float_of_Z 0)) ;;
  self_normalized <-
    match rated_scores user_data with
    | Some scores =>
        if dict_mem category scores then
          score <- dict_item category scores ;;
          n <- truediv score (float_of_Z 10) ;;
          Ok (Some n)
        else Ok None
    | None => Ok None
    end ;;
  Ok (category,
      {| CategoryScore.points_earned := earned;
         CategoryScore.points_possible := possible;
         CategoryScore.normalized_score := normalized;
         CategoryScore.normalized_self_assessment := self_normalized |}).

(** What [_combine_data] does to one user *)
Definition combine_user (qs : dict string Question.t)
           (item : pyval * User.t) : result (pyval * User.t) :=
  let (user_id, user_data) := item in
  '(category_scores, total_points, total_possible) <-
    for_each (tally_response qs) (User.responses user_data) ([], 0, 0) ;;
  by_category <- traverse (normalize_category user_data) category_scores ;;
  total_normalized <-
    (if 0 <? total_possible
     then truediv (float_of_Z total_points) (float_of_Z total_possible)
     else Ok (float_of_Z 0)) ;;
  Ok (user_id,
      User.set_scores
        {| TotalScore.points_earned := total_points;
           TotalScore.points_possible := total_possible;
           TotalScore.normalized_score := total_normalized |}
        by_category user_data).

(** The loop of [_combine_data] over the questions, for the metadata *)
Definition count_question (item : string * Question.t)
           (categories_metadata : dict pyval CategoryMeta.t)
  : result (dict pyval CategoryMeta.t) :=
  let category := Question.category (snd item) in
  let categories_metadata :=
    if dict_mem category categories_metadata then categories_metadata
    else dict_set category
           {| CategoryMeta.question_count := 0;
              CategoryMeta.total_points := 0;
              CategoryMeta.has_self_assessment := false;
              CategoryMeta.self_assessment_max := 0 |} categories_metadata in
  entry <- dict_item category categories_metadata ;;
  Ok (dict_set category
        {| CategoryMeta.question_count := CategoryMeta.question_count entry + 1;
           CategoryMeta.total_points :=
             CategoryMeta.total_points entry + Question.worth (snd item);
           CategoryMeta.has_self_assessment :=
             CategoryMeta.has_self_assessment entry;
           CategoryMeta.self_assessment_max :=
             CategoryMeta.self_assessment_max entry |} categories_metadata).

(** The loop of [_combine_data] over the rated categories of one user *)
Definition mark_category (category : pyval)
           (acc : list pyval * dict pyval CategoryMeta.t)
  : list pyval * dict pyval CategoryMeta.t :=
  let (self_assessment_categories, categories_metadata) := acc in
  (set_add category self_assessment_categories,
   match dict_get category categories_metadata with
   | Some entry =>
       dict_set category
         {| CategoryMeta.question_count := CategoryMeta.question_count entry;
            CategoryMeta.total_points := CategoryMeta.total_points entry;
            CategoryMeta.has_self_assessment := true;
            CategoryMeta.self_assessment_max := 10 |} categories_metadata
   | None => categories_metadata
   end).

Definition mark_user (user_data : User.t)
           (acc : list pyval * dict pyval CategoryMeta.t)
  : list pyval * dict pyval CategoryMeta.t :=
  match rated_scores user_data with
  | Some scores => fold_left (fun a c => mark_category c a) (keys scores) acc
  | None => acc
  end.

(** [DataLoader._combine_data]: the loader after the call (the users'
    dictionaries are updated in place) and the dictionary it returns. *)
Definition _combine_data (self : DataLoader) : result (DataLoader * Data.t) :=
  us <- traverse (combine_user (questions self)) (users self) ;;
  categories_metadata <- for_each count_question (questions self) [] ;;
  let (self_assessment_categories, categories_metadata) :=
    fold_left (fun a u => mark_user u a) (values us) ([], categories_metadata) in
  Ok (set_users us self,
      {| Data.questions := questions self;
         Data.users := us;
         Data.metadata :=
           {| Metadata.total_questions := len (questions self);
              Metadata.total_users := len us;
              Metadata.total_points_possible :=
                Zsum (map Question.worth (values (questions self)));
              Metadata.categories := categories_metadata;
              Metadata.self_assessment_categories := self_assessment_categories;
              Metadata.self_assessment_max_score := 10 |} |}).

(** [DataLoader.load_all_data] *)
Definition load_all_data (int_of_str : string -> option Z)
           (float_of_str : string -> option pyfloat) (self : DataLoader)
  : result (DataLoader * Data.t) :=
  self <- _load_questions int_of_str self ;;
  self <- _load_responses self ;;
  self <- _load_self_assessment float_of_str self ;;
  _combine_data self.

(* ------------------------------------------------------------------ *)
(** ** The analysis of a user *)

Module McScore.
Record t : Type := {
  category : pyval;
  points : Z;
  possible : Z;
  percentage : pyfloat
}.
End McScore.

Module SelfScore.
Record t : Type := {
  category : pyval;
  score : pyfloat;
  out_of : Z
}.
End SelfScore.

Module Comparison.
Record t : Type := {
  category : pyval;
  quiz_normalized : pyfloat;
  self_normalized : pyfloat;
  difference : pyfloat
}.
End Comparison.

Module Proficiency.
Record t : Type := {
  overall_proficiency : pyfloat;
  performance_score : pyfloat;
  accuracy_score : pyfloat;
  consistency_score : pyfloat;
  differences : list pyfloat;
  std_dev : pyfloat
}.
End Proficiency.

Module Analysis.
(** ["total_score"] *)
Record total : Type := {
  points : Z;
  possible : Z;
  percentage : pyfloat
}.

(** ["mc_quiz"] *)
Record quiz : Type := {
  mc_scores : list McScore.t;
  total_points : Z;
  total_possible : Z
}.

(** ["self_assessment"] *)
Record rating : Type := {
  self_scores : list SelfScore.t;
  average : pyfloat
}.

(** ["comparison"] *)
Record comparing : Type := {
  by_category : list Comparison.t;
  average_difference : pyfloat;
  accurate_count : Z;
  overestimate_count : Z;
  underestimate_count : Z
}.

(** The analysis of one user; ["proficiency"] holds [None] when
    [calculate_proficiency_score] returns nothing. *)
Record t : Type := {
  total_score : total;
  mc_quiz : quiz;
  self_assessment : rating;
  comparison : comparing;
  proficiency : option Proficiency.t
}.

Definition set_proficiency (p : option Proficiency.t) (a : t) : t :=
  {| total_score := total_score a;
     mc_quiz := mc_quiz a;
     self_assessment := self_assessment a;
     comparison := comparison a;
     proficiency := p |}.
End Analysis.

Module Overall.
(** ["quiz_performance"] *)
Record quiz : Type := {
  total_points : Z;
  total_possible : Z;
  average_percentage : pyfloat
}.

(** ["self_assessment"] *)
Record rating : Type := {
  average_score : pyfloat;
  rated_users : Z;
  min_average : pyfloat;
  max_average : pyfloat
}.

(** ["comparison"] *)
Record comparing : Type := {
  compared_users : Z;
  average_difference : pyfloat;
  accurate_ratio : pyfloat;
  overestimate_ratio : pyfloat;
  underestimate_ratio : pyfloat
}.

Record t : Type := {
  quiz_performance : quiz;
  self_assessment : rating;
  comparison : comparing
}.
End Overall.

(** The statistics [get_overall_statistics] keeps for a user who has
    comparison data *)
Record user_stats : Type := {
  stat_average_difference : pyfloat;
  stat_accurate_ratio : pyfloat;
  stat_overestimate_ratio : pyfloat;
  stat_underestimate_ratio : pyfloat
}.

(** The thresholds of the three counts *)
Definition tenth : pyfloat := Fin (1 # 10).
Definition minus_tenth : pyfloat := Fin (- 1 # 10).

(** [abs(c["difference"]) < 0.1] *)
Definition is_accurate (c : Comparison.t) : bool :=
  flt (fabs (Comparison.difference c)) tenth.

(** [c["difference"] < -0.1] *)
Definition is_overestimate (c : Comparison.t) : bool :=
  flt (Comparison.difference c) minus_tenth.

(** [c["difference"] > 0.1] *)
Definition is_underestimate (c : Comparison.t) : bool :=
  flt tenth (Comparison.difference c).

(** [sum(1 for c in comparisons if cond(c))] *)
Definition count_if {A : Type} (cond : A -> bool) (xs : list A) : Z :=
  Zsum (map (fun _ => 1) (filter cond xs)).

Section Analyzer.
(** The square root of a float that is not negative *)
Variable float_sqrt : Q -> Q.

(** [numpy.std(xs)] with its default [ddof=0]: the square root of the mean
    of the squared deviations from the mean, which divides by the number
    of values. It does not raise. *)
Definition np_std (xs : list pyfloat) : pyfloat :=
  let n := float_of_Z (len xs) in
  let mean := fquot (fsum xs) n in
  let squares := map (fun x => fmul (fabs (fsub x mean)) (fabs (fsub x mean))) xs in
  match fquot (fsum squares) n with
  | Fin variance => Fin (float_sqrt variance)
  | NaN => NaN
  end.

(** [PerformanceAnalyzer.calculate_proficiency_score] *)
Definition calculate_proficiency_score (user_data : Analysis.t)
  : result (option Proficiency.t) :=
  let performance_score := Analysis.percentage (Analysis.total_score user_data) in
  match Analysis.by_category (Analysis.comparison user_data) with
  | [] => Ok None
  | (_ :: _) as by_category =>
      let differences := map Comparison.difference by_category in
      avg_abs_diff <-
        truediv (fsum (map fabs differences)) (float_of_Z (len differences)) ;;
      let accuracy_score :=
        fmul (fsub (float_of_Z 1) avg_abs_diff) (float_of_Z 100) in
      let std_dev :=
        if 1 <? len differences then np_std differences else float_of_Z 0 in
      let consistency_score :=
        fmul (fsub (float_of_Z 1) (fmin2 std_dev (float_of_Z 1)))
             (float_of_Z 100) in
      let proficiency_score :=
        fadd (fadd (fmul (Fin (60 # 100)) performance_score)
                   (fmul (Fin (20 # 100)) accuracy_score))
             (fmul (Fin (20 # 100)) consistency_score) in
      Ok (Some
            {| Proficiency.overall_proficiency := round proficiency_score 1;
               Proficiency.performance_score := round performance_score 1;
               Proficiency.accuracy_score := round accuracy_score 1;
               Proficiency.consistency_score := round consistency_score 1;
               Proficiency.differences := differences;
               Proficiency.std_dev := std_dev |})
  end.

(** The body of the loop of [analyze_user_performance] over the
    categories of a user; the three lists are [mc_scores], [self_scores]
    and [comparisons]. *)
Definition analyze_category (self_assessed_categories : list pyval)
           (max_score : Z) (user_data : User.t)
           (item : pyval * CategoryScore.t)
           (acc : list McScore.t * list SelfScore.t * list Comparison.t)
  : result (list McScore.t * list SelfScore.t * list Comparison.t) :=
  let (category, scores) := item in
  let '(mc_scores, self_scores, comparisons) := acc in
  mc_scores <-
    (if 0 <? CategoryScore.points_possible scores then
       ratio <- truediv (float_of_Z (CategoryScore.points_earned scores))
                        (float_of_Z (CategoryScore.points_possible scores)) ;;
       Ok (mc_scores ++
             [{| McScore.category := category;
                 McScore.points := CategoryScore.points_earned scores;
                 McScore.possible := CategoryScore.points_possible scores;
                 McScore.percentage :=
                   round (fmul ratio (float_of_Z 100)) 1 |}])
     else Ok mc_scores) ;;
  if mem category self_assessed_categories then
    if 0 <? CategoryScore.points_possible scores then
      (* user_data["self_assessment"]["scores"].get(category, 0) *)
      rated <- match User.self_assessment user_data with
               | Some sa => Ok (SelfAssessment.scores sa)
               | None => Raise TypeError
               end ;;
      let self_score := match dict_get category rated with
                        | Some s => s
                        | None => float_of_Z 0
                        end in
      let self_scores :=
        self_scores ++ [{| SelfScore.category := category;
                           SelfScore.score := self_score;
                           SelfScore.out_of := max_score |}] in
      (* scores["normalized_self_assessment"] *)
      self_normalized <-
        match CategoryScore.normalized_self_assessment scores with
        | Some n => Ok n
        | None => Raise KeyError
        end ;;
      Ok (mc_scores, self_scores,
          comparisons ++
            [{| Comparison.category := category;
                Comparison.quiz_normalized := CategoryScore.normalized_score scores;
                Comparison.self_normalized := self_normalized;
                Comparison.difference :=
                  fsub (CategoryScore.normalized_score scores) self_normalized |}])
    else Ok (mc_scores, self_scores, comparisons)
  else Ok (mc_scores, self_scores, comparisons).

(** The body of the loop of [analyze_user_performance] over the users *)
Definition analyze_user (self_assessed_categories : list pyval)
           (max_score : Z) (user_data : User.t) : result Analysis.t :=
  total_score <- match User.total_score user_data with
                 | Some ts => Ok ts
                 | None => Raise KeyError
                 end ;;
  by_category <- match User.score_by_category user_data with
                 | Some cs => Ok cs
                 | None => Raise KeyError
                 end ;;
  '(mc_scores, self_scores, comparisons) <-
    for_each (analyze_category self_assessed_categories max_score user_data)
             by_category ([], [], []) ;;
  total_percentage <-
    (if 0 <? TotalScore.points_possible total_score then
       ratio <- truediv (float_of_Z (TotalScore.points_earned total_score))
                        (float_of_Z (TotalScore.points_possible total_score)) ;;
       Ok (round (fmul ratio (float_of_Z 100)) 1)
     else Ok (float_of_Z 0)) ;;
  average <-
    (match self_scores with
     | _ :: _ =>
         mean <- truediv (fsum (map SelfScore.score self_scores))
                         (float_of_Z (len self_scores)) ;;
         Ok (round mean 1)
     | [] => Ok (float_of_Z 0)
     end) ;;
  average_difference <-
    (match comparisons with
     | _ :: _ =>
         mean <- truediv (fsum (map Comparison.difference comparisons))
                         (float_of_Z (len comparisons)) ;;
         Ok (round mean 3)
     | [] => Ok (float_of_Z 0)
     end) ;;
  let user_analysis :=
    {| Analysis.total_score :=
         {| Analysis.points := TotalScore.points_earned total_score;
            Analysis.possible := TotalScore.points_possible total_score;
            Analysis.percentage := total_percentage |};
       Analysis.mc_quiz :=
         {| Analysis.mc_scores := mc_scores;
            Analysis.total_points := Zsum (map McScore.points mc_scores);
            Analysis.total_possible := Zsum (map McScore.possible mc_scores) |};
       Analysis.self_assessment :=
         {| Analysis.self_scores := self_scores;
            Analysis.average := average |};
       Analysis.comparison :=
         {| Analysis.by_category := comparisons;
            Analysis.average_difference := average_difference;
            Analysis.accurate_count := count_if is_accurate comparisons;
            Analysis.overestimate_count := count_if is_overestimate comparisons;
            Analysis.underestimate_count := count_if is_underestimate comparisons |};
       Analysis.proficiency := None |} in
  proficiency <- calculate_proficiency_score user_analysis ;;
  Ok (Analysis.set_proficiency proficiency user_analysis).

(** [PerformanceAnalyzer.analyze_user_performance], on the data the
    analyzer was built with *)
Definition analyze_user_performance (data : Data.t)
  : result (dict pyval Analysis.t) :=
  let self_assessed_categories :=
    Metadata.self_assessment_categories (Data.metadata data) in
  let max_score := Metadata.self_assessment_max_score (Data.metadata data) in
  for_each
    (fun (item : pyval * User.t) analysis =>
       user_analysis <-
         analyze_user self_assessed_categories max_score (snd item) ;;
       Ok (dict_set (fst item) user_analysis analysis))
    (Data.users data) [].
End Analyzer.

(** The part of the loop of [get_overall_statistics] that keeps the
    comparison statistics of a user *)
Definition comparison_stats_of (user_data : Analysis.t)
  : result (option user_stats) :=
  let comparison := Analysis.comparison user_data in
  match Analysis.by_category comparison with
  | [] => Ok None
  | (_ :: _) as by_category =>
      let n := float_of_Z (len by_category) in
      accurate <- truediv (float_of_Z (Analysis.accurate_count comparison)) n ;;
      over <- truediv (float_of_Z (Analysis.overestimate_count comparison)) n ;;
      under <- truediv (float_of_Z (Analysis.underestimate_count comparison)) n ;;
      Ok (Some {| stat_average_difference := Analysis.average_difference comparison;
                  stat_accurate_ratio := accurate;
                  stat_overestimate_ratio := over;
                  stat_underestimate_ratio := under |})
  end.

(** The body of the loop of [get_overall_statistics]; the three lists are
    [all_scores], [user_self_assessment_averages] and
    [user_comparison_stats]. *)
Definition collect_user (user_data : Analysis.t)
           (acc : list McScore.t * list pyfloat * list user_stats)
  : result (list McScore.t * list pyfloat * list user_stats) :=
  let '(all_scores, averages, stats) := acc in
  let all_scores :=
    all_scores ++ Analysis.mc_scores (Analysis.mc_quiz user_data) in
  let averages :=
    match Analysis.self_scores (Analysis.self_assessment user_data) with
    | _ :: _ => averages ++ [Analysis.average (Analysis.self_assessment user_data)]
    | [] => averages
    end in
  user_stats <- comparison_stats_of user_data ;;
  Ok (all_scores, averages,
      match user_stats with
      | Some st => stats ++ [st]
      | None => stats
      end).

(** [round(sum(stats[key] for stats in user_comparison_stats) / num_users, 3)] *)
Definition mean_ratio (key : user_stats -> pyfloat) (stats : list user_stats)
  : result pyfloat :=
  mean <- truediv (fsum (map key stats)) (float_of_Z (len stats)) ;;
  Ok (round mean 3).

(** [PerformanceAnalyzer.get_overall_statistics] *)
Definition get_overall_statistics (analysis : dict pyval Analysis.t)
  : result Overall.t :=
  '(all_scores, averages, stats) <-
    for_each collect_user (values analysis) ([], [], []) ;;
  let num_users := len stats in
  average_difference <- mean_ratio stat_average_difference stats ;;
  accurate_ratio <- mean_ratio stat_accurate_ratio stats ;;
  overestimate_ratio <- mean_ratio stat_overestimate_ratio stats ;;
  underestimate_ratio <- mean_ratio stat_underestimate_ratio stats ;;
  average_percentage <-
    (match all_scores with
     | _ :: _ =>
         mean <- truediv (fsum (map McScore.percentage all_scores))
                         (float_of_Z (len all_scores)) ;;
         Ok (round mean 1)
     | [] => Ok (float_of_Z 0)
     end) ;;
  average_score <-
    (match averages with
     | _ :: _ =>
         mean <- truediv (fsum averages) (float_of_Z (len averages)) ;;
         Ok (round mean 1)
     | [] => Ok (float_of_Z 0)
     end) ;;
  Ok {| Overall.quiz_performance :=
          {| Overall.total_points := Zsum (map McScore.points all_scores);
             Overall.total_possible := Zsum (map McScore.possible all_scores);
             Overall.average_percentage := average_percentage |};
        Overall.self_assessment :=
          {| Overall.average_score := average_score;
             Overall.rated_users := len averages;
             Overall.min_average :=
               match averages with
               | a :: rest => round (fmin_list a rest) 1
               | [] => float_of_Z 0
               end;
             Overall.max_average :=
               match averages with
               | a :: rest => round (fmax_list a rest) 1
               | [] => float_of_Z 0
               end |};
        Overall.comparison :=
          {| Overall.compared_users := num_users;
             Overall.average_difference := average_difference;
             Overall.accurate_ratio := accurate_ratio;
             Overall.overestimate_ratio := overestimate_ratio;
             Overall.underestimate_ratio := underestimate_ratio |} |}.

(** [main], up to the printing of the results: load, analyze, summarize *)
Definition run (int_of_str : string -> option Z)
           (float_of_str : string -> option pyfloat) (float_sqrt : Q -> Q)
           (files : data_dir)
  : result (dict pyval Analysis.t * Overall.t) :=
  '(_, data) <- load_all_data int_of_str float_of_str (init files None) ;;
  analysis <- analyze_user_performance float_sqrt data ;;
  overall_stats <- get_overall_statistics analysis ;;
  Ok (analysis, overall_stats).

(* ------------------------------------------------------------------ *)
(** ** Notions used to state the properties *)

(** The keys of a dictionary are compared by a test that decides equality. *)
Class KeyLaws (K : Type) `{Key K} : Prop :=
  keqb_eq : forall a b : K, keqb a b = true <-> a = b.

Arguments KeyLaws K {_}.


(** Two cells hold the same value: the same text, or the same number. A
    missing cell holds no value. *)
Definition same_value (a b : pyval) : Prop :=
  match a, b with
  | VNum p, VNum q => (p == q)%Q
  | VStr s, VStr t => s = t
  | _, _ => False
  end.



(** The scores of the proficiency formula, in the words of the
    specification. *)
Definition accuracy_of (differences : list pyfloat) : pyfloat :=
  fmul (fsub (float_of_Z 1)
             (fquot (fsum (map fabs differences)) (float_of_Z (len differences))))
       (float_of_Z 100).

Definition consistency_of (std_dev : pyfloat) : pyfloat :=
  fmul (fsub (float_of_Z 1) (fmin2 std_dev (float_of_Z 1))) (float_of_Z 100).

Definition weighted (performance accuracy consistency : pyfloat) : pyfloat :=
  fadd (fadd (fmul (Fin (60 # 100)) performance)
             (fmul (Fin (20 # 100)) accuracy))
       (fmul (Fin (20 # 100)) consistency).

(** Every stored response was graded from a question of the bank. *)
Definition graded (qs : dict string Question.t) (us : dict pyval User.t) : Prop :=
  forall u ud q_id r,
    In (u, ud) us -> In (q_id, r) (User.responses ud) ->
    exists q timestamp answer, In (q_id, q) qs /\ r = grade timestamp answer q.

(** The users of the second dictionary are users of the first, with the
    same responses. *)
Definition same_responses (us us' : dict pyval User.t) : Prop :=
  forall u ud', In (u, ud') us' ->
    exists ud, In (u, ud) us /\ User.responses ud' = User.responses ud.

(** No user has a self-assessment record. *)
Definition unrated (us : dict pyval User.t) : Prop :=
  forall u ud, In (u, ud) us -> User.self_assessment ud = None.

(** [row] is the last row of [rws] whose user identifier is [u]. *)
Definition last_row_of (cols : list string) (u : pyval)
           (rws : list (list pyval)) (row : list pyval) : Prop :=
  exists before after,
    rws = before ++ row :: after /\
    row_get cols row "user_id" = Ok u /\
    forall r, In r after -> row_get cols r "user_id" <> Ok u.

(** Every stored response answers a question whose text is a column of the
    results. *)
Definition recorded (cols : list string) (qs : dict string Question.t)
           (us : dict pyval User.t) : Prop :=
  forall u ud q_id r,
    dict_get u us = Some ud -> dict_get q_id (User.responses ud) = Some r ->
    exists q, In (q_id, q) qs /\ in_columns (Question.text q) cols = true.

(** Every self-assessment record was read from a row of its user. *)
Definition rated_from (float_of_str : string -> option pyfloat)
           (cats : list pyval) (df : DataFrame) (us : dict pyval User.t) : Prop :=
  forall u ud sa,
    dict_get u us = Some ud -> User.self_assessment ud = Some sa ->
    exists row,
      In row (rows df) /\
      row_get (columns df) row "user_id" = Ok u /\
      row_get (columns df) row "date_time" = Ok (SelfAssessment.timestamp sa) /\
      for_each (rate_category float_of_str (columns df) row) cats []
        = Ok (SelfAssessment.scores sa).

(** The responses a user had before a row, or none for a new user *)
Definition responses_before (u : pyval) (us : dict pyval User.t)
  : dict string Response.t :=
  match dict_get u us with
  | Some ud => User.responses ud
  | None => []
  end.

(** A category of a user is compared when it is in the global set of
    self-assessed categories and the user has points to earn in it. *)
Definition qualifies (self_assessed_categories : list pyval)
           (item : pyval * CategoryScore.t) : bool :=
  mem (fst item) self_assessed_categories
  && (0 <? CategoryScore.points_possible (snd item)).

(** The comparison entry of a compared category whose normalized
    self-assessment is there *)
Definition comparison_entry (item : pyval * CategoryScore.t) : Comparison.t :=
  let self_normalized :=
    match CategoryScore.normalized_self_assessment (snd item) with
    | Some n => n
    | None => NaN
    end in
  {| Comparison.category := fst item;
     Comparison.quiz_normalized := CategoryScore.normalized_score (snd item);
     Comparison.self_normalized := self_normalized;
     Comparison.difference :=
       fsub (CategoryScore.normalized_score (snd item)) self_normalized |}.

(** The self-assessment entry of a compared category of a rated user *)
Definition self_entry (rated : dict pyval pyfloat) (max_score : Z)
           (item : pyval * CategoryScore.t) : SelfScore.t :=
  {| SelfScore.category := fst item;
     SelfScore.score := match dict_get (fst item) rated with
                        | Some s => s
                        | None => float_of_Z 0
                        end;
     SelfScore.out_of := max_score |}.

(** The claim that a normalized self-assessment is there only for a
    category the user rated with a value: the file has a row of the user
    whose cell for the category is not missing. *)
Definition valued_in_file (df : DataFrame) (u c : pyval) : Prop :=
  exists row cell,
    In row (rows df) /\
    row_get (columns df) row "user_id" = Ok u /\
    in_columns c (columns df) = true /\
    row_item (columns df) row c = Ok cell /\
    cell <> VNaN.

Definition rated_only_with_a_value (files : data_dir) (data : Data.t) : Prop :=
  forall u ud by_category c scores n,
    dict_get u (Data.users data) = Some ud ->
    User.score_by_category ud = Some by_category ->
    dict_get c by_category = Some scores ->
    CategoryScore.normalized_self_assessment scores = Some n ->
    exists file,
      self_assessment_csv files = Some file /\
      valued_in_file (rename (inverse_of default_mappings) file) u c.

(** The scores a user rated, none for a user without a record *)
Definition scores_of (ud : User.t) : dict pyval pyfloat :=
  match User.self_assessment ud with
  | Some sa => SelfAssessment.scores sa
  | None => []
  end.

(** The users whose analysis has at least one self-assessment score, and
    their averages in the order of the analysis. *)
Definition has_self_scores (a : Analysis.t) : bool :=
  match Analysis.self_scores (Analysis.self_assessment a) with
  | [] => false
  | _ :: _ => true
  end.

Definition rated_averages (analysis : dict pyval Analysis.t) : list pyfloat :=
  map (fun a => Analysis.average (Analysis.self_assessment a))
      (filter has_self_scores (values analysis)).


(** The frame a loader method works on: the file after the renaming. *)
Definition renamed (self : DataLoader) (df : DataFrame) : DataFrame :=
  rename (inverse_of (column_mappings self)) df.

(** Builtins for the sample data below, which hold no text in a numeric
    column: no text converts. *)
Definition no_int (s : string) : option Z := None.
Definition no_float (s : string) : option pyfloat := None.
(** A square root that is exact on the square of a fraction in lowest
    terms, which is all the sample data below take the root of. *)
Definition sample_sqrt (q : Q) : Q := Z.sqrt (Qnum q) # Pos.sqrt (Qden q).

(** Sample data: one question worth one point in category "X"; user "u1"
    answers it, user "u2" answers with another casing. *)
Definition sample_questions : DataFrame :=
  {| columns := ["question"; "category"; "answer"; "value"];
     rows := [[VStr "Capital?"; VStr "X"; VStr "Paris"; VNum 1]] |}.

Definition sample_results : DataFrame :=
  {| columns := ["date_time"; "user_id"; "Capital?"];
     rows := [[VStr "t1"; VStr "u1"; VStr "Paris"];
              [VStr "t2"; VStr "u2"; VStr "paris"]] |}.

(** Only "u1" has a row in the self-assessment. *)
Definition sample_rating_one : DataFrame :=
  {| columns := ["date_time"; "user_id"; "X"];
     rows := [[VStr "t3"; VStr "u1"; VNum 10]] |}.

(** Both users have a row; the cell of "u2" for "X" is empty. *)
Definition sample_rating_blank : DataFrame :=
  {| columns := ["date_time"; "user_id"; "X"];
     rows := [[VStr "t3"; VStr "u1"; VNum 10];
              [VStr "t4"; VStr "u2"; VNaN]] |}.

(** Both users rated "X". *)
Definition sample_rating_both : DataFrame :=
  {| columns := ["date_time"; "user_id"; "X"];
     rows := [[VStr "t3"; VStr "u1"; VNum 10];
              [VStr "t4"; VStr "u2"; VNum 1]] |}.

Definition sample_files (rating : option DataFrame) : data_dir :=
  {| questions_csv := Some sample_questions;
     results_csv := Some sample_results;
     self_assessment_csv := rating |}.

(** The same user on two rows of both files. *)
Definition repeated_results : DataFrame :=
  {| columns := ["date_time"; "user_id"; "Capital?"];
     rows := [[VStr "t1"; VStr "u1"; VStr "Rome"];
              [VStr "t2"; VStr "u1"; VStr "Paris"]] |}.

Definition repeated_rating : DataFrame :=
  {| columns := ["date_time"; "user_id"; "X"];
     rows := [[VStr "t3"; VStr "u1"; VNum 2];
              [VStr "t4"; VStr "u1"; VNum 7]] |}.

Definition repeated_files : data_dir :=
  {| questions_csv := Some sample_questions;
     results_csv := Some repeated_results;
     self_assessment_csv := Some repeated_rating |}.

(** A user as the loader leaves it: three categories, all rated. The
    differences are 0 for "X", exactly 1/10 for "Y" and -1/2 for "Z". *)
Definition sample_user : User.t :=
  {| User.responses := [];
     User.self_assessment :=
       Some {| SelfAssessment.timestamp := VStr "t3";
               SelfAssessment.scores :=
                 [(VStr "X", Fin 10); (VStr "Y", Fin 4); (VStr "Z", Fin 5)] |};
     User.total_score :=
       Some {| TotalScore.points_earned := 2;
               TotalScore.points_possible := 4;
               TotalScore.normalized_score := Fin (1 # 2) |};
     User.score_by_category :=
       Some [(VStr "X", {| CategoryScore.points_earned := 1;
                           CategoryScore.points_possible := 1;
                           CategoryScore.normalized_score := Fin 1;
                           CategoryScore.normalized_self_assessment := Some (Fin 1) |});
             (VStr "Y", {| CategoryScore.points_earned := 1;
                           CategoryScore.points_possible := 2;
                           CategoryScore.normalized_score := Fin (1 # 2);
                           CategoryScore.normalized_self_assessment := Some (Fin (2 # 5)) |});
             (VStr "Z", {| CategoryScore.points_earned := 0;
                           CategoryScore.points_possible := 1;
                           CategoryScore.normalized_score := Fin 0;
                           CategoryScore.normalized_self_assessment := Some (Fin (1 # 2)) |})] |}.

Definition sample_categories : list pyval := [VStr "X"; VStr "Y"; VStr "Z"].


(* ------------------------------------------------------------------ *)
(** ** Further notions, for the properties of the loader and the analyzer *)

(** [f"Q{n}"] *)
Definition question_id (n : nat) : string := ("Q" ++ str_of_nat n)%string.

(** The dictionary that [_load_questions] builds from one row *)
Definition question_of_row (int_of_str : string -> option Z)
           (cols : list string) (row : list pyval) : result Question.t :=
  text <- row_get cols row "question" ;;
  category <- row_get cols row "category" ;;
  answer <- row_get cols row "answer" ;;
  value <- row_get cols row "value" ;;
  worth <- py_int int_of_str value ;;
  Ok {| Question.text := text;
        Question.category := category;
        Question.correct_answer := answer;
        Question.worth := worth |}.

(** A question is asked by a results frame when its text is a column. *)
Definition asked (cols : list string) (item : string * Question.t) : bool :=
  in_columns (Question.text (snd item)) cols.

(** A user's responses have one entry per asked question, in the order of
    the bank. *)
Definition uniform (ks : list string) (us : dict pyval User.t) : Prop :=
  forall u ud, dict_get u us = Some ud -> keys (User.responses ud) = ks.

(** A self-assessment whose only row is for a user who is not in the
    results. *)
Definition sample_rating_stranger : DataFrame :=
  {| columns := ["date_time"; "user_id"; "X"];
     rows := [[VStr "t5"; VStr "u9"; VNum 5]] |}.


(** The users whose analysis has at least one comparison entry *)
Definition has_comparisons (a : Analysis.t) : bool :=
  match Analysis.by_category (Analysis.comparison a) with
  | [] => false
  | _ :: _ => true
  end.

(** The difference of a comparison entry is clear of the two thresholds:
    it is a number whose absolute value is not exactly 0.1. *)
Definition off_threshold (c : Comparison.t) : Prop :=
  exists d, Comparison.difference c = Fin d /\ ~ (Qabs d == 1 # 10)%Q.

(** The entry of [analysis] that [analyze_user_performance] computes for
    one entry of [data["users"]] *)
Definition analyze_entry (float_sqrt : Q -> Q) (data : Data.t)
           (item : pyval * User.t) : result (pyval * Analysis.t) :=
  user_analysis <-
    analyze_user float_sqrt
                 (Metadata.self_assessment_categories (Data.metadata data))
                 (Metadata.self_assessment_max_score (Data.metadata data))
                 (snd item) ;;
  Ok (fst item, user_analysis).

(** The categories that the last loop of [_combine_data] visits for a
    user: the keys of the scores when the user has a self-assessment with
    scores, none otherwise. *)
Definition rated_categories (user_data : User.t) : list pyval :=
  match rated_scores user_data with
  | Some scores => keys scores
  | None => []
  end.

(** A metadata entry as the loop over the questions leaves it *)
Definition unmarked (entry : CategoryMeta.t) : Prop :=
  CategoryMeta.has_self_assessment entry = false /\
  CategoryMeta.self_assessment_max entry = 0.

(** The same category with the same counts *)
Definition same_counts (a b : pyval * CategoryMeta.t) : Prop :=
  fst a = fst b /\
  CategoryMeta.question_count (snd a) = CategoryMeta.question_count (snd b) /\
  CategoryMeta.total_points (snd a) = CategoryMeta.total_points (snd b).

(** The sample loader after its three files are read: two users, of whom
    the first rated the only category *)
Definition sample_loader : DataLoader :=
  let self := init (sample_files (Some sample_rating_one)) None in
  match (self <- _load_questions no_int self ;;
         self <- _load_responses self ;;
         _load_self_assessment no_float self) with
  | Ok loaded => loaded
  | Raise _ => self
  end.

(** What the analysis of a category needs from the loaded user: when the
    category is compared, the user has a self-assessment record and the
    category has a normalized self-assessment. *)
Definition comparable (self_assessed_categories : list pyval)
           (user_data : User.t) (item : pyval * CategoryScore.t) : Prop :=
  qualifies self_assessed_categories item = true ->
  User.self_assessment user_data <> None /\
  CategoryScore.normalized_self_assessment (snd item) <> None.

(** [scores["points_possible"] > 0]: the category is listed in [mc_scores] *)
Definition has_points (item : pyval * CategoryScore.t) : bool :=
  0 <? CategoryScore.points_possible (snd item).

(** No question is worth a negative number of points. *)
Definition worth_not_negative (qs : dict string Question.t) : Prop :=
  forall q_id q, In (q_id, q) qs -> 0 <= Question.worth q.

(** The points earned in every category lie between 0 and the points
    possible. *)
Definition within_possible (category_scores : dict pyval (Z * Z)) : Prop :=
  forall c e, In (c, e) category_scores -> 0 <= fst e <= snd e.
(* ------------------------------------------------------------------ *)
(** * Properties *)

Unset Implicit Arguments.

(** ** Results and loops *)

Lemma bind_Ok {A B : Type} (m : result A) (k : A -> result B) (b : B) :
  bind m k = Ok b -> exists a, m = Ok a /\ k a = Ok b.
Proof. destruct m as [a|e]; simpl; [eauto | discriminate]. Qed.

(** Splits a hypothesis [x <- m ;; k = Ok b] into its two steps. *)
Ltac bind_inv H :=
  let a := fresh "a" in
  let E := fresh "E" in
  apply bind_Ok in H; destruct H as (a & E & H).

Lemma for_each_app {A S : Type} (body : A -> S -> result S) (xs ys : list A) (s : S) :
  for_each body (xs ++ ys) s = (s' <- for_each body xs s ;; for_each body ys s').
Proof.
  revert s; induction xs as [|x xs IH]; intros s; simpl; [reflexivity|].
  destruct (body x s); simpl; auto.
Qed.

(** A property kept by every step of a loop that ends holds at its end. *)
Lemma for_each_invariant {A S : Type} (P : S -> Prop)
      (body : A -> S -> result S) (xs : list A) :
  (forall x s s', In x xs -> P s -> body x s = Ok s' -> P s') ->
  forall s s', P s -> for_each body xs s = Ok s' -> P s'.
Proof.
  induction xs as [|x xs IH]; intros step s s' Hs Hrun; simpl in Hrun.
  - inversion Hrun; subst; exact Hs.
  - bind_inv Hrun. apply IH with (s := a); auto.
    + intros y t t' Hy. apply step. right; exact Hy.
    + apply step with (x := x) (s := s); auto. left; reflexivity.
Qed.

(** A loop whose steps all succeed on the states that satisfy an invariant
    succeeds. *)
Lemma for_each_total {A S : Type} (P : S -> Prop)
      (body : A -> S -> result S) (xs : list A) :
  (forall x s, In x xs -> P s -> exists s', body x s = Ok s' /\ P s') ->
  forall s, P s -> exists s', for_each body xs s = Ok s' /\ P s'.
Proof.
  induction xs as [|x xs IH]; intros step s Hs; simpl.
  - eauto.
  - destruct (step x s (or_introl eq_refl) Hs) as (s1 & E1 & H1).
    rewrite E1; simpl. apply IH; auto.
    intros y t Hy. apply step. right; exact Hy.
Qed.

(** A loop raises what one of its steps raises. *)
Lemma for_each_Raise {A S : Type} (body : A -> S -> result S) (xs : list A)
      (s : S) (e : exn) :
  for_each body xs s = Raise e -> exists x s0, In x xs /\ body x s0 = Raise e.
Proof.
  revert s; induction xs as [|x xs IH]; intros s; simpl; [discriminate|].
  destruct (body x s) as [s1|e1] eqn:E; simpl.
  - intros Hrun. destruct (IH _ Hrun) as (y & s0 & Hy & Hb).
    exists y, s0; auto.
  - intros [= <-]. exists x, s; auto.
Qed.

Lemma traverse_In {A B : Type} (f : A -> result B) (xs : list A) (ys : list B) :
  traverse f xs = Ok ys ->
  forall y, In y ys -> exists x, In x xs /\ f x = Ok y.
Proof.
  revert ys; induction xs as [|x xs IH]; intros ys Hrun y Hy; simpl in Hrun.
  - inversion Hrun; subst. destruct Hy.
  - bind_inv Hrun. bind_inv Hrun. inversion Hrun; subst.
    destruct Hy as [->|Hy].
    + exists x; split; [left; reflexivity | assumption].
    + destruct (IH _ E0 _ Hy) as (x' & Hx' & Hf). exists x'; auto with datatypes.
Qed.

Lemma traverse_total {A B : Type} (f : A -> result B) (xs : list A) :
  (forall x, In x xs -> exists y, f x = Ok y) ->
  exists ys, traverse f xs = Ok ys.
Proof.
  induction xs as [|x xs IH]; intros step; simpl; [eauto|].
  destruct (step x (or_introl eq_refl)) as (y & ->); simpl.
  destruct IH as (ys & ->); [|simpl; eauto].
  intros x' Hx'. apply step. right; exact Hx'.
Qed.

(** ** Dictionaries *)

#[export] Instance KeyLaws_string : KeyLaws string.
Proof. exact String.eqb_eq. Qed.

Lemma Q_eqb_eq (a b : Q) : Q_eqb a b = true <-> a = b.
Proof.
  unfold Q_eqb. rewrite andb_true_iff, Z.eqb_eq, Pos.eqb_eq.
  destruct a, b; simpl; split.
  - intros [-> ->]; reflexivity.
  - intros E; inversion E; auto.
Qed.

#[export] Instance KeyLaws_pyval : KeyLaws pyval.
Proof.
  intros a b. unfold keqb, Key_pyval.
  destruct a, b; simpl; try (split; [discriminate | congruence]).
  - tauto.
  - rewrite Q_eqb_eq. split; congruence.
  - rewrite String.eqb_eq. split; congruence.
Qed.

Section DictFacts.
Context {K V : Type} `{KeyLaws K}.

Lemma keqb_refl (k : K) : keqb k k = true.
Proof. apply keqb_eq; reflexivity. Qed.

Lemma keqb_neq (a b : K) : a <> b -> keqb a b = false.
Proof.
  intros N. destruct (keqb a b) eqn:E; [|reflexivity].
  apply keqb_eq in E. contradiction.
Qed.

Lemma key_eq_dec (a b : K) : a = b \/ a <> b.
Proof.
  destruct (keqb a b) eqn:E.
  - left. apply keqb_eq; exact E.
  - right. intros ->. rewrite keqb_refl in E. discriminate.
Qed.

Lemma dict_get_set_same (k : K) (v : V) (d : dict K V) :
  dict_get k (dict_set k v d) = Some v.
Proof.
  induction d as [|[k' v'] d IH]; simpl.
  - rewrite keqb_refl; reflexivity.
  - destruct (keqb k' k) eqn:E; simpl; rewrite E; auto.
Qed.

Lemma dict_get_set_other (k k' : K) (v : V) (d : dict K V) :
  k <> k' -> dict_get k' (dict_set k v d) = dict_get k' d.
Proof.
  intros N. induction d as [|[k0 v0] d IH]; simpl.
  - rewrite keqb_neq; auto.
  - destruct (keqb k0 k) eqn:E; simpl.
    + apply keqb_eq in E; subst k0. rewrite keqb_neq; auto.
    + rewrite IH; reflexivity.
Qed.

Lemma dict_get_In (k : K) (v : V) (d : dict K V) :
  dict_get k d = Some v -> In (k, v) d.
Proof.
  induction d as [|[k' v'] d IH]; simpl; [discriminate|].
  destruct (keqb k' k) eqn:E.
  - apply keqb_eq in E; subst. intros [= ->]; left; reflexivity.
  - intros G; right; auto.
Qed.

Lemma In_dict_get (k : K) (v : V) (d : dict K V) :
  NoDup (keys d) -> In (k, v) d -> dict_get k d = Some v.
Proof.
  induction d as [|[k' v'] d IH]; simpl; intros ND Hin; [destruct Hin|].
  inversion ND as [|? ? Hk ND']; subst.
  destruct Hin as [[= -> ->]|Hin].
  - rewrite keqb_refl; reflexivity.
  - destruct (keqb k' k) eqn:E.
    + apply keqb_eq in E; subst k'. exfalso; apply Hk.
      change k with (fst (k, v)). apply in_map; exact Hin.
    + auto.
Qed.

Lemma dict_mem_true (k : K) (d : dict K V) :
  dict_mem k d = true <-> exists v, dict_get k d = Some v.
Proof.
  unfold dict_mem. destruct (dict_get k d); split; eauto; try discriminate.
  intros (v & E); discriminate.
Qed.

Lemma dict_mem_keys (k : K) (d : dict K V) :
  dict_mem k d = true <-> In k (keys d).
Proof.
  rewrite dict_mem_true. split.
  - intros (v & G). apply dict_get_In in G.
    change k with (fst (k, v)). apply in_map; exact G.
  - induction d as [|[k' v'] d IH]; simpl; [tauto|].
    intros [->|Hin].
    + rewrite keqb_refl; eauto.
    + destruct (keqb k' k); eauto.
Qed.

(** An entry of [d] after [d[k] = v] is the new one or was there before. *)
Lemma In_dict_set (k k' : K) (v v' : V) (d : dict K V) :
  In (k', v') (dict_set k v d) -> (k' = k /\ v' = v) \/ In (k', v') d.
Proof.
  induction d as [|[k0 v0] d IH]; simpl.
  - intros [[= <- <-]|[]]; auto.
  - destruct (keqb k0 k) eqn:E; simpl.
    + apply keqb_eq in E; subst k0.
      intros [[= <- <-]|Hin]; auto.
    + intros [Heq|Hin]; auto. destruct (IH Hin); auto.
Qed.

Lemma keys_dict_set (k : K) (v : V) (d : dict K V) :
  keys (dict_set k v d) = if dict_mem k d then keys d else keys d ++ [k].
Proof.
  unfold dict_mem. induction d as [|[k0 v0] d IH]; simpl; [reflexivity|].
  destruct (keqb k0 k) eqn:E; simpl; [reflexivity|].
  unfold keys in *. rewrite IH. destruct (dict_get k d); reflexivity.
Qed.

Lemma NoDup_dict_set (k : K) (v : V) (d : dict K V) :
  NoDup (keys d) -> NoDup (keys (dict_set k v d)).
Proof.
  intros ND. rewrite keys_dict_set.
  destruct (dict_mem k d) eqn:M; [exact ND|].
  apply NoDup_app; [exact ND | repeat constructor; intros [] | ].
  intros x Hx [<-|[]].
  apply dict_mem_keys in Hx. congruence.
Qed.

Lemma dict_item_Ok (k : K) (v : V) (d : dict K V) :
  dict_item k d = Ok v <-> dict_get k d = Some v.
Proof.
  unfold dict_item. destruct (dict_get k d); split; congruence.
Qed.
End DictFacts.

Lemma mem_In {K : Type} `{KeyLaws K} (k : K) (xs : list K) :
  mem k xs = true <-> In k xs.
Proof.
  unfold mem. rewrite existsb_exists. split.
  - intros (x & Hx & E). apply keqb_eq in E; subst; exact Hx.
  - intros Hin. exists k; split; [exact Hin | apply keqb_refl].
Qed.

(** ** Floats *)



Lemma Zsum_from (xs : list Z) (z : Z) : fold_left Z.add xs z = z + Zsum xs.
Proof.
  unfold Zsum. revert z; induction xs as [|x xs IH]; intros z; simpl; [lia|].
  rewrite IH, (IH x). lia.
Qed.

Lemma Zsum_cons (x : Z) (xs : list Z) : Zsum (x :: xs) = x + Zsum xs.
Proof. unfold Zsum at 1; simpl. apply Zsum_from. Qed.

Lemma count_if_filter {A : Type} (cond : A -> bool) (xs : list A) :
  count_if cond xs = len (filter cond xs).
Proof.
  unfold count_if, len. induction (filter cond xs) as [|y ys IH].
  - reflexivity.
  - cbn [map List.length]. rewrite Zsum_cons, IH. lia.
Qed.

Lemma truediv_Ok (a b : pyfloat) :
  is_zero b = false -> truediv a b = Ok (fquot a b).
Proof. unfold truediv; intros ->; reflexivity. Qed.

Lemma is_zero_float_of_Z (z : Z) : z <> 0 -> is_zero (float_of_Z z) = false.
Proof.
  intros N. unfold is_zero, float_of_Z.
  destruct (Qeq_bool (inject_Z z) 0) eqn:E; [|reflexivity].
  apply Qeq_bool_iff in E. unfold Qeq in E; simpl in E. lia.
Qed.

Lemma truediv_positive (a : pyfloat) (z : Z) :
  0 < z -> truediv a (float_of_Z z) = Ok (fquot a (float_of_Z z)).
Proof. intros P. apply truediv_Ok, is_zero_float_of_Z. lia. Qed.

Lemma len_cons_pos {A : Type} (x : A) (xs : list A) : 0 < len (x :: xs).
Proof. unfold len; simpl List.length. lia. Qed.

(** ** The analysis of one user *)

Section AnalyzerFacts.
Variable float_sqrt : Q -> Q.

(** What a completed analysis of a user is made of. *)
Lemma analyze_user_Ok (sac : list pyval) (max_score : Z) (ud : User.t)
      (a : Analysis.t) :
  analyze_user float_sqrt sac max_score ud = Ok a ->
  exists ts bc mc ss,
    User.total_score ud = Some ts /\
    User.score_by_category ud = Some bc /\
    for_each (analyze_category sac max_score ud) bc ([], [], [])
      = Ok (mc, ss, Analysis.by_category (Analysis.comparison a)) /\
    Analysis.mc_scores (Analysis.mc_quiz a) = mc /\
    Analysis.self_scores (Analysis.self_assessment a) = ss /\
    Analysis.accurate_count (Analysis.comparison a)
      = count_if is_accurate (Analysis.by_category (Analysis.comparison a)) /\
    Analysis.overestimate_count (Analysis.comparison a)
      = count_if is_overestimate (Analysis.by_category (Analysis.comparison a)) /\
    Analysis.underestimate_count (Analysis.comparison a)
      = count_if is_underestimate (Analysis.by_category (Analysis.comparison a)) /\
    calculate_proficiency_score float_sqrt a = Ok (Analysis.proficiency a).
Proof.
  unfold analyze_user. intros Hrun.
  destruct (User.total_score ud) as [ts|]; [|discriminate].
  destruct (User.score_by_category ud) as [bc|]; [|discriminate].
  simpl in Hrun. bind_inv Hrun. destruct a0 as [[mc ss] cmp].
  bind_inv Hrun. bind_inv Hrun. bind_inv Hrun. bind_inv Hrun.
  inversion Hrun; subst a; clear Hrun. simpl.
  exists ts, bc, mc, ss. repeat split; auto.
Qed.
End AnalyzerFacts.

(** ** The population standard deviation behind [np_std] *)






(** ** The three counts of a comparison (C5) *)



(** ** The proficiency score (C6) *)

Lemma calculate_proficiency_score_cases (float_sqrt : Q -> Q) (a : Analysis.t) :
  let entries := Analysis.by_category (Analysis.comparison a) in
  let ds := map Comparison.difference entries in
  let std := if 1 <? len ds then np_std float_sqrt ds else float_of_Z 0 in
  calculate_proficiency_score float_sqrt a =
    match entries with
    | [] => Ok None
    | _ :: _ =>
        Ok (Some
              {| Proficiency.overall_proficiency :=
                   round (weighted (Analysis.percentage (Analysis.total_score a))
                                   (accuracy_of ds) (consistency_of std)) 1;
                 Proficiency.performance_score :=
                   round (Analysis.percentage (Analysis.total_score a)) 1;
                 Proficiency.accuracy_score := round (accuracy_of ds) 1;
                 Proficiency.consistency_score := round (consistency_of std) 1;
                 Proficiency.differences := ds;
                 Proficiency.std_dev := std |})
    end.
Proof.
  unfold calculate_proficiency_score.
  destruct (Analysis.by_category (Analysis.comparison a)) as [|c cs]; [reflexivity|].
  cbv zeta. rewrite truediv_positive.
  - reflexivity.
  - unfold len. rewrite length_map. simpl List.length. lia.
Qed.



(** ** The overall statistics without comparison data (C1) *)

Lemma collect_user_without_comparison (a : Analysis.t)
      (acc : list McScore.t * list pyfloat * list user_stats) :
  Analysis.by_category (Analysis.comparison a) = [] ->
  exists scores averages,
    collect_user a acc = Ok (scores, averages, snd acc).
Proof.
  intros E. destruct acc as [[scores averages] stats].
  unfold collect_user, comparison_stats_of. rewrite E. simpl. eauto.
Qed.

(** As soon as no user has a comparison entry, the cross-user ratios divide
    by zero and the exception leaves [get_overall_statistics]. *)
Lemma overall_statistics_divide_by_zero (analysis : dict pyval Analysis.t) :
  (forall a, In a (values analysis) ->
             Analysis.by_category (Analysis.comparison a) = []) ->
  get_overall_statistics analysis = Raise ZeroDivisionError.
Proof.
  intros Hempty. unfold get_overall_statistics.
  destruct (for_each_total
              (fun acc : list McScore.t * list pyfloat * list user_stats =>
                 snd acc = [])
              collect_user (values analysis)) with (s := ([] : list McScore.t,
                                                         [] : list pyfloat,
                                                         [] : list user_stats))
    as (acc & Hrun & Hacc).
  - intros a acc Ha Hs.
    destruct (collect_user_without_comparison a acc (Hempty a Ha))
      as (scores & averages & E).
    rewrite E. eexists; split; [reflexivity | exact Hs].
  - reflexivity.
  - rewrite Hrun. destruct acc as [[scores averages] stats].
    simpl in Hacc; subst stats. reflexivity.
Qed.

(** C1, on the code: with the sample questions and results and no
    self-assessment file, the load and the per-user analysis complete, no
    user has a comparison entry or a proficiency, and
    [get_overall_statistics] raises [ZeroDivisionError] instead of returning
    an empty comparison section. *)
Theorem overall_statistics_fault_without_self_assessment :
  forall (int_of_str : string -> option Z)
         (float_of_str : string -> option pyfloat) (float_sqrt : Q -> Q),
  exists (self : DataLoader) (data : Data.t) (analysis : dict pyval Analysis.t),
    load_all_data int_of_str float_of_str (init (sample_files None) None)
      = Ok (self, data) /\
    analyze_user_performance float_sqrt data = Ok analysis /\
    (forall u a, In (u, a) analysis ->
       Analysis.by_category (Analysis.comparison a) = [] /\
       Analysis.proficiency a = None) /\
    get_overall_statistics analysis = Raise ZeroDivisionError /\
    run int_of_str float_of_str float_sqrt (sample_files None)
      = Raise ZeroDivisionError.
Proof.
  intros int_of_str float_of_str float_sqrt.
  do 3 eexists.
  split; [vm_compute; reflexivity|].
  split; [vm_compute; reflexivity|].
  split.
  - intros u a [E|[E|[]]]; inversion E; subst; split; reflexivity.
  - split; vm_compute; reflexivity.
Qed.

(** ** A user without self-assessment next to a rated one (C2) *)

Lemma collect_users_averages (xs : list Analysis.t) :
  forall (scores scores' : list McScore.t) (averages averages' : list pyfloat)
         (stats stats' : list user_stats),
    for_each collect_user xs (scores, averages, stats)
      = Ok (scores', averages', stats') ->
    averages'
      = averages ++ map (fun a => Analysis.average (Analysis.self_assessment a))
                        (filter has_self_scores xs).
Proof.
  induction xs as [|a xs IH]; intros sc sc' av av' st st' Hrun; simpl in Hrun.
  - inversion Hrun; subst. rewrite app_nil_r; reflexivity.
  - bind_inv Hrun. destruct a0 as [[sc1 av1] st1].
    unfold collect_user in E. bind_inv E. inversion E; subst; clear E.
    rewrite (IH _ _ _ _ _ _ Hrun). simpl. unfold has_self_scores.
    destruct (Analysis.self_scores (Analysis.self_assessment a)).
    + reflexivity.
    + rewrite <- app_assoc. reflexivity.
Qed.

(** When [get_overall_statistics] returns, its self-assessment section is
    computed over the users that have at least one self-assessment score,
    and over no other user. *)
Lemma overall_self_assessment_over_rated_users
      (analysis : dict pyval Analysis.t) (overall : Overall.t) :
  get_overall_statistics analysis = Ok overall ->
  let averages := rated_averages analysis in
  Overall.rated_users (Overall.self_assessment overall) = len averages /\
  Overall.min_average (Overall.self_assessment overall)
    = match averages with
      | a :: rest => round (fmin_list a rest) 1
      | [] => float_of_Z 0
      end /\
  Overall.max_average (Overall.self_assessment overall)
    = match averages with
      | a :: rest => round (fmax_list a rest) 1
      | [] => float_of_Z 0
      end /\
  Overall.average_score (Overall.self_assessment overall)
    = match averages with
      | _ :: _ => round (fquot (fsum averages) (float_of_Z (len averages))) 1
      | [] => float_of_Z 0
      end.
Proof.
  unfold get_overall_statistics. intros Hrun.
  bind_inv Hrun. destruct a as [[scores averages] stats].
  apply collect_users_averages in E. simpl in E. fold (rated_averages analysis) in E.
  subst averages.
  do 6 bind_inv Hrun. inversion Hrun; subst overall; clear Hrun. simpl.
  repeat split.
  destruct (rated_averages analysis) as [|x xs] eqn:R.
  - inversion E4; reflexivity.
  - rewrite truediv_positive in E4 by apply len_cons_pos.
    cbn [bind] in E4. inversion E4; reflexivity.
Qed.

(** C2, on the code: "u1" rated the one compared category, "u2" has no row
    in the self-assessment file. The load completes and the analysis of
    "u1" alone completes, but the analysis of "u2" raises [TypeError], so
    that [analyze_user_performance] returns no analysis at all and no
    cross-user average is computed. *)
Theorem analysis_fault_for_unrated_user :
  forall (int_of_str : string -> option Z)
         (float_of_str : string -> option pyfloat) (float_sqrt : Q -> Q),
  exists (self : DataLoader) (data : Data.t) (u1 u2 : User.t) (a1 : Analysis.t),
    load_all_data int_of_str float_of_str
                  (init (sample_files (Some sample_rating_one)) None)
      = Ok (self, data) /\
    Data.users data = [(VStr "u1", u1); (VStr "u2", u2)] /\
    User.self_assessment u2 = None /\
    analyze_user float_sqrt
                 (Metadata.self_assessment_categories (Data.metadata data))
                 (Metadata.self_assessment_max_score (Data.metadata data)) u1
      = Ok a1 /\
    analyze_user float_sqrt
                 (Metadata.self_assessment_categories (Data.metadata data))
                 (Metadata.self_assessment_max_score (Data.metadata data)) u2
      = Raise TypeError /\
    analyze_user_performance float_sqrt data = Raise TypeError /\
    run int_of_str float_of_str float_sqrt (sample_files (Some sample_rating_one))
      = Raise TypeError.
Proof.
  intros int_of_str float_of_str float_sqrt.
  do 5 eexists.
  split; [vm_compute; reflexivity|].
  split; [vm_compute; reflexivity|].
  repeat split; vm_compute; reflexivity.
Qed.

(** ** The phases of the load *)

Section LoaderFacts.
Variable int_of_str : string -> option Z.
Variable float_of_str : string -> option pyfloat.

Lemma load_question_NoDup (cols : list string) (row : list pyval)
      (qs qs' : dict string Question.t) :
  NoDup (keys qs) -> load_question int_of_str cols row qs = Ok qs' ->
  NoDup (keys qs').
Proof.
  unfold load_question. intros ND Hrun.
  do 5 bind_inv Hrun. inversion Hrun; subst. apply NoDup_dict_set; exact ND.
Qed.

(** [_load_questions] fills the bank, whose identifiers are distinct, and
    leaves the users alone. *)
Lemma _load_questions_Ok (self self' : DataLoader) :
  _load_questions int_of_str self = Ok self' ->
  NoDup (keys (questions self')) /\
  users self' = users self /\
  dir self' = dir self /\
  column_mappings self' = column_mappings self /\
  stdout self' = stdout self.
Proof.
  unfold _load_questions. intros Hrun.
  do 3 bind_inv Hrun. inversion Hrun; subst; simpl.
  repeat split; try reflexivity.
  eapply (for_each_invariant (fun qs => NoDup (keys qs))); [ | | eassumption].
  - intros row qs qs' _. apply load_question_NoDup.
  - constructor.
Qed.

(** [_load_responses] ends only on a file that has the two required
    columns, and is then the loop over its rows. *)
Lemma _load_responses_Ok (self self' : DataLoader) :
  _load_responses self = Ok self' ->
  exists file,
    results_csv (dir self) = Some file /\
    missing_cols required_cols (renamed self file) = [] /\
    for_each (load_response_row (questions self) (columns (renamed self file)))
             (rows (renamed self file)) (users self) = Ok (users self') /\
    questions self' = questions self /\
    quiz_categories self' = quiz_categories self /\
    dir self' = dir self /\
    column_mappings self' = column_mappings self /\
    stdout self' = stdout self.
Proof.
  unfold _load_responses, read_csv. intros Hrun.
  destruct (results_csv (dir self)) as [file|]; [|discriminate].
  cbn [bind] in Hrun. fold (renamed self file) in Hrun.
  destruct (missing_cols required_cols (renamed self file)) eqn:M; [|discriminate].
  bind_inv Hrun. inversion Hrun; subst.
  exists file. repeat split; auto.
Qed.

Lemma row_get_Raise (cols : list string) (row : list pyval) (name : string)
      (e : exn) :
  row_get cols row name = Raise e -> e = KeyError.
Proof.
  unfold row_get. destruct (index_of name cols); [discriminate|].
  intros [= <-]; reflexivity.
Qed.

Lemma row_item_Raise (cols : list string) (row : list pyval) (v : pyval)
      (e : exn) :
  row_item cols row v = Raise e -> e = KeyError.
Proof.
  destruct v; simpl; try (intros [= <-]; reflexivity). apply row_get_Raise.
Qed.

Lemma rate_category_Raise (cols : list string) (row : list pyval)
      (category : pyval) (scores : dict pyval pyfloat) (e : exn) :
  rate_category float_of_str cols row category scores = Raise e ->
  e = KeyError \/ e = ValueError.
Proof.
  unfold rate_category. destruct (in_columns category cols); [|discriminate].
  destruct (row_item cols row category) as [cell|e1] eqn:E1; simpl.
  - destruct cell as [|q|t]; simpl; try discriminate.
    destruct (float_of_str t); simpl; [discriminate|].
    intros [= <-]; auto.
  - intros [= <-]. left. eapply row_item_Raise; eassumption.
Qed.

(** Nothing in the loop over the rows raises the exception that the
    [except] clause catches. *)
Lemma load_assessment_row_Raise (cats : list pyval) (cols : list string)
      (row : list pyval) (us : dict pyval User.t) (e : exn) :
  load_assessment_row float_of_str cats cols row us = Raise e ->
  e = KeyError \/ e = ValueError.
Proof.
  unfold load_assessment_row.
  destruct (row_get cols row "user_id") as [user_id|e1] eqn:E1; simpl.
  2: { intros [= <-]. left. eapply row_get_Raise; eassumption. }
  destruct (row_get cols row "date_time") as [timestamp|e2] eqn:E2; simpl.
  2: { intros [= <-]. left. eapply row_get_Raise; eassumption. }
  destruct (dict_mem user_id us); [|discriminate].
  destruct (for_each (rate_category float_of_str cols row) cats [])
    as [scores|e3] eqn:E3; simpl.
  - unfold dict_item. destruct (dict_get user_id us); simpl; [discriminate|].
    intros [= <-]; auto.
  - intros [= <-]. apply for_each_Raise in E3.
    destruct E3 as (c & sc & _ & Hc). eapply rate_category_Raise; eassumption.
Qed.

(** [_load_self_assessment] either finds no file, prints the warning and
    changes nothing else, or is the loop over the rows of the file. *)
Lemma _load_self_assessment_Ok (self self' : DataLoader) :
  _load_self_assessment float_of_str self = Ok self' ->
  questions self' = questions self /\
  quiz_categories self' = quiz_categories self /\
  dir self' = dir self /\
  column_mappings self' = column_mappings self /\
  ((self_assessment_csv (dir self) = None /\
    users self' = users self /\
    stdout self' = stdout self ++ [warning]) \/
   (exists file,
      self_assessment_csv (dir self) = Some file /\
      missing_cols required_cols (renamed self file) = [] /\
      for_each (load_assessment_row float_of_str (quiz_categories self)
                                    (columns (renamed self file)))
               (rows (renamed self file)) (users self) = Ok (users self') /\
      stdout self' = stdout self)).
Proof.
  unfold _load_self_assessment, read_csv. intros Hrun.
  destruct (self_assessment_csv (dir self)) as [file|]; cbn [bind] in Hrun.
  - fold (renamed self file) in Hrun.
    destruct (missing_cols required_cols (renamed self file)) eqn:M;
      [|discriminate].
    destruct (for_each _ _ _) as [us|e] eqn:L; simpl in Hrun.
    + inversion Hrun; subst. repeat split; auto.
      right. exists file. repeat split; auto.
    + apply for_each_Raise in L. destruct L as (row & us & _ & L).
      apply load_assessment_row_Raise in L.
      destruct L; subst e; discriminate.
  - inversion Hrun; subst. repeat split; auto.
Qed.

Lemma load_all_data_Ok (self0 self : DataLoader) (data : Data.t) :
  load_all_data int_of_str float_of_str self0 = Ok (self, data) ->
  exists s1 s2 s3,
    _load_questions int_of_str self0 = Ok s1 /\
    _load_responses s1 = Ok s2 /\
    _load_self_assessment float_of_str s2 = Ok s3 /\
    _combine_data s3 = Ok (self, data).
Proof.
  unfold load_all_data. intros Hrun.
  bind_inv Hrun. bind_inv Hrun. bind_inv Hrun. eauto 10.
Qed.
End LoaderFacts.

(** ** Every stored response is a graded answer *)

Lemma graded_new_user (qs : dict string Question.t) (us : dict pyval User.t)
      (user_id : pyval) :
  graded qs us -> graded qs (dict_set user_id new_user us).
Proof.
  intros G u ud q_id r Hu Hr.
  apply In_dict_set in Hu. destruct Hu as [[_ ->]|Hu].
  - destruct Hr.
  - eapply G; eassumption.
Qed.

Lemma record_response_graded (qs : dict string Question.t) (cols : list string)
      (row : list pyval) (user_id timestamp : pyval)
      (item : string * Question.t) (us us' : dict pyval User.t) :
  In item qs -> graded qs us ->
  record_response cols row user_id timestamp item us = Ok us' ->
  graded qs us'.
Proof.
  destruct item as [q_id question]. unfold record_response.
  intros Hitem G Hrun.
  destruct (in_columns (Question.text question) cols).
  2: { inversion Hrun; subst; exact G. }
  bind_inv Hrun. bind_inv Hrun. inversion Hrun; subst; clear Hrun.
  apply dict_item_Ok, dict_get_In in E0.
  intros u ud q_id' r Hu Hr.
  apply In_dict_set in Hu. destruct Hu as [[-> ->]|Hu].
  - simpl in Hr. apply In_dict_set in Hr. destruct Hr as [[-> ->]|Hr].
    + exists question, timestamp, a. auto.
    + eapply G; eassumption.
  - eapply G; eassumption.
Qed.

Lemma load_response_row_graded (qs : dict string Question.t)
      (cols : list string) (row : list pyval) (us us' : dict pyval User.t) :
  graded qs us -> load_response_row qs cols row us = Ok us' -> graded qs us'.
Proof.
  unfold load_response_row. intros G Hrun.
  bind_inv Hrun. bind_inv Hrun.
  eapply (for_each_invariant (graded qs)); [ | | eassumption].
  - intros item s s' Hitem Hs. apply record_response_graded; assumption.
  - destruct (dict_mem a us); [exact G | apply graded_new_user; exact G].
Qed.

Lemma same_responses_refl (us : dict pyval User.t) : same_responses us us.
Proof. intros u ud Hu. exists ud; auto. Qed.

Lemma same_responses_trans (us1 us2 us3 : dict pyval User.t) :
  same_responses us1 us2 -> same_responses us2 us3 -> same_responses us1 us3.
Proof.
  intros H12 H23 u ud3 H3.
  destruct (H23 _ _ H3) as (ud2 & H2 & E2).
  destruct (H12 _ _ H2) as (ud1 & H1 & E1).
  exists ud1; split; [exact H1 | congruence].
Qed.

Lemma graded_same_responses (qs : dict string Question.t)
      (us us' : dict pyval User.t) :
  graded qs us -> same_responses us us' -> graded qs us'.
Proof.
  intros G S u ud' q_id r Hu Hr.
  destruct (S _ _ Hu) as (ud & Hud & E). rewrite E in Hr.
  eapply G; eassumption.
Qed.

Section AssessmentFacts.
Variable float_of_str : string -> option pyfloat.

Lemma load_assessment_row_same_responses (cats : list pyval)
      (cols : list string) (row : list pyval) (us us' : dict pyval User.t) :
  load_assessment_row float_of_str cats cols row us = Ok us' ->
  same_responses us us'.
Proof.
  unfold load_assessment_row. intros Hrun.
  bind_inv Hrun. bind_inv Hrun.
  destruct (dict_mem a us).
  2: { inversion Hrun; subst. apply same_responses_refl. }
  bind_inv Hrun. bind_inv Hrun. inversion Hrun; subst; clear Hrun.
  apply dict_item_Ok, dict_get_In in E2.
  intros u ud' Hu. apply In_dict_set in Hu. destruct Hu as [[-> ->]|Hu].
  - exists a2; auto.
  - exists ud'; auto.
Qed.

Lemma assessment_loop_same_responses (cats : list pyval) (cols : list string)
      (rws : list (list pyval)) (us us' : dict pyval User.t) :
  for_each (load_assessment_row float_of_str cats cols) rws us = Ok us' ->
  same_responses us us'.
Proof.
  intros Hrun.
  eapply (for_each_invariant (same_responses us)); [ | | eassumption].
  - intros row s s' _ Hs Hstep. eapply same_responses_trans; [exact Hs|].
    eapply load_assessment_row_same_responses; eassumption.
  - apply same_responses_refl.
Qed.
End AssessmentFacts.

(** ** What [_combine_data] computes for a user *)

Lemma combine_user_Ok (qs : dict string Question.t) (u u' : pyval)
      (ud ud' : User.t) :
  combine_user qs (u, ud) = Ok (u', ud') ->
  u' = u /\
  exists category_scores total_points total_possible by_category normalized,
    for_each (tally_response qs) (User.responses ud) ([], 0, 0)
      = Ok (category_scores, total_points, total_possible) /\
    traverse (normalize_category ud) category_scores = Ok by_category /\
    ud' = User.set_scores
            {| TotalScore.points_earned := total_points;
               TotalScore.points_possible := total_possible;
               TotalScore.normalized_score := normalized |}
            by_category ud.
Proof.
  unfold combine_user. intros Hrun.
  bind_inv Hrun. destruct a as [[cs tp] tposs].
  bind_inv Hrun. bind_inv Hrun. inversion Hrun; subst.
  split; [reflexivity|]. exists cs, tp, tposs, a, a0. auto.
Qed.

Lemma combine_users_In (qs : dict string Question.t) (us us' : dict pyval User.t) :
  traverse (combine_user qs) us = Ok us' ->
  forall u ud', In (u, ud') us' ->
    exists ud, In (u, ud) us /\ combine_user qs (u, ud) = Ok (u, ud').
Proof.
  intros Hrun u ud' Hu.
  destruct (traverse_In _ _ _ Hrun _ Hu) as ([u0 ud] & Hin & Hc).
  destruct (combine_user_Ok _ _ _ _ _ Hc) as (-> & _).
  exists ud; auto.
Qed.

Lemma combine_users_same_responses (qs : dict string Question.t)
      (us us' : dict pyval User.t) :
  traverse (combine_user qs) us = Ok us' -> same_responses us us'.
Proof.
  intros Hrun u ud' Hu.
  destruct (combine_users_In _ _ _ Hrun _ _ Hu) as (ud & Hin & Hc).
  destruct (combine_user_Ok _ _ _ _ _ Hc) as (_ & cs & tp & tposs & bc & n & _ & _ & ->).
  exists ud; auto.
Qed.

Lemma _combine_data_Ok (self self' : DataLoader) (data : Data.t) :
  _combine_data self = Ok (self', data) ->
  traverse (combine_user (questions self)) (users self) = Ok (Data.users data) /\
  Data.questions data = questions self /\
  users self' = Data.users data /\
  stdout self' = stdout self /\
  (exists categories_metadata,
     for_each count_question (questions self) [] = Ok categories_metadata /\
     Metadata.self_assessment_categories (Data.metadata data)
       = fst (fold_left (fun a u => mark_user u a) (values (Data.users data))
                        ([], categories_metadata))) /\
  Metadata.self_assessment_max_score (Data.metadata data) = 10 /\
  quiz_categories self' = quiz_categories self.
Proof.
  unfold _combine_data. intros Hrun.
  bind_inv Hrun. bind_inv Hrun.
  destruct (fold_left _ (values a) ([], a0)) as [sac cm] eqn:F.
  inversion Hrun; subst; simpl.
  repeat split; auto. exists a0. rewrite F. auto.
Qed.

(** After a completed load every stored response is a graded answer to a
    question of the bank, and the identifiers of the bank are distinct. *)
Lemma loaded_responses_graded
      (int_of_str : string -> option Z) (float_of_str : string -> option pyfloat)
      (files : data_dir) (mappings : option (dict string string))
      (self : DataLoader) (data : Data.t) :
  load_all_data int_of_str float_of_str (init files mappings) = Ok (self, data) ->
  graded (Data.questions data) (Data.users data) /\
  NoDup (keys (Data.questions data)).
Proof.
  intros Hrun.
  destruct (load_all_data_Ok _ _ _ _ _ Hrun) as (s1 & s2 & s3 & H1 & H2 & H3 & H4).
  destruct (_load_questions_Ok _ _ _ H1) as (ND & U1 & _).
  destruct (_load_responses_Ok _ _ H2) as (file & _ & _ & L2 & Q2 & _).
  destruct (_load_self_assessment_Ok _ _ _ H3) as (Q3 & _ & _ & _ & L3).
  destruct (_combine_data_Ok _ _ _ H4) as (L4 & Q4 & _).
  rewrite Q4, Q3, Q2. split; [|exact ND].
  assert (G2 : graded (questions s1) (users s2)).
  { eapply (for_each_invariant (graded (questions s1))); [ | | exact L2].
    - intros row s s' _. apply load_response_row_graded.
    - rewrite U1. intros u ud q_id r []. }
  assert (G3 : graded (questions s1) (users s3)).
  { destruct L3 as [(_ & -> & _)|(file' & _ & _ & L3 & _)]; [exact G2|].
    eapply graded_same_responses; [exact G2|].
    eapply assessment_loop_same_responses; exact L3. }
  eapply graded_same_responses; [exact G3|].
  eapply combine_users_same_responses. exact L4.
Qed.

(** ** The grading of a response (C8) *)

Lemma py_eq_same_value (a b : pyval) : py_eq a b = true <-> same_value a b.
Proof.
  destruct a, b; simpl; try (split; [discriminate | tauto]).
  - apply Qeq_bool_iff.
  - apply String.eqb_eq.
Qed.

(** C8. Every response of the loaded model answers a question of the bank;
    it is flagged correct exactly when its raw answer and the correct answer
    of the question are the same value (the same text character by
    character, hence with the same casing, or the same number), it earns the
    full worth of the question when correct and nothing otherwise, and its
    worth is that of the question. *)
Theorem responses_are_graded_by_exact_match
        (int_of_str : string -> option Z)
        (float_of_str : string -> option pyfloat)
        (files : data_dir) (mappings : option (dict string string))
        (self : DataLoader) (data : Data.t) :
  load_all_data int_of_str float_of_str (init files mappings) = Ok (self, data) ->
  forall u ud q_id r,
    In (u, ud) (Data.users data) -> In (q_id, r) (User.responses ud) ->
    exists q,
      dict_get q_id (Data.questions data) = Some q /\
      (Response.is_correct r = true <->
       same_value (Response.answer r) (Question.correct_answer q)) /\
      Response.points_earned r
        = (if Response.is_correct r then Question.worth q else 0) /\
      Response.worth r = Question.worth q.
Proof.
  intros Hrun u ud q_id r Hu Hr.
  destruct (loaded_responses_graded _ _ _ _ _ _ Hrun) as (G & ND).
  destruct (G _ _ _ _ Hu Hr) as (q & ts & ans & Hq & ->).
  exists q. split; [apply In_dict_get; assumption|].
  simpl. split; [apply py_eq_same_value|]. split; reflexivity.
Qed.

Lemma responses_graded_witness :
  exists (self : DataLoader) (data : Data.t) (u1 u2 : User.t)
         (r1 r2 : Response.t) (q : Question.t),
    load_all_data no_int no_float (init (sample_files None) None)
      = Ok (self, data) /\
    Data.users data = [(VStr "u1", u1); (VStr "u2", u2)] /\
    User.responses u1 = [("Q1", r1)] /\
    User.responses u2 = [("Q1", r2)] /\
    Response.answer r1 = VStr "Paris" /\
    Response.answer r2 = VStr "paris" /\
    Response.is_correct r1 = true /\
    Response.is_correct r2 = false /\
    Response.points_earned r2 = 0 /\
    dict_get "Q1" (Data.questions data) = Some q /\
    (Response.is_correct r2 = true <->
     same_value (Response.answer r2) (Question.correct_answer q)) /\
    Response.points_earned r1
      = (if Response.is_correct r1 then Question.worth q else 0).
Proof.
  do 7 eexists.
  split; [vm_compute; reflexivity|].
  split; [vm_compute; reflexivity|].
  do 8 (split; [vm_compute; reflexivity|]).
  destruct (responses_are_graded_by_exact_match
              no_int no_float (sample_files None) None _ _ eq_refl
              (VStr "u2") _ "Q1" _
              (or_intror (or_introl eq_refl)) (or_introl eq_refl))
    as (q' & Hq' & Hflag & _).
  vm_compute in Hq'. inversion Hq'; subst q'.
  split; [exact Hflag|]. vm_compute; reflexivity.
Defined.

(** ** The total score of a user (C7) *)

Lemma tally_totals (qs : dict string Question.t) (rs : dict string Response.t)
      (category_scores category_scores' : dict pyval (Z * Z))
      (points possible points' possible' : Z) :
  for_each (tally_response qs) rs (category_scores, points, possible)
    = Ok (category_scores', points', possible') ->
  points' = points + Zsum (map Response.points_earned (values rs)) /\
  possible' = possible + Zsum (map Response.worth (values rs)).
Proof.
  revert category_scores points possible.
  induction rs as [|[q_id r] rs IH]; intros cs tp tposs Hrun; simpl in Hrun.
  - inversion Hrun; subst. unfold Zsum; simpl. lia.
  - bind_inv Hrun. destruct a as [[cs1 tp1] tposs1].
    unfold tally_response in E. bind_inv E. bind_inv E.
    inversion E; subst; clear E.
    destruct (IH _ _ _ Hrun) as (-> & ->).
    unfold values. cbn [map snd]. rewrite !Zsum_cons. lia.
Qed.





(** ** [_combine_data] does not raise on what the loader built *)

Lemma In_keys_dict_get {K V : Type} `{KeyLaws K} (k : K) (v : V) (d : dict K V) :
  In (k, v) d -> exists v', dict_get k d = Some v'.
Proof.
  intros Hin. apply dict_mem_true, dict_mem_keys.
  change k with (fst (k, v)). apply in_map; exact Hin.
Qed.

Lemma tally_response_total (qs : dict string Question.t)
      (item : string * Response.t) (acc : dict pyval (Z * Z) * Z * Z) :
  (exists q, dict_get (fst item) qs = Some q) ->
  exists acc', tally_response qs item acc = Ok acc'.
Proof.
  destruct item as [q_id r], acc as [[cs tp] tposs]. intros (q & Hq).
  unfold tally_response, dict_item. cbn [fst] in Hq. rewrite Hq. cbn [bind].
  destruct (dict_mem (Question.category q) cs) eqn:M.
  - apply dict_mem_true in M. destruct M as (entry & ->). cbn [bind]. eauto.
  - rewrite dict_get_set_same. cbn [bind]. eauto.
Qed.

Lemma normalize_category_total (ud : User.t) (item : pyval * (Z * Z)) :
  exists r, normalize_category ud item = Ok r.
Proof.
  destruct item as [category [earned possible]]. unfold normalize_category.
  assert (N : exists n,
             (if 0 <? possible
              then truediv (float_of_Z earned) (float_of_Z possible)
              else Ok (float_of_Z 0)) = Ok n).
  { destruct (0 <? possible) eqn:P; [|eauto].
    apply Z.ltb_lt in P. rewrite truediv_positive by exact P. eauto. }
  destruct N as (n & ->). cbn [bind].
  destruct (rated_scores ud) as [scores|]; [|cbn [bind]; eauto].
  destruct (dict_mem category scores) eqn:M; [|cbn [bind]; eauto].
  apply dict_mem_true in M. destruct M as (score & G).
  unfold dict_item. rewrite G. cbn [bind].
  rewrite truediv_positive by lia. cbn [bind]. eauto.
Qed.

Lemma combine_user_total (qs : dict string Question.t) (u : pyval) (ud : User.t) :
  (forall q_id r, In (q_id, r) (User.responses ud) ->
                  exists q, dict_get q_id qs = Some q) ->
  exists ud', combine_user qs (u, ud) = Ok (u, ud').
Proof.
  intros Hq. unfold combine_user.
  destruct (for_each_total (fun _ => True) (tally_response qs)
                           (User.responses ud)) with (s := (@nil (pyval * (Z * Z)), 0, 0))
    as ([[cs tp] tposs] & -> & _); [ | exact I | ].
  - intros [q_id r] acc Hin _.
    destruct (tally_response_total qs (q_id, r) acc) as (acc' & ->); eauto.
  - cbn [bind].
    destruct (traverse_total (normalize_category ud) cs) as (bc & ->).
    { intros item _. apply normalize_category_total. }
    cbn [bind].
    destruct (0 <? tposs) eqn:P.
    + apply Z.ltb_lt in P. rewrite truediv_positive by exact P.
      cbn [bind]. eauto.
    + cbn [bind]. eauto.
Qed.

Lemma count_question_total (item : string * Question.t)
      (cm : dict pyval CategoryMeta.t) :
  exists cm', count_question item cm = Ok cm'.
Proof.
  unfold count_question, dict_item.
  destruct (dict_mem (Question.category (snd item)) cm) eqn:M.
  - apply dict_mem_true in M. destruct M as (entry & ->). cbn [bind]. eauto.
  - rewrite dict_get_set_same. cbn [bind]. eauto.
Qed.

Lemma _combine_data_total (self : DataLoader) :
  graded (questions self) (users self) ->
  exists self' data, _combine_data self = Ok (self', data).
Proof.
  intros G. unfold _combine_data.
  destruct (traverse_total (combine_user (questions self)) (users self))
    as (us & ->).
  { intros [u ud] Hu.
    destruct (combine_user_total (questions self) u ud) as (ud' & E); [|eauto].
    intros q_id r Hr. destruct (G _ _ _ _ Hu Hr) as (q & _ & _ & Hq & _).
    eapply In_keys_dict_get; exact Hq. }
  cbn [bind].
  destruct (for_each_total (fun _ => True) count_question (questions self))
    with (s := @nil (pyval * CategoryMeta.t)) as (cm & -> & _); [ | exact I | ].
  { intros item acc _ _. destruct (count_question_total item acc) as (cm' & ->).
    eauto. }
  cbn [bind]. destruct (fold_left _ (values us) ([], cm)). eauto.
Qed.

(** ** A missing self-assessment file (C9) *)

Lemma record_response_unrated (cols : list string) (row : list pyval)
      (user_id timestamp : pyval) (item : string * Question.t)
      (us us' : dict pyval User.t) :
  unrated us -> record_response cols row user_id timestamp item us = Ok us' ->
  unrated us'.
Proof.
  destruct item as [q_id question]. unfold record_response. intros U Hrun.
  destruct (in_columns (Question.text question) cols).
  2: { inversion Hrun; subst; exact U. }
  bind_inv Hrun. bind_inv Hrun. inversion Hrun; subst; clear Hrun.
  apply dict_item_Ok, dict_get_In in E0.
  intros u ud Hu. apply In_dict_set in Hu. destruct Hu as [[-> ->]|Hu].
  - simpl. eapply U; exact E0.
  - eapply U; exact Hu.
Qed.

Lemma load_response_row_unrated (qs : dict string Question.t)
      (cols : list string) (row : list pyval) (us us' : dict pyval User.t) :
  unrated us -> load_response_row qs cols row us = Ok us' -> unrated us'.
Proof.
  unfold load_response_row. intros U Hrun.
  bind_inv Hrun. bind_inv Hrun.
  eapply (for_each_invariant unrated); [ | | eassumption].
  - intros item s s' _. apply record_response_unrated.
  - destruct (dict_mem a us); [exact U|].
    intros u ud Hu. apply In_dict_set in Hu. destruct Hu as [[_ ->]|Hu].
    + reflexivity.
    + eapply U; exact Hu.
Qed.

(** C9. When the self-assessment file does not exist, a load whose
    questions and responses load completes: [_load_self_assessment] prints
    the warning and raises nothing, [load_all_data] returns the model, and
    no user of the model has a self-assessment record. *)
Theorem missing_self_assessment_is_tolerated
        (int_of_str : string -> option Z)
        (float_of_str : string -> option pyfloat)
        (files : data_dir) (mappings : option (dict string string))
        (s1 s2 : DataLoader) :
  self_assessment_csv files = None ->
  _load_questions int_of_str (init files mappings) = Ok s1 ->
  _load_responses s1 = Ok s2 ->
  _load_self_assessment float_of_str s2 = Ok (print warning s2) /\
  exists (self : DataLoader) (data : Data.t),
    load_all_data int_of_str float_of_str (init files mappings) = Ok (self, data) /\
    stdout self = [warning] /\
    keys (Data.users data) = keys (users s2) /\
    forall u ud, In (u, ud) (Data.users data) -> User.self_assessment ud = None.
Proof.
  intros Hnone H1 H2.
  destruct (_load_questions_Ok _ _ _ H1) as (ND & U1 & D1 & _ & O1).
  destruct (_load_responses_Ok _ _ H2) as (file & _ & _ & L2 & Q2 & _ & D2 & _ & O2).
  assert (H3 : _load_self_assessment float_of_str s2 = Ok (print warning s2)).
  { unfold _load_self_assessment. rewrite D2, D1. cbn [dir init].
    rewrite Hnone. reflexivity. }
  split; [exact H3|].
  assert (G2 : graded (questions s2) (users s2)).
  { rewrite Q2.
    eapply (for_each_invariant (graded (questions s1))); [ | | exact L2].
    - intros row s s' _. apply load_response_row_graded.
    - rewrite U1. intros u ud q_id r []. }
  assert (R2 : unrated (users s2)).
  { eapply (for_each_invariant unrated); [ | | exact L2].
    - intros row s s' _. apply load_response_row_unrated.
    - rewrite U1. intros u ud []. }
  destruct (_combine_data_total (print warning s2) G2) as (self & data & H4).
  exists self, data.
  split.
  { unfold load_all_data. rewrite H1. cbn [bind]. rewrite H2. cbn [bind].
    rewrite H3. cbn [bind]. exact H4. }
  destruct (_combine_data_Ok _ _ _ H4) as (L4 & _ & _ & O4 & _).
  split.
  { rewrite O4. cbn [stdout print]. rewrite O2, O1. reflexivity. }
  split.
  { cbn [users print] in L4. clear - L4. revert L4.
    generalize (Data.users data) as us'. generalize (users s2) as us.
    induction us as [|[u ud] us IH]; intros us' Hrun; simpl in Hrun.
    - inversion Hrun; reflexivity.
    - bind_inv Hrun. bind_inv Hrun. inversion Hrun; subst.
      destruct a as [u' ud']. destruct (combine_user_Ok _ _ _ _ _ E) as (-> & _).
      simpl. f_equal. apply IH. exact E0. }
  intros u ud Hu.
  destruct (combine_users_In _ _ _ L4 _ _ Hu) as (ud0 & Hu0 & Hc).
  destruct (combine_user_Ok _ _ _ _ _ Hc) as (_ & cs & tp & tposs & bc & n & _ & _ & ->).
  simpl. eapply R2; exact Hu0.
Qed.

Lemma missing_self_assessment_witness :
  exists (s1 s2 self : DataLoader) (data : Data.t),
    self_assessment_csv (sample_files None) = None /\
    _load_questions no_int (init (sample_files None) None) = Ok s1 /\
    _load_responses s1 = Ok s2 /\
    _load_self_assessment no_float s2 = Ok (print warning s2) /\
    load_all_data no_int no_float (init (sample_files None) None)
      = Ok (self, data) /\
    stdout self = [warning] /\
    keys (Data.users data) = [VStr "u1"; VStr "u2"].
Proof.
  do 4 eexists.
  split; [reflexivity|].
  split; [vm_compute; reflexivity|].
  split; [vm_compute; reflexivity|].
  destruct (missing_self_assessment_is_tolerated
              no_int no_float (sample_files None) None _ _
              eq_refl eq_refl eq_refl)
    as (H3 & self' & data' & H4 & Hout & Hkeys & _).
  split; [exact H3|].
  split; [vm_compute; reflexivity|].
  split; vm_compute; reflexivity.
Defined.

(** ** One row of the results *)

Lemma dict_get_Some_mem {K V : Type} `{KeyLaws K} (k : K) (v : V) (d : dict K V) :
  dict_get k d = Some v -> dict_mem k d = true.
Proof. intros G. apply dict_mem_true. eauto. Qed.

Lemma keys_dict_set_known {K V : Type} `{KeyLaws K} (k : K) (v v' : V)
      (d : dict K V) :
  dict_get k d = Some v' -> keys (dict_set k v d) = keys d.
Proof.
  intros G. rewrite keys_dict_set, (dict_get_Some_mem _ _ _ G). reflexivity.
Qed.

(** The inner loop of [_load_responses]: the user of the row gets, for each
    question whose text is a column, the graded answer of the row; the
    other responses and the other users are left as they were. *)
Lemma record_responses_spec (cols : list string) (row : list pyval)
      (u timestamp : pyval) (items : dict string Question.t) :
  NoDup (keys items) ->
  forall (us0 us' : dict pyval User.t) (ud0 : User.t),
    dict_get u us0 = Some ud0 ->
    for_each (record_response cols row u timestamp) items us0 = Ok us' ->
    (forall u', u' <> u -> dict_get u' us' = dict_get u' us0) /\
    keys us' = keys us0 /\
    exists ud',
      dict_get u us' = Some ud' /\
      User.self_assessment ud' = User.self_assessment ud0 /\
      (forall q_id q,
          In (q_id, q) items -> in_columns (Question.text q) cols = true ->
          exists answer,
            row_item cols row (Question.text q) = Ok answer /\
            dict_get q_id (User.responses ud')
              = Some (grade timestamp answer q)) /\
      (forall q_id,
          (forall q, In (q_id, q) items ->
                     in_columns (Question.text q) cols = false) ->
          dict_get q_id (User.responses ud')
            = dict_get q_id (User.responses ud0)).
Proof.
  induction items as [|[q0 question0] items IH]; intros ND us0 us' ud0 G Hrun.
  - simpl in Hrun. inversion Hrun; subst.
    split; [reflexivity|]. split; [reflexivity|].
    exists ud0. repeat split; auto. intros q_id q [].
  - inversion ND as [|? ? Hq0 ND']; subst.
    simpl in Hrun. bind_inv Hrun.
    destruct (in_columns (Question.text question0) cols) eqn:C.
    + bind_inv E. bind_inv E. inversion E; subst a; clear E.
      apply dict_item_Ok in E1. rewrite G in E1. inversion E1; subst a1; clear E1.
      set (ud1 := User.set_responses
                    (dict_set q0 (grade timestamp a0 question0)
                              (User.responses ud0)) ud0) in *.
      destruct (IH ND' _ _ ud1 (dict_get_set_same u ud1 us0) Hrun)
        as (Hothers & Hkeys & ud' & Gu & Hsa & Hin & Hout).
      split.
      { intros u' N. rewrite Hothers by exact N.
        apply dict_get_set_other. congruence. }
      split.
      { rewrite Hkeys. eapply keys_dict_set_known; exact G. }
      exists ud'. split; [exact Gu|]. split; [rewrite Hsa; reflexivity|].
      split.
      * intros q_id q [[= <- <-]|Hq] Hc.
        -- exists a0. split; [exact E0|].
           rewrite Hout.
           ++ unfold ud1; simpl. apply dict_get_set_same.
           ++ intros q Hq. exfalso. apply Hq0.
              change q0 with (fst (q0, q)). apply in_map; exact Hq.
        -- apply Hin; assumption.
      * intros q_id Hall.
        assert (N : q0 <> q_id).
        { intros ->. specialize (Hall question0 (or_introl eq_refl)). congruence. }
        rewrite Hout by (intros q Hq; apply Hall; right; exact Hq).
        unfold ud1; simpl. apply dict_get_set_other. exact N.
    + inversion E; subst a; clear E.
      destruct (IH ND' _ _ ud0 G Hrun)
        as (Hothers & Hkeys & ud' & Gu & Hsa & Hin & Hout).
      split; [exact Hothers|]. split; [exact Hkeys|].
      exists ud'. split; [exact Gu|]. split; [exact Hsa|].
      split.
      * intros q_id q [[= <- <-]|Hq] Hc; [congruence|]. apply Hin; assumption.
      * intros q_id Hall. apply Hout. intros q Hq. apply Hall. right; exact Hq.
Qed.

(** The body of the outer loop of [_load_responses], for the user [u] of the
    row. *)
Lemma load_response_row_spec (qs : dict string Question.t) (cols : list string)
      (row : list pyval) (us us' : dict pyval User.t) :
  NoDup (keys qs) ->
  load_response_row qs cols row us = Ok us' ->
  exists u timestamp,
    row_get cols row "user_id" = Ok u /\
    row_get cols row "date_time" = Ok timestamp /\
    (forall u', u' <> u -> dict_get u' us' = dict_get u' us) /\
    (NoDup (keys us) -> NoDup (keys us')) /\
    exists ud',
      dict_get u us' = Some ud' /\
      (forall q_id q,
          In (q_id, q) qs -> in_columns (Question.text q) cols = true ->
          exists answer,
            row_item cols row (Question.text q) = Ok answer /\
            dict_get q_id (User.responses ud')
              = Some (grade timestamp answer q)) /\
      (forall q_id,
          (forall q, In (q_id, q) qs ->
                     in_columns (Question.text q) cols = false) ->
          dict_get q_id (User.responses ud')
            = dict_get q_id (responses_before u us)) /\
      User.self_assessment ud'
        = match dict_get u us with
          | Some ud => User.self_assessment ud
          | None => None
          end.
Proof.
  intros ND Hrun. unfold load_response_row in Hrun.
  bind_inv Hrun. bind_inv Hrun. rename a into u, a0 into timestamp.
  exists u, timestamp. split; [exact E|]. split; [exact E0|].
  unfold responses_before.
  destruct (dict_mem u us) eqn:M.
  - apply dict_mem_true in M. destruct M as (ud0 & G).
    destruct (record_responses_spec cols row u timestamp qs ND _ _ _ G Hrun)
      as (Hothers & Hkeys & ud' & Gu & Hsa & Hin & Hout).
    split; [exact Hothers|]. split; [rewrite Hkeys; auto|].
    exists ud'. rewrite G. auto.
  - assert (G0 : dict_get u us = None).
    { unfold dict_mem in M. destruct (dict_get u us); [discriminate|reflexivity]. }
    destruct (record_responses_spec cols row u timestamp qs ND _ _ _
                                    (dict_get_set_same u new_user us) Hrun)
      as (Hothers & Hkeys & ud' & Gu & Hsa & Hin & Hout).
    split.
    { intros u' N. rewrite Hothers by exact N.
      apply dict_get_set_other. congruence. }
    split.
    { intros NDu. rewrite Hkeys. apply NoDup_dict_set. exact NDu. }
    exists ud'. rewrite G0. auto.
Qed.

Lemma column_question_dec (cols : list string) (qs : dict string Question.t)
      (q_id : string) :
  (exists q, In (q_id, q) qs /\ in_columns (Question.text q) cols = true) \/
  (forall q, In (q_id, q) qs -> in_columns (Question.text q) cols = false).
Proof.
  induction qs as [|[k q0] qs IH].
  - right. intros q [].
  - destruct IH as [(q & Hq & Hc)|Hall].
    + left. exists q. split; [right; exact Hq | exact Hc].
    + destruct (string_dec k q_id) as [->|N].
      * destruct (in_columns (Question.text q0) cols) eqn:C.
        -- left. exists q0. split; [left; reflexivity | exact C].
        -- right. intros q [[= <-]|Hq]; [exact C | apply Hall; exact Hq].
      * right. intros q [[= E _]|Hq]; [contradiction | apply Hall; exact Hq].
Qed.

Lemma load_response_row_recorded (qs : dict string Question.t)
      (cols : list string) (row : list pyval) (us us' : dict pyval User.t) :
  NoDup (keys qs) -> recorded cols qs us ->
  load_response_row qs cols row us = Ok us' -> recorded cols qs us'.
Proof.
  intros ND R Hrun.
  destruct (load_response_row_spec _ _ _ _ _ ND Hrun)
    as (u & ts & _ & _ & Hothers & _ & ud' & Gu & Hin & Hout & _).
  intros u0 ud q_id r G0 Gr.
  destruct (key_eq_dec u0 u) as [->|N].
  - rewrite Gu in G0. inversion G0; subst ud; clear G0.
    destruct (column_question_dec cols qs q_id) as [Hex|Hall]; [exact Hex|].
    rewrite (Hout _ Hall) in Gr. unfold responses_before in Gr.
    destruct (dict_get u us) as [ud0|] eqn:G; [|discriminate].
    eapply R; eassumption.
  - rewrite (Hothers _ N) in G0. eapply R; eassumption.
Qed.

(** The loop of [_load_responses] from no user at all *)
Lemma response_loop_invariants (qs : dict string Question.t)
      (cols : list string) (rws : list (list pyval)) (us : dict pyval User.t) :
  NoDup (keys qs) ->
  for_each (load_response_row qs cols) rws [] = Ok us ->
  recorded cols qs us /\ NoDup (keys us) /\ unrated us.
Proof.
  intros ND Hrun.
  eapply (for_each_invariant
            (fun us => recorded cols qs us /\ NoDup (keys us) /\ unrated us));
    [ | | exact Hrun].
  - intros row s s' _ (R & NDs & U) Hstep. split; [|split].
    + eapply load_response_row_recorded; eassumption.
    + destruct (load_response_row_spec _ _ _ _ _ ND Hstep)
        as (u & ts & _ & _ & _ & Hnd & _). auto.
    + eapply load_response_row_unrated; eassumption.
  - split; [|split].
    + intros u ud q_id r G. discriminate G.
    + constructor.
    + intros u ud [].
Qed.

(** Rows of other users leave the entry of [u] as it is. *)
Lemma response_loop_other_users (qs : dict string Question.t)
      (cols : list string) (u : pyval) (rws : list (list pyval))
      (us us' : dict pyval User.t) :
  NoDup (keys qs) ->
  (forall r, In r rws -> row_get cols r "user_id" <> Ok u) ->
  for_each (load_response_row qs cols) rws us = Ok us' ->
  dict_get u us' = dict_get u us.
Proof.
  intros ND Hother Hrun.
  eapply (for_each_invariant (fun s => dict_get u s = dict_get u us));
    [ | | exact Hrun]; [|reflexivity].
  intros row s s' Hrow Hs Hstep.
  destruct (load_response_row_spec _ _ _ _ _ ND Hstep)
    as (u' & ts & Eu & _ & Hothers & _).
  rewrite <- Hs. apply Hothers. intros ->. eapply Hother; eassumption.
Qed.

(** After the loop of [_load_responses], the responses of a user are the
    graded answers of the last row of that user, and nothing else. *)
Lemma response_loop_last_row (qs : dict string Question.t)
      (cols : list string) (u : pyval) (rws : list (list pyval))
      (row : list pyval) (us : dict pyval User.t) :
  NoDup (keys qs) ->
  last_row_of cols u rws row ->
  for_each (load_response_row qs cols) rws [] = Ok us ->
  exists ud timestamp,
    dict_get u us = Some ud /\
    row_get cols row "date_time" = Ok timestamp /\
    (forall q_id q,
        In (q_id, q) qs -> in_columns (Question.text q) cols = true ->
        exists answer,
          row_item cols row (Question.text q) = Ok answer /\
          dict_get q_id (User.responses ud) = Some (grade timestamp answer q)) /\
    (forall q_id r,
        dict_get q_id (User.responses ud) = Some r ->
        exists q answer,
          In (q_id, q) qs /\
          row_item cols row (Question.text q) = Ok answer /\
          r = grade timestamp answer q).
Proof.
  intros ND (before & after & -> & Hu & Hafter) Hrun.
  rewrite for_each_app in Hrun. bind_inv Hrun. rename a into us_b.
  simpl in Hrun. bind_inv Hrun. rename a into us_r.
  destruct (response_loop_invariants _ _ _ _ ND E) as (Rb & _ & _).
  destruct (load_response_row_spec _ _ _ _ _ ND E0)
    as (u' & ts & Eu & Ets & _ & _ & ud & Gu & Hin & Hout & _).
  rewrite Hu in Eu. inversion Eu; subst u'; clear Eu.
  rewrite <- (response_loop_other_users _ _ _ _ _ _ ND Hafter Hrun) in Gu.
  exists ud, ts. split; [exact Gu|]. split; [exact Ets|]. split; [exact Hin|].
  intros q_id r Gr.
  destruct (column_question_dec cols qs q_id) as [(q & Hq & Hc)|Hall].
  - destruct (Hin _ _ Hq Hc) as (answer & Ea & Gq).
    exists q, answer. rewrite Gq in Gr. inversion Gr; subst. auto.
  - rewrite (Hout _ Hall) in Gr. unfold responses_before in Gr.
    destruct (dict_get u us_b) as [ud0|] eqn:G0; [|discriminate].
    destruct (Rb _ _ _ _ G0 Gr) as (q & Hq & Hc).
    rewrite (Hall _ Hq) in Hc. discriminate.
Qed.

(** ** One row of the self-assessment *)

Section AssessmentRows.
Variable float_of_str : string -> option pyfloat.

(** The body of the loop of [_load_self_assessment], for the user [u] of
    the row: a known user gets the record read from the row, in place of any
    earlier one; an unknown user is dropped. *)
Lemma load_assessment_row_spec (cats : list pyval) (cols : list string)
      (row : list pyval) (us us' : dict pyval User.t) :
  load_assessment_row float_of_str cats cols row us = Ok us' ->
  exists u timestamp,
    row_get cols row "user_id" = Ok u /\
    row_get cols row "date_time" = Ok timestamp /\
    keys us' = keys us /\
    (forall u', u' <> u -> dict_get u' us' = dict_get u' us) /\
    match dict_get u us with
    | None => us' = us
    | Some ud =>
        exists scores,
          for_each (rate_category float_of_str cols row) cats [] = Ok scores /\
          dict_get u us'
            = Some (User.set_self_assessment
                      {| SelfAssessment.timestamp := timestamp;
                         SelfAssessment.scores := scores |} ud)
    end.
Proof.
  unfold load_assessment_row. intros Hrun.
  bind_inv Hrun. bind_inv Hrun. rename a into u, a0 into timestamp.
  exists u, timestamp. split; [exact E|]. split; [exact E0|].
  unfold dict_mem in Hrun. destruct (dict_get u us) as [ud|] eqn:G.
  - bind_inv Hrun. unfold dict_item in Hrun. rewrite G in Hrun.
    cbn [bind] in Hrun. inversion Hrun; subst us'; clear Hrun.
    split; [eapply keys_dict_set_known; exact G|].
    split.
    + intros u' N. apply dict_get_set_other. congruence.
    + exists a. split; [exact E1 | apply dict_get_set_same].
  - inversion Hrun; subst us'. auto.
Qed.

(** The loop keeps the users and their responses. *)
Lemma assessment_loop_keeps_users (cats : list pyval) (cols : list string)
      (rws : list (list pyval)) (us us' : dict pyval User.t) :
  for_each (load_assessment_row float_of_str cats cols) rws us = Ok us' ->
  keys us' = keys us /\
  forall u ud, dict_get u us = Some ud ->
    exists ud', dict_get u us' = Some ud' /\
                User.responses ud' = User.responses ud.
Proof.
  intros Hrun.
  eapply (for_each_invariant
            (fun s => keys s = keys us /\
                      forall u ud, dict_get u us = Some ud ->
                        exists ud', dict_get u s = Some ud' /\
                                    User.responses ud' = User.responses ud));
    [ | | exact Hrun].
  - intros row s s' _ (K & R) Hstep.
    destruct (load_assessment_row_spec _ _ _ _ _ Hstep)
      as (u0 & ts & _ & _ & K' & Hothers & Hu0).
    split; [congruence|].
    intros u ud G. destruct (R _ _ G) as (ud1 & G1 & R1).
    destruct (key_eq_dec u u0) as [->|N].
    + rewrite G1 in Hu0. destruct Hu0 as (scores & _ & G').
      eexists; split; [exact G' | exact R1].
    + exists ud1. split; [rewrite (Hothers _ N); exact G1 | exact R1].
  - split; [reflexivity|]. intros u ud G. exists ud; auto.
Qed.

Lemma assessment_loop_other_users (cats : list pyval) (cols : list string)
      (u : pyval) (rws : list (list pyval)) (us us' : dict pyval User.t) :
  (forall r, In r rws -> row_get cols r "user_id" <> Ok u) ->
  for_each (load_assessment_row float_of_str cats cols) rws us = Ok us' ->
  dict_get u us' = dict_get u us.
Proof.
  intros Hother Hrun.
  eapply (for_each_invariant (fun s => dict_get u s = dict_get u us));
    [ | | exact Hrun]; [|reflexivity].
  intros row s s' Hrow Hs Hstep.
  destruct (load_assessment_row_spec _ _ _ _ _ Hstep)
    as (u' & ts & Eu & _ & _ & Hothers & _).
  rewrite <- Hs. apply Hothers. intros ->. eapply Hother; eassumption.
Qed.

(** After the loop of [_load_self_assessment], the record of a known user
    is the one read from the last row of that user. *)
Lemma assessment_loop_last_row (cats : list pyval) (cols : list string)
      (u : pyval) (rws : list (list pyval)) (row : list pyval)
      (us us' : dict pyval User.t) :
  last_row_of cols u rws row ->
  In u (keys us) ->
  for_each (load_assessment_row float_of_str cats cols) rws us = Ok us' ->
  exists ud' timestamp scores,
    dict_get u us' = Some ud' /\
    row_get cols row "date_time" = Ok timestamp /\
    for_each (rate_category float_of_str cols row) cats [] = Ok scores /\
    User.self_assessment ud'
      = Some {| SelfAssessment.timestamp := timestamp;
                SelfAssessment.scores := scores |}.
Proof.
  intros (before & after & -> & Hu & Hafter) Hknown Hrun.
  rewrite for_each_app in Hrun. bind_inv Hrun. rename a into us_b.
  simpl in Hrun. bind_inv Hrun. rename a into us_r.
  destruct (assessment_loop_keeps_users _ _ _ _ _ E) as (Kb & _).
  destruct (load_assessment_row_spec _ _ _ _ _ E0)
    as (u' & ts & Eu & Ets & _ & _ & Hrow).
  rewrite Hu in Eu. inversion Eu; subst u'; clear Eu.
  rewrite <- Kb in Hknown. apply dict_mem_keys, dict_mem_true in Hknown.
  destruct Hknown as (ud_b & Gb). rewrite Gb in Hrow.
  destruct Hrow as (scores & Hscores & Gr).
  rewrite <- (assessment_loop_other_users _ _ _ _ _ _ Hafter Hrun) in Gr.
  eexists; exists ts, scores. split; [exact Gr|]. auto.
Qed.

(** Every record the loop leaves was read from a row of its user. *)
Lemma assessment_loop_rated_from (cats : list pyval) (df : DataFrame)
      (us us' : dict pyval User.t) :
  unrated us -> NoDup (keys us) ->
  for_each (load_assessment_row float_of_str cats (columns df)) (rows df) us
    = Ok us' ->
  rated_from float_of_str cats df us'.
Proof.
  intros U ND Hrun.
  eapply (for_each_invariant (rated_from float_of_str cats df));
    [ | | exact Hrun].
  - intros row s s' Hrow R Hstep.
    destruct (load_assessment_row_spec _ _ _ _ _ Hstep)
      as (u0 & ts & Eu & Ets & _ & Hothers & Hu0).
    intros u ud sa G Hsa.
    destruct (key_eq_dec u u0) as [->|N].
    + destruct (dict_get u0 s) as [ud0|] eqn:G0.
      * destruct Hu0 as (scores & Hscores & G').
        rewrite G' in G. inversion G; subst ud; clear G.
        simpl in Hsa. inversion Hsa; subst sa; clear Hsa.
        exists row. simpl. auto.
      * subst s'. congruence.
    + rewrite (Hothers _ N) in G. eapply R; eassumption.
  - intros u ud sa G Hsa. apply dict_get_In in G.
    rewrite (U _ _ G) in Hsa. discriminate.
Qed.
End AssessmentRows.

(** ** [_combine_data], user by user *)

Lemma combine_users_get (qs : dict string Question.t)
      (us us' : dict pyval User.t) :
  traverse (combine_user qs) us = Ok us' ->
  keys us' = keys us /\
  forall u,
    match dict_get u us with
    | Some ud =>
        exists ud', dict_get u us' = Some ud' /\
                    combine_user qs (u, ud) = Ok (u, ud')
    | None => dict_get u us' = None
    end.
Proof.
  revert us'. induction us as [|[u0 ud0] us IH]; intros us' Hrun; simpl in Hrun.
  - inversion Hrun; subst. split; [reflexivity|]. intros u; reflexivity.
  - bind_inv Hrun. bind_inv Hrun. inversion Hrun; subst us'; clear Hrun.
    destruct a as [u0' ud0']. destruct (combine_user_Ok _ _ _ _ _ E) as (-> & _).
    destruct (IH _ E0) as (K & Hget).
    split; [simpl; f_equal; exact K|].
    intros u. simpl. destruct (keqb u0 u) eqn:Eq.
    + apply keqb_eq in Eq. subst u0. exists ud0'. auto.
    + apply Hget.
Qed.

Lemma combine_user_keeps (qs : dict string Question.t) (u u' : pyval)
      (ud ud' : User.t) :
  combine_user qs (u, ud) = Ok (u', ud') ->
  User.responses ud' = User.responses ud /\
  User.self_assessment ud' = User.self_assessment ud.
Proof.
  intros Hc.
  destruct (combine_user_Ok _ _ _ _ _ Hc)
    as (_ & cs & tp & tposs & bc & n & _ & _ & ->).
  split; reflexivity.
Qed.

(** ** A user on several rows (C10) *)

(** C10. In the loaded model a user identifier has one record. When the
    identifier is on several rows of the results, the stored responses of
    the user are, question by question, the graded answers of the last of
    these rows, and no response of an earlier row is left. When a known
    user is on several rows of the self-assessment, the stored
    self-assessment is the one read from the last of these rows. *)
Theorem last_row_of_a_user_wins
        (int_of_str : string -> option Z)
        (float_of_str : string -> option pyfloat)
        (files : data_dir) (mappings : option (dict string string))
        (self : DataLoader) (data : Data.t) :
  load_all_data int_of_str float_of_str (init files mappings) = Ok (self, data) ->
  NoDup (keys (Data.users data)) /\
  (forall file u row,
      results_csv files = Some file ->
      let df := renamed (init files mappings) file in
      last_row_of (columns df) u (rows df) row ->
      exists ud timestamp,
        dict_get u (Data.users data) = Some ud /\
        row_get (columns df) row "date_time" = Ok timestamp /\
        (forall q_id q,
            In (q_id, q) (Data.questions data) ->
            in_columns (Question.text q) (columns df) = true ->
            exists answer,
              row_item (columns df) row (Question.text q) = Ok answer /\
              dict_get q_id (User.responses ud)
                = Some (grade timestamp answer q)) /\
        (forall q_id r,
            dict_get q_id (User.responses ud) = Some r ->
            exists q answer,
              In (q_id, q) (Data.questions data) /\
              row_item (columns df) row (Question.text q) = Ok answer /\
              r = grade timestamp answer q)) /\
  (forall file u row,
      self_assessment_csv files = Some file ->
      let df := renamed (init files mappings) file in
      last_row_of (columns df) u (rows df) row ->
      In u (keys (Data.users data)) ->
      exists ud timestamp scores,
        dict_get u (Data.users data) = Some ud /\
        row_get (columns df) row "date_time" = Ok timestamp /\
        for_each (rate_category float_of_str (columns df) row)
                 (quiz_categories self) [] = Ok scores /\
        User.self_assessment ud
          = Some {| SelfAssessment.timestamp := timestamp;
                    SelfAssessment.scores := scores |}).
Proof.
  intros Hrun.
  destruct (load_all_data_Ok _ _ _ _ _ Hrun) as (s1 & s2 & s3 & H1 & H2 & H3 & H4).
  destruct (_load_questions_Ok _ _ _ H1) as (ND & U1 & D1 & M1 & _).
  destruct (_load_responses_Ok _ _ H2)
    as (file2 & F2 & _ & L2 & Q2 & C2 & D2 & M2 & _).
  destruct (_load_self_assessment_Ok _ _ _ H3) as (Q3 & C3 & D3 & M3 & L3).
  destruct (_combine_data_Ok _ _ _ H4) as (L4 & Q4 & _ & _ & _ & _ & C4).
  destruct (combine_users_get _ _ _ L4) as (K4 & G4).
  cbn [users init] in U1. rewrite U1 in L2.
  destruct (response_loop_invariants _ _ _ _ ND L2) as (_ & ND2 & _).
  assert (R1 : forall file, renamed s1 file = renamed (init files mappings) file).
  { intros file. unfold renamed. rewrite M1. reflexivity. }
  assert (R2 : forall file, renamed s2 file = renamed (init files mappings) file).
  { intros file. unfold renamed. rewrite M2, M1. reflexivity. }
  assert (K3 : keys (users s3) = keys (users s2) /\
               forall u ud, dict_get u (users s2) = Some ud ->
                 exists ud', dict_get u (users s3) = Some ud' /\
                             User.responses ud' = User.responses ud).
  { destruct L3 as [(_ & -> & _)|(file3 & _ & _ & L3 & _)].
    - split; [reflexivity|]. intros u ud G. exists ud; auto.
    - eapply assessment_loop_keeps_users; exact L3. }
  destruct K3 as (K3 & G3).
  split; [rewrite K4, K3; exact ND2|].
  split.
  - intros file u row Hfile df Hlast.
    rewrite D1 in F2. cbn [dir init] in F2. rewrite Hfile in F2.
    inversion F2; subst file2; clear F2. rewrite R1 in L2. fold df in L2.
    destruct (response_loop_last_row _ _ _ _ _ _ ND Hlast L2)
      as (ud2 & ts & Gu2 & Ets & Hin & Hout).
    destruct (G3 _ _ Gu2) as (ud3 & Gu3 & Er3).
    specialize (G4 u). rewrite Gu3 in G4. destruct G4 as (ud & Gu & Hc).
    destruct (combine_user_keeps _ _ _ _ _ Hc) as (Er & _).
    exists ud, ts. split; [exact Gu|]. split; [exact Ets|].
    rewrite Er, Er3, Q4, Q3, Q2. split; assumption.
  - intros file u row Hfile df Hlast Hknown.
    destruct L3 as [(Hnone & _)|(file3 & F3 & _ & L3 & _)].
    { rewrite D2, D1 in Hnone. cbn [dir init] in Hnone. congruence. }
    rewrite D2, D1 in F3. cbn [dir init] in F3. rewrite Hfile in F3.
    inversion F3; subst file3; clear F3. rewrite R2 in L3. fold df in L3.
    rewrite K4, K3 in Hknown.
    destruct (assessment_loop_last_row _ _ _ _ _ _ _ _ Hlast Hknown L3)
      as (ud3 & ts & scores & Gu3 & Ets & Hscores & Hsa).
    specialize (G4 u). rewrite Gu3 in G4. destruct G4 as (ud & Gu & Hc).
    destruct (combine_user_keeps _ _ _ _ _ Hc) as (_ & Es).
    exists ud, ts, scores. split; [exact Gu|]. split; [exact Ets|].
    rewrite C4, C3, Es. split; assumption.
Qed.

Lemma last_row_witness :
  exists (self : DataLoader) (data : Data.t) (ud : User.t),
    load_all_data no_int no_float (init repeated_files None) = Ok (self, data) /\
    keys (Data.users data) = [VStr "u1"] /\
    dict_get (VStr "u1") (Data.users data) = Some ud /\
    dict_get "Q1" (User.responses ud)
      = Some {| Response.timestamp := VStr "t2";
                Response.answer := VStr "Paris";
                Response.is_correct := true;
                Response.points_earned := 1;
                Response.worth := 1 |} /\
    User.self_assessment ud
      = Some {| SelfAssessment.timestamp := VStr "t4";
                SelfAssessment.scores := [(VStr "X", Fin 7)] |}.
Proof.
  destruct (last_row_of_a_user_wins
              no_int no_float repeated_files None _ _ eq_refl)
    as (_ & Hresults & Hrating).
  destruct (Hresults repeated_results (VStr "u1")
                     [VStr "t2"; VStr "u1"; VStr "Paris"] eq_refl)
    as (ud & ts & Gu & Ets & Hin & _).
  { exists [[VStr "t1"; VStr "u1"; VStr "Rome"]], [].
    split; [reflexivity|]. split; [reflexivity|]. intros r []. }
  destruct (Hrating repeated_rating (VStr "u1")
                    [VStr "t4"; VStr "u1"; VNum 7] eq_refl)
    as (ud' & ts' & scores & Gu' & Ets' & Hscores & Hrecord).
  { exists [[VStr "t3"; VStr "u1"; VNum 2]], [].
    split; [reflexivity|]. split; [reflexivity|]. intros r []. }
  { left; reflexivity. }
  rewrite Gu in Gu'. inversion Gu'; subst ud'; clear Gu'.
  vm_compute in Ets. inversion Ets; subst ts; clear Ets.
  vm_compute in Ets'. inversion Ets'; subst ts'; clear Ets'.
  vm_compute in Hscores. inversion Hscores; subst scores; clear Hscores.
  destruct (Hin "Q1"
                {| Question.text := VStr "Capital?";
                   Question.category := VStr "X";
                   Question.correct_answer := VStr "Paris";
                   Question.worth := 1 |}
                (or_introl eq_refl) eq_refl)
    as (answer & Ea & Gq).
  vm_compute in Ea. inversion Ea; subst answer; clear Ea.
  eexists; eexists; exists ud.
  split; [reflexivity|].
  split; [vm_compute; reflexivity|].
  split; [exact Gu|].
  split; [exact Gq | exact Hrecord].
Defined.

(** ** The comparison entries of a completed analysis *)

Lemma analyze_category_Ok (sac : list pyval) (max_score : Z) (ud : User.t)
      (item : pyval * CategoryScore.t)
      (mc mc' : list McScore.t) (ss ss' : list SelfScore.t)
      (cmp cmp' : list Comparison.t) :
  analyze_category sac max_score ud item (mc, ss, cmp) = Ok (mc', ss', cmp') ->
  if qualifies sac item
  then exists sa n,
         User.self_assessment ud = Some sa /\
         CategoryScore.normalized_self_assessment (snd item) = Some n /\
         ss' = ss ++ [self_entry (SelfAssessment.scores sa) max_score item] /\
         cmp' = cmp ++ [comparison_entry item]
  else ss' = ss /\ cmp' = cmp.
Proof.
  destruct item as [c cs]. unfold analyze_category, qualifies. cbn [fst snd].
  intros Hrun. bind_inv Hrun.
  destruct (mem c sac); cbn [andb].
  2: { inversion Hrun; auto. }
  destruct (0 <? CategoryScore.points_possible cs).
  2: { inversion Hrun; auto. }
  destruct (User.self_assessment ud) as [sa|]; [|discriminate].
  cbn [bind] in Hrun.
  destruct (CategoryScore.normalized_self_assessment cs) as [n|] eqn:N;
    [|discriminate].
  cbn [bind] in Hrun. inversion Hrun; subst.
  exists sa, n. repeat split.
  unfold comparison_entry. cbn [fst snd]. rewrite N. reflexivity.
Qed.

Lemma analyze_categories_spec (sac : list pyval) (max_score : Z) (ud : User.t)
      (items : dict pyval CategoryScore.t) :
  forall (mc mc' : list McScore.t) (ss ss' : list SelfScore.t)
         (cmp cmp' : list Comparison.t),
    for_each (analyze_category sac max_score ud) items (mc, ss, cmp)
      = Ok (mc', ss', cmp') ->
    cmp' = cmp ++ map comparison_entry (filter (qualifies sac) items) /\
    (forall item, In item items -> qualifies sac item = true ->
       exists sa n,
         User.self_assessment ud = Some sa /\
         CategoryScore.normalized_self_assessment (snd item) = Some n) /\
    ss' = ss ++ map (self_entry (scores_of ud) max_score)
                    (filter (qualifies sac) items).
Proof.
  induction items as [|item items IH]; intros mc mc' ss ss' cmp cmp' Hrun;
    simpl in Hrun.
  - inversion Hrun; subst. simpl. rewrite !app_nil_r.
    split; [reflexivity|]. split; [intros item []|]. reflexivity.
  - bind_inv Hrun. destruct a as [[mc1 ss1] cmp1].
    apply analyze_category_Ok in E.
    destruct (IH _ _ _ _ _ _ Hrun) as (Hcmp & Hall & Hss).
    simpl. destruct (qualifies sac item) eqn:Q.
    + destruct E as (sa & n & Hsa & Hn & -> & ->).
      split; [rewrite Hcmp, <- app_assoc; reflexivity|].
      split.
      * intros item' [<-|Hin] Hq; [eauto | apply Hall; assumption].
      * rewrite Hss. unfold scores_of. rewrite Hsa, <- app_assoc. reflexivity.
    + destruct E as (-> & ->).
      split; [exact Hcmp|]. split.
      * intros item' [<-|Hin] Hq; [congruence | apply Hall; assumption].
      * exact Hss.
Qed.


(** ** Where a normalized self-assessment comes from (C4) *)

Lemma rate_categories_spec (float_of_str : string -> option pyfloat)
      (cols : list string) (row : list pyval) (cats : list pyval) :
  forall (acc scores : dict pyval pyfloat),
    for_each (rate_category float_of_str cols row) cats acc = Ok scores ->
    forall c s,
      dict_get c scores = Some s ->
      dict_get c acc = Some s \/
      (In c cats /\ in_columns c cols = true /\
       exists cell, row_item cols row c = Ok cell /\
                    py_float float_of_str cell = Ok s).
Proof.
  induction cats as [|c0 cats IH]; intros acc scores Hrun c s G; simpl in Hrun.
  - inversion Hrun; subst. left; exact G.
  - bind_inv Hrun. unfold rate_category in E.
    destruct (in_columns c0 cols) eqn:C.
    + bind_inv E. bind_inv E. inversion E; subst a; clear E.
      destruct (IH _ _ Hrun _ _ G) as [G1|(Hin & Hc & Hcell)].
      * destruct (key_eq_dec c0 c) as [->|N].
        -- rewrite dict_get_set_same in G1. inversion G1; subst s.
           right. split; [left; reflexivity|]. split; [exact C|]. eauto.
        -- rewrite dict_get_set_other in G1 by exact N. left; exact G1.
      * right. split; [right; exact Hin|]. auto.
    + inversion E; subst a; clear E.
      destruct (IH _ _ Hrun _ _ G) as [G1|(Hin & Hc & Hcell)]; [left; exact G1|].
      right. split; [right; exact Hin|]. auto.
Qed.

Lemma rated_scores_Some (ud : User.t) (scores : dict pyval pyfloat) :
  rated_scores ud = Some scores ->
  exists sa, User.self_assessment ud = Some sa /\
             SelfAssessment.scores sa = scores.
Proof.
  unfold rated_scores. destruct (User.self_assessment ud) as [sa|]; [|discriminate].
  destruct (SelfAssessment.scores sa) eqn:S; [discriminate|].
  intros [= <-]. exists sa. auto.
Qed.

(** The second loop of [_combine_data] gives a category a normalized
    self-assessment only from a score the user has, divided by 10. *)
Lemma normalize_category_Ok (ud : User.t) (item : pyval * (Z * Z))
      (c : pyval) (cs : CategoryScore.t) :
  normalize_category ud item = Ok (c, cs) ->
  c = fst item /\
  CategoryScore.points_earned cs = fst (snd item) /\
  CategoryScore.points_possible cs = snd (snd item) /\
  forall n,
    CategoryScore.normalized_self_assessment cs = Some n ->
    exists score,
      dict_get c (scores_of ud) = Some score /\
      n = fquot score (float_of_Z 10).
Proof.
  destruct item as [c0 [earned possible]]. unfold normalize_category.
  intros Hrun. bind_inv Hrun. bind_inv Hrun. inversion Hrun; subst; clear Hrun.
  cbn [fst snd CategoryScore.points_earned CategoryScore.points_possible
       CategoryScore.normalized_self_assessment].
  repeat split. intros n ->.
  destruct (rated_scores ud) as [scores|] eqn:R; [|discriminate].
  destruct (rated_scores_Some _ _ R) as (sa & Hsa & <-).
  destruct (dict_mem c (SelfAssessment.scores sa)); [|discriminate].
  bind_inv E0. bind_inv E0. inversion E0; subst; clear E0.
  apply dict_item_Ok in E1.
  rewrite truediv_positive in E2 by lia. inversion E2; subst.
  eexists. unfold scores_of. rewrite Hsa. split; [eassumption | reflexivity].
Qed.

(** In the loaded model, a normalized self-assessment of a category is a
    score of the user's record for that category, divided by 10. *)
Lemma loaded_normalized_self_assessment
      (int_of_str : string -> option Z) (float_of_str : string -> option pyfloat)
      (files : data_dir) (mappings : option (dict string string))
      (self : DataLoader) (data : Data.t) :
  load_all_data int_of_str float_of_str (init files mappings) = Ok (self, data) ->
  forall u ud bc c cs n,
    In (u, ud) (Data.users data) ->
    User.score_by_category ud = Some bc ->
    In (c, cs) bc ->
    CategoryScore.normalized_self_assessment cs = Some n ->
    exists sa score,
      User.self_assessment ud = Some sa /\
      dict_get c (SelfAssessment.scores sa) = Some score /\
      n = fquot score (float_of_Z 10).
Proof.
  intros Hrun u ud bc c cs n Hu Hbc Hc Hn.
  destruct (load_all_data_Ok _ _ _ _ _ Hrun) as (s1 & s2 & s3 & _ & _ & _ & H4).
  destruct (_combine_data_Ok _ _ _ H4) as (L4 & _).
  destruct (combine_users_In _ _ _ L4 _ _ Hu) as (ud3 & _ & Hcomb).
  destruct (combine_user_Ok _ _ _ _ _ Hcomb)
    as (_ & cats & tp & tposs & bc' & tn & _ & Hnorm & ->).
  simpl in Hbc. inversion Hbc; subst bc'; clear Hbc.
  destruct (traverse_In _ _ _ Hnorm _ Hc) as (item & _ & Hitem).
  destruct (normalize_category_Ok _ _ _ _ Hitem) as (_ & _ & _ & Hfrom).
  destruct (Hfrom _ Hn) as (score & G & ->).
  unfold scores_of in G. cbn [User.self_assessment User.set_scores].
  destruct (User.self_assessment ud3) as [sa|]; [|discriminate].
  exists sa, score. auto.
Qed.

(** In the loaded model, the self-assessment record of a user was read from
    a row of that user in the self-assessment file. *)
Lemma loaded_self_assessment_from_row
      (int_of_str : string -> option Z) (float_of_str : string -> option pyfloat)
      (files : data_dir) (mappings : option (dict string string))
      (self : DataLoader) (data : Data.t) :
  load_all_data int_of_str float_of_str (init files mappings) = Ok (self, data) ->
  forall u ud sa,
    dict_get u (Data.users data) = Some ud ->
    User.self_assessment ud = Some sa ->
    exists file,
      self_assessment_csv files = Some file /\
      rated_from float_of_str (quiz_categories self)
                 (renamed (init files mappings) file) (Data.users data).
Proof.
  intros Hrun u ud sa Gu Hsa.
  destruct (load_all_data_Ok _ _ _ _ _ Hrun) as (s1 & s2 & s3 & H1 & H2 & H3 & H4).
  destruct (_load_questions_Ok _ _ _ H1) as (ND & U1 & D1 & M1 & _).
  destruct (_load_responses_Ok _ _ H2) as (file2 & _ & _ & L2 & _ & C2 & D2 & M2 & _).
  destruct (_load_self_assessment_Ok _ _ _ H3) as (_ & C3 & _ & _ & L3).
  destruct (_combine_data_Ok _ _ _ H4) as (L4 & _ & _ & _ & _ & _ & C4).
  destruct (combine_users_get _ _ _ L4) as (_ & G4).
  cbn [users init] in U1. rewrite U1 in L2.
  destruct (response_loop_invariants _ _ _ _ ND L2) as (_ & ND2 & U2).
  assert (Keep : forall u0 ud0 sa0,
             dict_get u0 (Data.users data) = Some ud0 ->
             User.self_assessment ud0 = Some sa0 ->
             exists ud3, dict_get u0 (users s3) = Some ud3 /\
                         User.self_assessment ud3 = Some sa0).
  { intros u0 ud0 sa0 G0 S0. specialize (G4 u0).
    destruct (dict_get u0 (users s3)) as [ud3|]; [|congruence].
    destruct G4 as (ud' & G' & Hc). rewrite G0 in G'. inversion G'; subst ud'.
    destruct (combine_user_keeps _ _ _ _ _ Hc) as (_ & Es).
    exists ud3. split; [reflexivity | congruence]. }
  destruct L3 as [(_ & Eus & _)|(file3 & F3 & _ & L3 & _)].
  - destruct (Keep _ _ _ Gu Hsa) as (ud3 & G3 & S3).
    rewrite Eus in G3. apply dict_get_In in G3.
    rewrite (U2 _ _ G3) in S3. discriminate.
  - rewrite D2, D1 in F3. cbn [dir init] in F3.
    exists file3. split; [exact F3|].
    assert (R2 : renamed s2 file3 = renamed (init files mappings) file3).
    { unfold renamed. rewrite M2, M1. reflexivity. }
    rewrite R2 in L3. rewrite C4, C3.
    pose proof (assessment_loop_rated_from _ _ _ _ _ U2 ND2 L3) as R3.
    intros u0 ud0 sa0 G0 S0.
    destruct (Keep _ _ _ G0 S0) as (ud3 & G3 & S3).
    eapply R3; eassumption.
Qed.

Lemma analyze_users_In (float_sqrt : Q -> Q) (sac : list pyval) (max_score : Z)
      (us : dict pyval User.t) :
  forall acc analysis,
    for_each
      (fun (item : pyval * User.t) (analysis : dict pyval Analysis.t) =>
         user_analysis <- analyze_user float_sqrt sac max_score (snd item) ;;
         Ok (dict_set (fst item) user_analysis analysis))
      us acc = Ok analysis ->
    forall u a,
      In (u, a) analysis ->
      In (u, a) acc \/
      exists ud, In (u, ud) us /\
                 analyze_user float_sqrt sac max_score ud = Ok a.
Proof.
  induction us as [|[u0 ud0] us IH]; intros acc analysis Hrun u a Hin;
    simpl in Hrun.
  - inversion Hrun; subst. left; exact Hin.
  - bind_inv Hrun. bind_inv E. inversion E; subst a0; clear E.
    destruct (IH _ _ Hrun _ _ Hin) as [Hacc|(ud & Hud & Ha)].
    + apply In_dict_set in Hacc. destruct Hacc as [[-> ->]|Hacc].
      * right. exists ud0. split; [left; reflexivity | assumption].
      * left; exact Hacc.
    + right. exists ud. split; [right; exact Hud | exact Ha].
Qed.

(** C4, as the code has it. In the loaded model a normalized
    self-assessment of a category exists for a user only when the
    self-assessment file has a row of that user and the category as a
    column; it is the float read from that cell (a missing cell reads as
    [nan]), divided by 10. Downstream, every self-assessment score of a
    completed analysis is the score stored for that user and category: the
    default 0 of the analyzer is never used. *)
Theorem self_assessment_scores_come_from_the_file
        (int_of_str : string -> option Z)
        (float_of_str : string -> option pyfloat) (float_sqrt : Q -> Q)
        (files : data_dir) (mappings : option (dict string string))
        (self : DataLoader) (data : Data.t) :
  load_all_data int_of_str float_of_str (init files mappings) = Ok (self, data) ->
  (forall u ud by_category c scores n,
      dict_get u (Data.users data) = Some ud ->
      User.score_by_category ud = Some by_category ->
      dict_get c by_category = Some scores ->
      CategoryScore.normalized_self_assessment scores = Some n ->
      exists file row cell score,
        self_assessment_csv files = Some file /\
        In row (rows (renamed (init files mappings) file)) /\
        row_get (columns (renamed (init files mappings) file)) row "user_id"
          = Ok u /\
        in_columns c (columns (renamed (init files mappings) file)) = true /\
        row_item (columns (renamed (init files mappings) file)) row c
          = Ok cell /\
        py_float float_of_str cell = Ok score /\
        n = fquot score (float_of_Z 10)) /\
  (forall analysis u a entry,
      analyze_user_performance float_sqrt data = Ok analysis ->
      In (u, a) analysis ->
      In entry (Analysis.self_scores (Analysis.self_assessment a)) ->
      exists ud sa,
        In (u, ud) (Data.users data) /\
        User.self_assessment ud = Some sa /\
        dict_get (SelfScore.category entry) (SelfAssessment.scores sa)
          = Some (SelfScore.score entry)) /\
  py_float float_of_str VNaN = Ok NaN.
Proof.
  intros Hrun. split; [|split; [|reflexivity]].
  - intros u ud bc c cs n Gu Hbc Gc Hn.
    destruct (loaded_normalized_self_assessment _ _ _ _ _ _ Hrun
                u ud bc c cs n (dict_get_In _ _ _ Gu) Hbc (dict_get_In _ _ _ Gc) Hn)
      as (sa & score & Hsa & Gs & ->).
    destruct (loaded_self_assessment_from_row _ _ _ _ _ _ Hrun _ _ _ Gu Hsa)
      as (file & Hfile & Rf).
    destruct (Rf _ _ _ Gu Hsa) as (row & Hrow & Hu & _ & Hscores).
    destruct (rate_categories_spec _ _ _ _ _ _ Hscores _ _ Gs)
      as [G0|(_ & Hc & cell & Hcell & Hfloat)]; [discriminate G0|].
    exists file, row, cell, score. repeat split; assumption.
  - intros analysis u a entry Ha Hin Hentry.
    unfold analyze_user_performance in Ha.
    destruct (analyze_users_In _ _ _ _ _ _ Ha _ _ Hin) as [[]|(ud & Hud & Hua)].
    destruct (analyze_user_Ok _ _ _ _ _ Hua)
      as (ts & bc & mc & ss & _ & Hbc & Hloop & _ & Hss & _).
    destruct (analyze_categories_spec _ _ _ _ _ _ _ _ _ _ Hloop)
      as (_ & Hall & Hself).
    rewrite Hss, Hself in Hentry. simpl in Hentry.
    apply in_map_iff in Hentry. destruct Hentry as ([c cs] & <- & Hitem).
    apply filter_In in Hitem. destruct Hitem as (Hitem & Hq).
    destruct (Hall _ Hitem Hq) as (sa & n & Hsa & Hn).
    destruct (loaded_normalized_self_assessment _ _ _ _ _ _ Hrun
                u ud bc c cs n Hud Hbc Hitem Hn)
      as (sa' & score & Hsa' & Gs & _).
    rewrite Hsa in Hsa'. inversion Hsa'; subst sa'.
    exists ud, sa. split; [exact Hud|]. split; [exact Hsa|].
    unfold self_entry, scores_of. cbn [fst SelfScore.category SelfScore.score].
    rewrite Hsa, Gs. reflexivity.
Qed.

Lemma self_assessment_source_witness :
  exists (self : DataLoader) (data : Data.t) (ud : User.t)
         (by_category : dict pyval CategoryScore.t) (scores : CategoryScore.t),
    load_all_data no_int no_float
                  (init (sample_files (Some sample_rating_both)) None)
      = Ok (self, data) /\
    dict_get (VStr "u2") (Data.users data) = Some ud /\
    User.score_by_category ud = Some by_category /\
    dict_get (VStr "X") by_category = Some scores /\
    CategoryScore.normalized_self_assessment scores = Some (Fin (1 # 10)) /\
    exists file row cell score,
      self_assessment_csv (sample_files (Some sample_rating_both)) = Some file /\
      In row (rows (renamed (init (sample_files (Some sample_rating_both)) None)
                            file)) /\
      row_get (columns (renamed (init (sample_files (Some sample_rating_both))
                                      None) file)) row "user_id"
        = Ok (VStr "u2") /\
      in_columns (VStr "X")
                 (columns (renamed (init (sample_files (Some sample_rating_both))
                                         None) file)) = true /\
      row_item (columns (renamed (init (sample_files (Some sample_rating_both))
                                       None) file)) row (VStr "X") = Ok cell /\
      py_float no_float cell = Ok score /\
      Fin (1 # 10) = fquot score (float_of_Z 10).
Proof.
  destruct (self_assessment_scores_come_from_the_file
              no_int no_float sample_sqrt
              (sample_files (Some sample_rating_both)) None _ _ eq_refl)
    as (Hsource & _).
  do 5 eexists.
  split; [reflexivity|].
  split; [vm_compute; reflexivity|].
  split; [vm_compute; reflexivity|].
  split; [vm_compute; reflexivity|].
  split; [vm_compute; reflexivity|].
  eapply Hsource; vm_compute; reflexivity.
Defined.

(** C4 as stated fails: "u2" left the cell of "X" empty, and the loaded
    model still holds a normalized self-assessment for "u2" and "X" (it is
    [nan]), although no row of "u2" has a value in that column. *)
Lemma blank_rating_is_kept :
  exists (self : DataLoader) (data : Data.t),
    load_all_data no_int no_float
                  (init (sample_files (Some sample_rating_blank)) None)
      = Ok (self, data) /\
    ~ rated_only_with_a_value (sample_files (Some sample_rating_blank)) data.
Proof.
  do 2 eexists. split; [vm_compute; reflexivity|].
  intros Hclaim.
  destruct (Hclaim (VStr "u2") _ _ (VStr "X") _ NaN
                   eq_refl eq_refl eq_refl eq_refl)
    as (file & Hfile & row & cell & Hrow & Hu & _ & Hcell & Hvalue).
  inversion Hfile; subst file; clear Hfile.
  destruct Hrow as [<-|[<-|[]]].
  - vm_compute in Hu. discriminate Hu.
  - vm_compute in Hcell. inversion Hcell; subst cell. apply Hvalue; reflexivity.
Qed.

(** ** The comparison entries of a user (C3) *)




(* ------------------------------------------------------------------ *)
(** * Further properties of the loader and the analyzer *)

(** ** The identifiers of the questions *)

Lemma str_of_nat_inj (m n : nat) : str_of_nat m = str_of_nat n -> m = n.
Proof.
  unfold str_of_nat. intros E.
  assert (U : Nat.to_uint m = Nat.to_uint n).
  { pose proof (NilEmpty.usu (Nat.to_uint m)) as Hm.
    pose proof (NilEmpty.usu (Nat.to_uint n)) as Hn.
    rewrite E in Hm. rewrite Hm in Hn. inversion Hn; reflexivity. }
  rewrite <- (DecimalNat.Unsigned.of_to m), <- (DecimalNat.Unsigned.of_to n), U.
  reflexivity.
Qed.

Lemma question_id_inj (m n : nat) : question_id m = question_id n -> m = n.
Proof.
  unfold question_id. simpl. intros E. inversion E. apply str_of_nat_inj; assumption.
Qed.

Lemma dict_get_None_keys {K V : Type} `{KeyLaws K} (k : K) (d : dict K V) :
  dict_get k d = None <-> ~ In k (keys d).
Proof.
  rewrite <- dict_mem_keys. unfold dict_mem.
  destruct (dict_get k d); split.
  - discriminate.
  - intros N. exfalso. apply N. reflexivity.
  - intros _ E. discriminate E.
  - reflexivity.
Qed.

(** [d[k] = v] on a key that is not there adds the entry at the end. *)
Lemma dict_set_fresh {K V : Type} `{KeyLaws K} (k : K) (v : V) (d : dict K V) :
  ~ In k (keys d) -> dict_set k v d = d ++ [(k, v)].
Proof.
  induction d as [|[k' v'] d IH]; simpl; intros N; [reflexivity|].
  rewrite keqb_neq by (intros ->; apply N; left; reflexivity).
  rewrite IH by (intros Hin; apply N; right; exact Hin). reflexivity.
Qed.

Lemma load_question_as_row (int_of_str : string -> option Z) (cols : list string)
      (row : list pyval) (qs : dict string Question.t) :
  load_question int_of_str cols row qs
  = (q <- question_of_row int_of_str cols row ;;
     Ok (dict_set (question_id (List.length qs + 1)) q qs)).
Proof.
  unfold load_question, question_of_row.
  destruct (row_get cols row "question"); [|reflexivity]. cbn [bind].
  destruct (row_get cols row "category"); [|reflexivity]. cbn [bind].
  destruct (row_get cols row "answer"); [|reflexivity]. cbn [bind].
  destruct (row_get cols row "value"); [|reflexivity]. cbn [bind].
  destruct (py_int int_of_str a2); reflexivity.
Qed.

Lemma question_ids_fresh (n : nat) :
  ~ In (question_id (n + 1)) (map question_id (seq 1 n)).
Proof.
  intros Hin. apply in_map_iff in Hin. destruct Hin as (m & E & Hm).
  apply question_id_inj in E. apply in_seq in Hm. lia.
Qed.

Lemma load_questions_loop (int_of_str : string -> option Z) (cols : list string)
      (rws : list (list pyval)) :
  forall acc qs,
    keys acc = map question_id (seq 1 (List.length acc)) ->
    for_each (load_question int_of_str cols) rws acc = Ok qs ->
    exists ql,
      traverse (question_of_row int_of_str cols) rws = Ok ql /\
      qs = acc ++ combine (map question_id
                               (seq (List.length acc + 1) (List.length rws))) ql.
Proof.
  induction rws as [|row rws IH]; intros acc qs K Hrun; simpl in Hrun.
  - inversion Hrun; subst. exists []. simpl. rewrite app_nil_r. auto.
  - bind_inv Hrun. rewrite load_question_as_row in E. bind_inv E.
    inversion E; subst a; clear E.
    rewrite dict_set_fresh in Hrun
      by (rewrite K; apply question_ids_fresh).
    assert (K1 : keys (acc ++ [(question_id (List.length acc + 1), a0)])
                 = map question_id
                       (seq 1 (List.length
                                 (acc ++ [(question_id (List.length acc + 1), a0)])))).
    { unfold keys in *. rewrite map_app, K, length_app. simpl.
      rewrite seq_app, map_app. simpl. repeat f_equal; lia. }
    destruct (IH _ _ K1 Hrun) as (ql & Ht & ->).
    exists (a0 :: ql). simpl. rewrite E0, Ht. split; [reflexivity|].
    rewrite <- app_assoc, length_app. simpl.
    replace (List.length acc + 1 + 1)%nat with (S (List.length acc + 1)) by lia.
    reflexivity.
Qed.

(** X1. When [_load_questions] completes, every row of the questions has
    become one question: the bank holds the questions of the rows in file
    order under the identifiers [Q1], [Q2], ..., none of which overwrites
    another. *)
Theorem questions_are_numbered_in_file_order
        (int_of_str : string -> option Z) (self self' : DataLoader) :
  _load_questions int_of_str self = Ok self' ->
  exists file ql,
    questions_csv (dir self) = Some file /\
    traverse (question_of_row int_of_str (columns (renamed self file)))
             (rows (renamed self file)) = Ok ql /\
    questions self'
      = combine (map question_id (seq 1 (List.length (rows (renamed self file)))))
                ql /\
    List.length (questions self') = List.length (rows (renamed self file)).
Proof.
  unfold _load_questions, read_csv. intros Hrun.
  destruct (questions_csv (dir self)) as [file|]; [|discriminate].
  cbn [bind] in Hrun. fold (renamed self file) in Hrun.
  bind_inv Hrun. bind_inv Hrun. inversion Hrun; subst self'; clear Hrun.
  destruct (load_questions_loop _ _ _ [] _ eq_refl E0) as (ql & Ht & ->).
  exists file, ql. split; [reflexivity|]. split; [exact Ht|].
  cbn [questions set_questions]. split; [reflexivity|].
  simpl. rewrite length_combine, length_map, length_seq.
  assert (L : List.length ql = List.length (rows (renamed self file))).
  { clear - Ht. revert ql Ht.
    induction (rows (renamed self file)) as [|r rs IH]; intros ql Ht; simpl in Ht.
    - inversion Ht; reflexivity.
    - bind_inv Ht. bind_inv Ht. inversion Ht; subst. simpl. f_equal. auto. }
  rewrite L. apply Nat.min_id.
Qed.

Lemma questions_numbered_witness :
  exists (self' : DataLoader),
    _load_questions no_int (init (sample_files None) None) = Ok self' /\
    keys (questions self') = ["Q1"] /\
    List.length (questions self') = 1%nat.
Proof.
  eexists. split; [vm_compute; reflexivity|].
  split; [vm_compute; reflexivity|].
  destruct (questions_are_numbered_in_file_order
              no_int (init (sample_files None) None) _ eq_refl)
    as (file & ql & Hfile & _ & _ & Hlen).
  inversion Hfile; subst file. exact Hlen.
Defined.

(** ** When [_load_responses] completes *)

Lemma index_of_In (name : string) (cols : list string) :
  In name cols <-> exists i, index_of name cols = Some i.
Proof.
  induction cols as [|c cols IH]; simpl.
  - split; [intros [] | intros (i & E); discriminate].
  - destruct (String.eqb c name) eqn:E.
    + apply String.eqb_eq in E. split; eauto.
    + apply String.eqb_neq in E. rewrite IH. split.
      * intros [Hc|(i & Hi)]; [contradiction|]. rewrite Hi. eauto.
      * intros (i & Hi). right.
        destruct (index_of name cols); [eauto | discriminate].
Qed.

Lemma row_get_Ok (cols : list string) (row : list pyval) (name : string) :
  In name cols <-> exists v, row_get cols row name = Ok v.
Proof.
  rewrite index_of_In. unfold row_get. split.
  - intros (i & ->). eauto.
  - intros (v & E). destruct (index_of name cols); [eauto | discriminate].
Qed.

Lemma row_item_Ok (cols : list string) (row : list pyval) (v : pyval) :
  in_columns v cols = true -> exists a, row_item cols row v = Ok a.
Proof.
  destruct v; simpl; try discriminate.
  intros M. apply mem_In in M. apply row_get_Ok. exact M.
Qed.

Lemma missing_cols_nil (df : DataFrame) :
  missing_cols required_cols df = [] <->
  In "date_time" (columns df) /\ In "user_id" (columns df).
Proof.
  unfold missing_cols, required_cols. cbn [filter].
  rewrite <- !mem_In.
  destruct (mem "date_time" (columns df)), (mem "user_id" (columns df));
    cbn [negb]; split; intros H; try discriminate; try tauto;
    destruct H; discriminate.
Qed.

Lemma record_response_total (cols : list string) (row : list pyval)
      (user_id timestamp : pyval) (item : string * Question.t)
      (us : dict pyval User.t) :
  dict_mem user_id us = true ->
  exists us', record_response cols row user_id timestamp item us = Ok us' /\
              dict_mem user_id us' = true.
Proof.
  destruct item as [q_id question]. unfold record_response. intros M.
  destruct (in_columns (Question.text question) cols) eqn:C; [|eauto].
  destruct (row_item_Ok cols row _ C) as (answer & ->). cbn [bind].
  pose proof M as M'. apply dict_mem_true in M'. destruct M' as (user & G).
  unfold dict_item. rewrite G. cbn [bind].
  eexists. split; [reflexivity|].
  apply dict_mem_true. rewrite dict_get_set_same. eauto.
Qed.

Lemma load_response_row_total (qs : dict string Question.t)
      (cols : list string) (row : list pyval) (us : dict pyval User.t) :
  In "date_time" cols -> In "user_id" cols ->
  exists us', load_response_row qs cols row us = Ok us'.
Proof.
  intros Hd Hu. unfold load_response_row.
  destruct (proj1 (row_get_Ok cols row "user_id") Hu) as (user_id & ->).
  destruct (proj1 (row_get_Ok cols row "date_time") Hd) as (timestamp & ->).
  cbn [bind].
  set (us1 := if dict_mem user_id us then us else dict_set user_id new_user us).
  assert (M : dict_mem user_id us1 = true).
  { unfold us1. destruct (dict_mem user_id us) eqn:M; [exact M|].
    apply dict_mem_true. rewrite dict_get_set_same. eauto. }
  destruct (for_each_total (fun s => dict_mem user_id s = true)
                           (record_response cols row user_id timestamp) qs)
    with (s := us1) as (us' & -> & _); eauto.
  intros item s _ Hs. apply record_response_total. exact Hs.
Qed.

(** X2. [_load_responses] completes exactly when the results file exists and
    has, after the renaming, the columns [date_time] and [user_id]: nothing
    in its loop over the rows can raise, whatever the cells hold. *)
Theorem _load_responses_completes_iff_required_columns (self : DataLoader) :
  (exists self', _load_responses self = Ok self') <->
  (exists file,
      results_csv (dir self) = Some file /\
      In "date_time" (columns (renamed self file)) /\
      In "user_id" (columns (renamed self file))).
Proof.
  split.
  - intros (self' & Hrun).
    destruct (_load_responses_Ok _ _ Hrun) as (file & Hfile & Hmiss & _).
    exists file. split; [exact Hfile|]. apply missing_cols_nil. exact Hmiss.
  - intros (file & Hfile & Hd & Hu).
    unfold _load_responses, read_csv. rewrite Hfile. cbn [bind].
    fold (renamed self file).
    rewrite (proj2 (missing_cols_nil (renamed self file)) (conj Hd Hu)).
    destruct (for_each_total (fun _ => True)
                (load_response_row (questions self) (columns (renamed self file)))
                (rows (renamed self file))) with (s := users self)
      as (us & -> & _); [ | exact I | cbn [bind]; eauto].
    intros row s _ _.
    destruct (load_response_row_total (questions self)
                (columns (renamed self file)) row s Hd Hu) as (s' & ->).
    eauto.
Qed.

(** ** Every user answers every asked question *)

Lemma dict_mem_mem_keys {K V : Type} `{KeyLaws K} (k : K) (d : dict K V) :
  dict_mem k d = mem k (keys d).
Proof.
  destruct (mem k (keys d)) eqn:M.
  - apply dict_mem_keys, mem_In. exact M.
  - destruct (dict_mem k d) eqn:D; [|reflexivity].
    apply dict_mem_keys, mem_In in D. congruence.
Qed.

Lemma keys_dict_set_add {K V : Type} `{KeyLaws K} (k : K) (v : V) (d : dict K V) :
  keys (dict_set k v d) = set_add k (keys d).
Proof. rewrite keys_dict_set, dict_mem_mem_keys. reflexivity. Qed.

Lemma fold_set_add_fresh {K : Type} `{KeyLaws K} (ks acc : list K) :
  NoDup (acc ++ ks) -> fold_left (fun a k => set_add k a) ks acc = acc ++ ks.
Proof.
  revert acc. induction ks as [|k ks IH]; intros acc ND; simpl.
  - rewrite app_nil_r; reflexivity.
  - assert (N : ~ In k acc).
    { intros Hin. apply NoDup_remove_2 in ND. apply ND.
      apply in_or_app. left; exact Hin. }
    unfold set_add at 2.
    destruct (mem k acc) eqn:M; [apply mem_In in M; contradiction|].
    rewrite IH; rewrite <- app_assoc; [reflexivity | exact ND].
Qed.

Lemma fold_set_add_present {K : Type} `{KeyLaws K} (ks acc : list K) :
  (forall k, In k ks -> In k acc) ->
  fold_left (fun a k => set_add k a) ks acc = acc.
Proof.
  induction ks as [|k ks IH]; intros Hin; simpl; [reflexivity|].
  unfold set_add at 2.
  rewrite (proj2 (mem_In k acc)) by (apply Hin; left; reflexivity).
  apply IH. intros k' Hk'. apply Hin. right; exact Hk'.
Qed.

Lemma NoDup_keys_filter {K V : Type} (p : K * V -> bool) (d : dict K V) :
  NoDup (keys d) -> NoDup (keys (filter p d)).
Proof.
  induction d as [|[k v] d IH]; simpl; intros ND; [constructor|].
  inversion ND as [|? ? Hk ND']; subst.
  destruct (p (k, v)); simpl; [|auto].
  constructor; [|auto].
  intros Hin. apply Hk. unfold keys in *.
  apply in_map_iff in Hin. destruct Hin as (x & Ex & Hx).
  apply filter_In in Hx. destruct Hx as (Hx & _).
  rewrite <- Ex. apply in_map; exact Hx.
Qed.

(** The keys of the responses of the user of a row, after the inner loop *)
Lemma record_responses_keys (cols : list string) (row : list pyval)
      (u timestamp : pyval) (items : dict string Question.t) :
  forall (us0 us' : dict pyval User.t) (ud0 : User.t),
    dict_get u us0 = Some ud0 ->
    for_each (record_response cols row u timestamp) items us0 = Ok us' ->
    exists ud',
      dict_get u us' = Some ud' /\
      keys (User.responses ud')
        = fold_left (fun a k => set_add k a)
                    (keys (filter (asked cols) items))
                    (keys (User.responses ud0)).
Proof.
  induction items as [|[q0 question0] items IH]; intros us0 us' ud0 G Hrun;
    simpl in Hrun.
  - inversion Hrun; subst. exists ud0. auto.
  - bind_inv Hrun. unfold asked at 1. cbn [filter snd].
    fold (asked cols).
    destruct (in_columns (Question.text question0) cols) eqn:C.
    + bind_inv E. bind_inv E. inversion E; subst a; clear E.
      apply dict_item_Ok in E1. rewrite G in E1. inversion E1; subst a1; clear E1.
      destruct (IH _ _ _ (dict_get_set_same u _ us0) Hrun) as (ud' & Gu & Hk).
      exists ud'. split; [exact Gu|]. rewrite Hk.
      cbn [User.responses User.set_responses].
      rewrite (keys_dict_set_add q0 (grade timestamp a0 question0)
                                 (User.responses ud0)).
      reflexivity.
    + inversion E; subst a; clear E.
      apply (IH _ _ _ G Hrun).
Qed.

Lemma load_response_row_uniform (qs : dict string Question.t)
      (cols : list string) (row : list pyval) (us us' : dict pyval User.t) :
  NoDup (keys qs) ->
  uniform (keys (filter (asked cols) qs)) us ->
  load_response_row qs cols row us = Ok us' ->
  uniform (keys (filter (asked cols) qs)) us'.
Proof.
  intros ND U Hrun.
  destruct (load_response_row_spec _ _ _ _ _ ND Hrun)
    as (u & ts & Eu & Ets & Hothers & _).
  intros u0 ud G0. destruct (key_eq_dec u0 u) as [->|N].
  2: { rewrite (Hothers _ N) in G0. eapply U; exact G0. }
  unfold load_response_row in Hrun. rewrite Eu, Ets in Hrun. cbn [bind] in Hrun.
  pose proof (NoDup_keys_filter (asked cols) qs ND) as NDf.
  destruct (dict_mem u us) eqn:M.
  - apply dict_mem_true in M. destruct M as (ud0 & Gold).
    destruct (record_responses_keys _ _ _ _ _ _ _ _ Gold Hrun)
      as (ud' & Gu & Hk).
    rewrite G0 in Gu. inversion Gu; subst ud'. rewrite Hk, (U _ _ Gold).
    apply fold_set_add_present. auto.
  - destruct (record_responses_keys _ _ _ _ _ _ _ _
                (dict_get_set_same u new_user us) Hrun)
      as (ud' & Gu & Hk).
    rewrite G0 in Gu. inversion Gu; subst ud'. rewrite Hk.
    cbn [User.responses new_user keys map].
    apply (fold_set_add_fresh _ []). exact NDf.
Qed.

Lemma worth_of_asked (qs : dict string Question.t) (fs : dict string Question.t)
      (rs : dict string Response.t) :
  NoDup (keys qs) ->
  (forall item, In item fs -> In item qs) ->
  (forall q_id r, In (q_id, r) rs ->
     exists q, In (q_id, q) qs /\ Response.worth r = Question.worth q) ->
  keys rs = keys fs ->
  map Response.worth (values rs)
    = map (fun item => Question.worth (snd item)) fs.
Proof.
  intros ND. revert fs. induction rs as [|[k r] rs IH]; intros fs Hsub Hg K;
    destruct fs as [|[k' q'] fs]; try discriminate K; [reflexivity|].
  simpl in K. inversion K; subst k'. simpl. f_equal.
  - destruct (Hg k r (or_introl eq_refl)) as (q & Hq & ->).
    pose proof (In_dict_get k q qs ND Hq) as G1.
    pose proof (In_dict_get k q' qs ND (Hsub _ (or_introl eq_refl))) as G2.
    congruence.
  - apply IH; auto.
    + intros item Hi. apply Hsub. right; exact Hi.
    + intros q_id r' Hr. apply Hg. right; exact Hr.
Qed.

(** X3. In the loaded model every user has exactly one response for each
    question whose text is a column of the results, in the order of the
    bank, and none for another question: a blank answer is stored like any
    other. Hence [total_score.points_possible] is the same for all users:
    the total worth of the asked questions. *)
Theorem every_user_answers_every_asked_question
        (int_of_str : string -> option Z)
        (float_of_str : string -> option pyfloat)
        (files : data_dir) (mappings : option (dict string string))
        (self : DataLoader) (data : Data.t) :
  load_all_data int_of_str float_of_str (init files mappings) = Ok (self, data) ->
  exists file,
    results_csv files = Some file /\
    forall u ud,
      In (u, ud) (Data.users data) ->
      keys (User.responses ud)
        = keys (filter (asked (columns (renamed (init files mappings) file)))
                       (Data.questions data)) /\
      exists ts,
        User.total_score ud = Some ts /\
        TotalScore.points_possible ts
          = Zsum (map (fun item => Question.worth (snd item))
                      (filter (asked (columns (renamed (init files mappings)
                                                       file)))
                              (Data.questions data))).
Proof.
  intros Hrun.
  destruct (loaded_responses_graded _ _ _ _ _ _ Hrun) as (G & NDq).
  destruct (load_all_data_Ok _ _ _ _ _ Hrun) as (s1 & s2 & s3 & H1 & H2 & H3 & H4).
  destruct (_load_questions_Ok _ _ _ H1) as (ND & U1 & D1 & M1 & _).
  destruct (_load_responses_Ok _ _ H2) as (file & F2 & _ & L2 & Q2 & _).
  destruct (_load_self_assessment_Ok _ _ _ H3) as (Q3 & _ & _ & _ & L3).
  destruct (_combine_data_Ok _ _ _ H4) as (L4 & Q4 & _).
  cbn [users init] in U1. rewrite U1 in L2.
  rewrite D1 in F2. cbn [dir init] in F2.
  assert (R1 : renamed s1 file = renamed (init files mappings) file).
  { unfold renamed. rewrite M1. reflexivity. }
  rewrite R1 in L2.
  set (cols := columns (renamed (init files mappings) file)) in *.
  assert (Q : Data.questions data = questions s1) by congruence.
  rewrite Q in *.
  destruct (response_loop_invariants _ _ _ _ ND L2) as (_ & ND2 & _).
  assert (U2 : uniform (keys (filter (asked cols) (questions s1))) (users s2)).
  { eapply (for_each_invariant
              (uniform (keys (filter (asked cols) (questions s1)))));
      [ | | exact L2].
    - intros row s s' _ Hs Hstep.
      eapply load_response_row_uniform; eassumption.
    - intros u ud G0. discriminate G0. }
  assert (S23 : same_responses (users s2) (users s3)).
  { destruct L3 as [(_ & -> & _)|(file3 & _ & _ & L3 & _)].
    - apply same_responses_refl.
    - eapply assessment_loop_same_responses; exact L3. }
  pose proof (combine_users_same_responses _ _ _ L4) as S34.
  pose proof (same_responses_trans _ _ _ S23 S34) as S24.
  exists file. split; [exact F2|].
  intros u ud Hu.
  destruct (S24 _ _ Hu) as (ud2 & Hu2 & Er).
  assert (K : keys (User.responses ud)
              = keys (filter (asked cols) (questions s1))).
  { rewrite Er. eapply U2. apply In_dict_get; eassumption. }
  split; [exact K|].
  destruct (combine_users_In _ _ _ L4 _ _ Hu) as (ud3 & _ & Hc).
  destruct (combine_user_Ok _ _ _ _ _ Hc)
    as (_ & cs & tp & tposs & bc & n & Ht & _ & E).
  destruct (tally_totals _ _ _ _ _ _ _ _ Ht) as (_ & Etposs).
  assert (R : User.responses ud = User.responses ud3) by (rewrite E; reflexivity).
  eexists. split; [rewrite E; reflexivity|].
  cbn [TotalScore.points_possible]. rewrite Etposs, <- R. cbn [Z.add].
  f_equal. apply (worth_of_asked (questions s1)); auto.
  - intros item Hi. apply filter_In in Hi. tauto.
  - intros q_id r Hr. destruct (G _ _ _ _ Hu Hr) as (q & ts & ans & Hq & ->).
    exists q. auto.
Qed.

Lemma asked_questions_witness :
  exists (self : DataLoader) (data : Data.t) (u2 : User.t) (ts : TotalScore.t),
    load_all_data no_int no_float (init (sample_files None) None)
      = Ok (self, data) /\
    In (VStr "u2", u2) (Data.users data) /\
    keys (User.responses u2) = ["Q1"] /\
    User.total_score u2 = Some ts /\
    TotalScore.points_possible ts = 1.
Proof.
  destruct (every_user_answers_every_asked_question
              no_int no_float (sample_files None) None _ _ eq_refl)
    as (file & Hfile & Hall).
  inversion Hfile; subst file; clear Hfile.
  destruct (Hall (VStr "u2") _ (or_intror (or_introl eq_refl)))
    as (Hkeys & ts & Hts & Hposs).
  do 3 eexists. exists ts.
  split; [reflexivity|].
  split; [right; left; reflexivity|].
  split; [exact Hkeys|].
  split; [exact Hts | exact Hposs].
Defined.

(** ** What [_load_self_assessment] leaves alone *)

(** X4. [_load_self_assessment] never adds or removes a user and never
    touches a response: when it completes, the users are those of the
    results, in the same order and with the same responses; a row for a user
    who is not in the results is ignored. *)
Theorem _load_self_assessment_keeps_users
        (float_of_str : string -> option pyfloat) (self self' : DataLoader) :
  _load_self_assessment float_of_str self = Ok self' ->
  keys (users self') = keys (users self) /\
  (forall u ud,
      dict_get u (users self) = Some ud ->
      exists ud',
        dict_get u (users self') = Some ud' /\
        User.responses ud' = User.responses ud) /\
  (forall u, dict_get u (users self) = None -> dict_get u (users self') = None).
Proof.
  intros Hrun.
  destruct (_load_self_assessment_Ok _ _ _ Hrun)
    as (_ & _ & _ & _ & [(_ & -> & _)|(file & _ & _ & L & _)]).
  - split; [reflexivity|]. split; [|auto].
    intros u ud G. exists ud. auto.
  - destruct (assessment_loop_keeps_users _ _ _ _ _ _ L) as (K & R).
    split; [exact K|]. split; [exact R|].
    intros u G. apply dict_get_None_keys. rewrite K.
    apply dict_get_None_keys. exact G.
Qed.

Lemma self_assessment_keeps_users_witness :
  exists (s2 s3 : DataLoader),
    bind (_load_questions no_int
            (init (sample_files (Some sample_rating_stranger)) None))
         _load_responses = Ok s2 /\
    _load_self_assessment no_float s2 = Ok s3 /\
    keys (users s3) = [VStr "u1"; VStr "u2"] /\
    keys (users s3) = keys (users s2) /\
    dict_get (VStr "u9") (users s3) = None.
Proof.
  do 2 eexists.
  split; [vm_compute; reflexivity|].
  match goal with
  | |- ?A /\ _ => assert (Hload : A) by (vm_compute; reflexivity)
  end.
  split; [exact Hload|].
  split; [vm_compute; reflexivity|].
  destruct (_load_self_assessment_keeps_users no_float _ _ Hload)
    as (K & _ & Hnone).
  split; [exact K|]. apply Hnone. vm_compute; reflexivity.
Defined.

(** ** The category scores add up to the total score *)

Lemma Zsum_dict_set {K V : Type} `{KeyLaws K} (f : V -> Z) (k : K) (v : V)
      (d : dict K V) :
  Zsum (map f (values (dict_set k v d)))
  = Zsum (map f (values d))
    - match dict_get k d with Some old => f old | None => 0 end
    + f v.
Proof.
  unfold values. induction d as [|[k' v'] d IH]; cbn [dict_set dict_get map snd].
  - rewrite Zsum_cons. unfold Zsum; simpl. lia.
  - destruct (keqb k' k) eqn:E; cbn [map snd]; rewrite !Zsum_cons.
    + lia.
    + rewrite IH. lia.
Qed.

Lemma tally_response_sums (qs : dict string Question.t)
      (item : string * Response.t)
      (cs cs' : dict pyval (Z * Z)) (tp tp' tposs tposs' : Z) :
  tally_response qs item (cs, tp, tposs) = Ok (cs', tp', tposs') ->
  Zsum (map fst (values cs')) - tp' = Zsum (map fst (values cs)) - tp /\
  Zsum (map snd (values cs')) - tposs' = Zsum (map snd (values cs)) - tposs.
Proof.
  destruct item as [q_id r]. unfold tally_response. intros Hrun.
  bind_inv Hrun. bind_inv Hrun. inversion Hrun; subst; clear Hrun.
  apply dict_item_Ok in E0.
  rewrite !Zsum_dict_set, E0.
  destruct (dict_mem (Question.category a) cs) eqn:M.
  - cbn [fst snd]. lia.
  - rewrite !Zsum_dict_set.
    assert (G : dict_get (Question.category a) cs = None).
    { unfold dict_mem in M. destruct (dict_get _ cs); [discriminate|reflexivity]. }
    rewrite G. rewrite dict_get_set_same in E0. inversion E0; subst a0.
    cbn [fst snd]. lia.
Qed.

Lemma tally_sums (qs : dict string Question.t) (rs : dict string Response.t) :
  forall (cs cs' : dict pyval (Z * Z)) (tp tp' tposs tposs' : Z),
    for_each (tally_response qs) rs (cs, tp, tposs) = Ok (cs', tp', tposs') ->
    Zsum (map fst (values cs')) - tp' = Zsum (map fst (values cs)) - tp /\
    Zsum (map snd (values cs')) - tposs' = Zsum (map snd (values cs)) - tposs.
Proof.
  induction rs as [|item rs IH]; intros cs cs' tp tp' tposs tposs' Hrun;
    simpl in Hrun.
  - inversion Hrun; subst. split; reflexivity.
  - bind_inv Hrun. destruct a as [[cs1 tp1] tposs1].
    destruct (tally_response_sums _ _ _ _ _ _ _ _ E) as (A1 & B1).
    destruct (IH _ _ _ _ _ _ Hrun) as (A2 & B2). lia.
Qed.

Lemma traverse_map {A B C : Type} (f : A -> result B) (g : B -> C) (h : A -> C)
      (xs : list A) (ys : list B) :
  (forall x y, f x = Ok y -> g y = h x) ->
  traverse f xs = Ok ys -> map g ys = map h xs.
Proof.
  intros Hgh. revert ys. induction xs as [|x xs IH]; intros ys Hrun;
    simpl in Hrun.
  - inversion Hrun; reflexivity.
  - bind_inv Hrun. bind_inv Hrun. inversion Hrun; subst. simpl.
    rewrite (Hgh _ _ E), (IH _ E0). reflexivity.
Qed.

Lemma normalize_category_points (ud : User.t) (item : pyval * (Z * Z))
      (out : pyval * CategoryScore.t) :
  normalize_category ud item = Ok out ->
  fst out = fst item /\
  CategoryScore.points_earned (snd out) = fst (snd item) /\
  CategoryScore.points_possible (snd out) = snd (snd item).
Proof.
  destruct out as [c cs]. intros Hrun.
  destruct (normalize_category_Ok _ _ _ _ Hrun) as (-> & He & Hp & _).
  auto.
Qed.

(** X5. For every user that [_combine_data] has processed, the points of
    the categories add up to the total score: the sum of [points_earned]
    over [score.by_category] is [total_score.points_earned], and likewise
    for [points_possible]. *)
Theorem category_scores_add_up_to_total
        (self self' : DataLoader) (data : Data.t) :
  _combine_data self = Ok (self', data) ->
  forall u ud,
    In (u, ud) (Data.users data) ->
    exists ts by_category,
      User.total_score ud = Some ts /\
      User.score_by_category ud = Some by_category /\
      Zsum (map CategoryScore.points_earned (values by_category))
        = TotalScore.points_earned ts /\
      Zsum (map CategoryScore.points_possible (values by_category))
        = TotalScore.points_possible ts.
Proof.
  intros Hrun u ud Hu.
  destruct (_combine_data_Ok _ _ _ Hrun) as (L & _).
  destruct (combine_users_In _ _ _ L _ _ Hu) as (ud0 & _ & Hc).
  destruct (combine_user_Ok _ _ _ _ _ Hc)
    as (_ & cs & tp & tposs & bc & n & Ht & Hn & ->).
  destruct (tally_sums _ _ _ _ _ _ _ _ Ht) as (A & B).
  do 2 eexists. split; [reflexivity|]. split; [reflexivity|].
  cbn [TotalScore.points_earned TotalScore.points_possible].
  unfold values. rewrite !map_map.
  assert (E1 : map (fun x => CategoryScore.points_earned (snd x)) bc
               = map (fun x => fst (snd x)) cs).
  { apply (traverse_map (normalize_category ud0)); [|exact Hn].
    intros x y Hxy. apply normalize_category_points in Hxy. tauto. }
  assert (E2 : map (fun x => CategoryScore.points_possible (snd x)) bc
               = map (fun x => snd (snd x)) cs).
  { apply (traverse_map (normalize_category ud0)); [|exact Hn].
    intros x y Hxy. apply normalize_category_points in Hxy. tauto. }
  rewrite E1, E2.
  unfold values in A, B. rewrite !map_map in A, B.
  unfold Zsum in A at 2. unfold Zsum in B at 2. simpl in A, B.
  split; lia.
Qed.

Lemma category_scores_witness :
  exists (self : DataLoader) (data : Data.t) (u1 : User.t) (ts : TotalScore.t)
         (by_category : dict pyval CategoryScore.t),
    load_all_data no_int no_float (init (sample_files None) None)
      = Ok (self, data) /\
    In (VStr "u1", u1) (Data.users data) /\
    User.total_score u1 = Some ts /\
    User.score_by_category u1 = Some by_category /\
    Zsum (map CategoryScore.points_earned (values by_category)) = 1 /\
    Zsum (map CategoryScore.points_earned (values by_category))
      = TotalScore.points_earned ts.
Proof.
  assert (Hcombine :
            exists s3 self data,
              bind (bind (_load_questions no_int
                            (init (sample_files None) None)) _load_responses)
                   (_load_self_assessment no_float) = Ok s3 /\
              _combine_data s3 = Ok (self, data) /\
              load_all_data no_int no_float (init (sample_files None) None)
                = Ok (self, data)).
  { do 3 eexists. split; [vm_compute; reflexivity|].
    split; vm_compute; reflexivity. }
  destruct Hcombine as (s3 & self & data & _ & Hc & Hload).
  destruct (category_scores_add_up_to_total _ _ _ Hc (VStr "u1")) with
    (ud := snd (List.hd (VStr "", new_user) (Data.users data)))
    as (ts & bc & Hts & Hbc & He & Hp).
  { vm_compute in Hload. inversion Hload; subst. left; reflexivity. }
  exists self, data. do 1 eexists. exists ts, bc.
  split; [exact Hload|].
  vm_compute in Hload. inversion Hload; subst self data; clear Hload.
  split; [left; reflexivity|].
  split; [exact Hts|]. split; [exact Hbc|].
  split; [|exact He].
  vm_compute in Hbc. inversion Hbc; subst bc. reflexivity.
Defined.

(** ** When the overall statistics complete *)

Lemma comparison_stats_of_cases (a : Analysis.t) :
  if has_comparisons a
  then exists st, comparison_stats_of a = Ok (Some st)
  else comparison_stats_of a = Ok None.
Proof.
  unfold has_comparisons, comparison_stats_of.
  destruct (Analysis.by_category (Analysis.comparison a)) as [|c cs];
    [reflexivity|].
  rewrite !(truediv_positive _ _ (len_cons_pos c cs)). cbn [bind].
  eexists; reflexivity.
Qed.

Lemma collect_users_stats (xs : list Analysis.t) :
  forall (scores : list McScore.t) (averages : list pyfloat)
         (stats : list user_stats),
  exists scores' averages' stats',
    for_each collect_user xs (scores, averages, stats)
      = Ok (scores', averages', stats') /\
    len stats' = len stats + len (filter has_comparisons xs).
Proof.
  induction xs as [|a xs IH]; intros scores averages stats.
  - exists scores, averages, stats. split; [reflexivity|].
    unfold len; simpl. lia.
  - cbn [for_each collect_user filter].
    pose proof (comparison_stats_of_cases a) as Hc.
    destruct (has_comparisons a).
    + destruct Hc as (st & ->). cbn [bind].
      match goal with
      | |- context [for_each collect_user xs (?s, ?v, ?t)] =>
          destruct (IH s v t) as (s' & v' & t' & Hrun & Hlen)
      end.
      exists s', v', t'. split; [exact Hrun|].
      rewrite Hlen. unfold len. rewrite length_app. simpl List.length. lia.
    + rewrite Hc. cbn [bind].
      match goal with
      | |- context [for_each collect_user xs (?s, ?v, ?t)] =>
          destruct (IH s v t) as (s' & v' & t' & Hrun & Hlen)
      end.
      exists s', v', t'. split; [exact Hrun|]. exact Hlen.
Qed.

Lemma mean_ratio_Ok (key : user_stats -> pyfloat) (stats : list user_stats) :
  0 < len stats -> exists m, mean_ratio key stats = Ok m.
Proof.
  intros P. unfold mean_ratio. rewrite (truediv_positive _ _ P). cbn [bind].
  eexists; reflexivity.
Qed.

Lemma mean_ratio_Raise (key : user_stats -> pyfloat) :
  mean_ratio key [] = Raise ZeroDivisionError.
Proof. reflexivity. Qed.

Lemma filter_has_some {A : Type} (f : A -> bool) (xs : list A) :
  0 < len (filter f xs) <-> exists x, In x xs /\ f x = true.
Proof.
  split.
  - destruct (filter f xs) as [|y ys] eqn:E.
    + unfold len; simpl; lia.
    + intros _. exists y. apply filter_In. rewrite E. left; reflexivity.
  - intros (x & Hin & Hf).
    assert (Hx : In x (filter f xs)) by (apply filter_In; auto).
    destruct (filter f xs); [contradiction|]. apply len_cons_pos.
Qed.

(** X6. [get_overall_statistics] completes exactly when the analysis of at
    least one user has a comparison entry; the [total_users] of its
    comparison section is then the number of such users. Nothing else in
    the analysis can make it fail. *)
Theorem overall_statistics_complete_iff_compared
        (analysis : dict pyval Analysis.t) :
  (exists a, In a (values analysis) /\ has_comparisons a = true) <->
  (exists o,
      get_overall_statistics analysis = Ok o /\
      Overall.compared_users (Overall.comparison o)
        = len (filter has_comparisons (values analysis)) /\
      0 < Overall.compared_users (Overall.comparison o)).
Proof.
  unfold get_overall_statistics.
  destruct (collect_users_stats (values analysis) [] [] [])
    as (scores & averages & stats & -> & Hlen).
  cbn [bind]. change (len (@nil user_stats)) with 0 in Hlen.
  rewrite Z.add_0_l in Hlen.
  rewrite <- filter_has_some, <- Hlen.
  split.
  - intros P.
    destruct (mean_ratio_Ok stat_average_difference stats P) as (m1 & ->).
    destruct (mean_ratio_Ok stat_accurate_ratio stats P) as (m2 & ->).
    destruct (mean_ratio_Ok stat_overestimate_ratio stats P) as (m3 & ->).
    destruct (mean_ratio_Ok stat_underestimate_ratio stats P) as (m4 & ->).
    cbn [bind].
    assert (A1 : exists p,
               match scores with
               | _ :: _ =>
                   mean <- truediv (fsum (map McScore.percentage scores))
                                   (float_of_Z (len scores)) ;;
                   Ok (round mean 1)
               | [] => Ok (float_of_Z 0)
               end = Ok p).
    { destruct scores as [|s ss]; [eexists; reflexivity|].
      rewrite (truediv_positive _ _ (len_cons_pos s ss)). eexists; reflexivity. }
    destruct A1 as (p & ->). cbn [bind].
    assert (A2 : exists p,
               match averages with
               | _ :: _ =>
                   mean <- truediv (fsum averages) (float_of_Z (len averages)) ;;
                   Ok (round mean 1)
               | [] => Ok (float_of_Z 0)
               end = Ok p).
    { destruct averages as [|s ss]; [eexists; reflexivity|].
      rewrite (truediv_positive _ _ (len_cons_pos s ss)). eexists; reflexivity. }
    destruct A2 as (q & ->). cbn [bind].
    eexists. split; [reflexivity|].
    cbn [Overall.compared_users Overall.comparison]. split; [reflexivity|exact P].
  - intros (o & Hrun & _ & _).
    destruct stats as [|st stats]; [|apply len_cons_pos].
    rewrite mean_ratio_Raise in Hrun. discriminate.
Qed.

(** ** The three counts of a comparison do not overlap *)

Lemma thresholds_exclusive (c : Comparison.t) :
  (if is_accurate c then 1 else 0) + (if is_overestimate c then 1 else 0)
  + (if is_underestimate c then 1 else 0) <= 1.
Proof.
  unfold is_accurate, is_overestimate, is_underestimate, tenth, minus_tenth.
  destruct (Comparison.difference c) as [|[n p]]; cbn [fabs flt]; [lia|].
  unfold Qltb, Qabs. cbn [Qnum Qden].
  destruct (Z.ltb_spec (Z.abs n * 10) (1 * Z.pos p));
    destruct (Z.ltb_spec (n * 10) (-1 * Z.pos p));
    destruct (Z.ltb_spec (1 * Z.pos p) (n * 10)); lia.
Qed.

Lemma thresholds_exhaustive (c : Comparison.t) :
  off_threshold c ->
  (if is_accurate c then 1 else 0) + (if is_overestimate c then 1 else 0)
  + (if is_underestimate c then 1 else 0) = 1.
Proof.
  intros (d & Hd & Hne).
  unfold is_accurate, is_overestimate, is_underestimate, tenth, minus_tenth.
  rewrite Hd. destruct d as [n p]. cbn [fabs flt].
  unfold Qeq, Qabs in Hne. cbn [Qnum Qden] in Hne.
  unfold Qltb, Qabs. cbn [Qnum Qden].
  destruct (Z.ltb_spec (Z.abs n * 10) (1 * Z.pos p));
    destruct (Z.ltb_spec (n * 10) (-1 * Z.pos p));
    destruct (Z.ltb_spec (1 * Z.pos p) (n * 10)); lia.
Qed.

Lemma len_filter_cons {A : Type} (f : A -> bool) (x : A) (xs : list A) :
  len (filter f (x :: xs)) = (if f x then 1 else 0) + len (filter f xs).
Proof.
  cbn [filter]. destruct (f x); [|lia].
  unfold len. cbn [List.length]. lia.
Qed.

Lemma three_counts_bounded (xs : list Comparison.t) :
  len (filter is_accurate xs) + len (filter is_overestimate xs)
  + len (filter is_underestimate xs) <= len xs.
Proof.
  induction xs as [|c xs IH]; [unfold len; simpl; lia|].
  rewrite !len_filter_cons. pose proof (thresholds_exclusive c).
  unfold len in *. cbn [List.length]. lia.
Qed.

Lemma three_counts_exhaust (xs : list Comparison.t) :
  (forall c, In c xs -> off_threshold c) ->
  len (filter is_accurate xs) + len (filter is_overestimate xs)
  + len (filter is_underestimate xs) = len xs.
Proof.
  induction xs as [|c xs IH]; intros Hall; [unfold len; simpl; lia|].
  rewrite !len_filter_cons.
  pose proof (thresholds_exhaustive c (Hall c (or_introl eq_refl))).
  assert (K := IH (fun c' H' => Hall c' (or_intror H'))).
  unfold len in *. cbn [List.length]. lia.
Qed.

(** X7. In the analysis of a user no comparison entry is counted twice:
    [accurate_count + overestimate_count + underestimate_count] is at most
    the number of comparison entries, and equals it when every difference
    is a number whose absolute value is not exactly 0.1. *)
Theorem comparison_counts_do_not_overlap
        (float_sqrt : Q -> Q) (sac : list pyval) (max_score : Z)
        (ud : User.t) (a : Analysis.t) :
  analyze_user float_sqrt sac max_score ud = Ok a ->
  let cmp := Analysis.comparison a in
  Analysis.accurate_count cmp + Analysis.overestimate_count cmp
  + Analysis.underestimate_count cmp <= len (Analysis.by_category cmp) /\
  ((forall c, In c (Analysis.by_category cmp) -> off_threshold c) ->
   Analysis.accurate_count cmp + Analysis.overestimate_count cmp
   + Analysis.underestimate_count cmp = len (Analysis.by_category cmp)).
Proof.
  intros Hrun cmp.
  destruct (analyze_user_Ok _ _ _ _ _ Hrun)
    as (ts & bc & mc & ss & _ & _ & _ & _ & _ & Hacc & Hover & Hunder & _).
  subst cmp. rewrite Hacc, Hover, Hunder, !count_if_filter.
  split; [apply three_counts_bounded | apply three_counts_exhaust].
Qed.

Lemma comparison_counts_overlap_witness :
  exists a : Analysis.t,
    analyze_user sample_sqrt sample_categories 10 sample_user = Ok a /\
    len (Analysis.by_category (Analysis.comparison a)) = 3 /\
    Analysis.accurate_count (Analysis.comparison a)
    + Analysis.overestimate_count (Analysis.comparison a)
    + Analysis.underestimate_count (Analysis.comparison a)
    <= len (Analysis.by_category (Analysis.comparison a)).
Proof.
  eexists. split; [vm_compute; reflexivity|].
  split; [vm_compute; reflexivity|].
  apply (comparison_counts_do_not_overlap
           sample_sqrt sample_categories 10 sample_user).
  vm_compute; reflexivity.
Defined.

(** ** One analysis per user *)

Lemma loaded_users_NoDup (int_of_str : string -> option Z)
      (float_of_str : string -> option pyfloat)
      (files : data_dir) (mappings : option (dict string string))
      (self : DataLoader) (data : Data.t) :
  load_all_data int_of_str float_of_str (init files mappings) = Ok (self, data) ->
  NoDup (keys (Data.users data)).
Proof.
  intros Hrun.
  destruct (load_all_data_Ok _ _ _ _ _ Hrun) as (s1 & s2 & s3 & H1 & H2 & H3 & H4).
  destruct (_load_questions_Ok _ _ _ H1) as (ND & U1 & _).
  destruct (_load_responses_Ok _ _ H2) as (file & _ & _ & L2 & _).
  destruct (_load_self_assessment_keeps_users _ _ _ H3) as (K3 & _).
  destruct (_combine_data_Ok _ _ _ H4) as (L4 & _).
  cbn [users init] in U1. rewrite U1 in L2.
  destruct (response_loop_invariants _ _ _ _ ND L2) as (_ & ND2 & _).
  destruct (combine_users_get _ _ _ L4) as (K4 & _).
  rewrite K4, K3. exact ND2.
Qed.

Lemma analyze_users_as_traverse (f : pyval * User.t -> result Analysis.t)
      (us : dict pyval User.t) :
  forall acc : dict pyval Analysis.t,
    NoDup (keys acc ++ keys us) ->
    for_each (fun (item : pyval * User.t) (analysis : dict pyval Analysis.t) =>
                user_analysis <- f item ;;
                Ok (dict_set (fst item) user_analysis analysis))
             us acc
    = (entries <- traverse (fun item => a <- f item ;; Ok (fst item, a)) us ;;
       Ok (acc ++ entries)).
Proof.
  induction us as [|[u ud] us IH]; intros acc ND; cbn [for_each traverse bind].
  - rewrite app_nil_r. reflexivity.
  - destruct (f (u, ud)) as [a|e]; cbn [bind fst]; [|reflexivity].
    cbn [keys map fst] in ND.
    rewrite dict_set_fresh.
    2:{ intros Hin. apply NoDup_remove_2 in ND. apply ND.
        apply in_or_app. left. exact Hin. }
    rewrite IH.
    2:{ unfold keys. rewrite map_app. cbn [map fst].
        rewrite <- app_assoc. exact ND. }
    destruct (traverse _ us) as [entries|e]; cbn [bind]; [|reflexivity].
    rewrite <- app_assoc. reflexivity.
Qed.

(** X8. On loaded data [analyze_user_performance] behaves as a map over
    the users: it analyzes the users in their order, stops at the first
    user whose analysis raises, and otherwise returns exactly one analysis
    per user, under the same identifiers and in the same order. *)
Theorem analysis_has_one_entry_per_user
        (int_of_str : string -> option Z)
        (float_of_str : string -> option pyfloat) (float_sqrt : Q -> Q)
        (files : data_dir) (mappings : option (dict string string))
        (self : DataLoader) (data : Data.t) :
  load_all_data int_of_str float_of_str (init files mappings) = Ok (self, data) ->
  analyze_user_performance float_sqrt data
    = traverse (analyze_entry float_sqrt data) (Data.users data) /\
  forall analysis,
    analyze_user_performance float_sqrt data = Ok analysis ->
    keys analysis = keys (Data.users data) /\ NoDup (keys analysis).
Proof.
  intros Hrun.
  pose proof (loaded_users_NoDup _ _ _ _ _ _ Hrun) as ND.
  assert (E : analyze_user_performance float_sqrt data
              = traverse (analyze_entry float_sqrt data) (Data.users data)).
  { unfold analyze_user_performance.
    rewrite (analyze_users_as_traverse
               (fun item =>
                  analyze_user float_sqrt
                    (Metadata.self_assessment_categories (Data.metadata data))
                    (Metadata.self_assessment_max_score (Data.metadata data))
                    (snd item))) by exact ND.
    fold (analyze_entry float_sqrt data).
    destruct (traverse (analyze_entry float_sqrt data) (Data.users data));
      reflexivity. }
  split; [exact E|].
  intros analysis Ha. rewrite E in Ha.
  assert (K : keys analysis = keys (Data.users data)).
  { unfold keys. apply (traverse_map (analyze_entry float_sqrt data)); [|exact Ha].
    intros [u ud] [u' a] Hx. unfold analyze_entry in Hx.
    bind_inv Hx. inversion Hx; reflexivity. }
  split; [exact K | rewrite K; exact ND].
Qed.

Lemma one_entry_per_user_witness :
  exists (self : DataLoader) (data : Data.t) (analysis : dict pyval Analysis.t),
    load_all_data no_int no_float
                  (init (sample_files (Some sample_rating_both)) None)
      = Ok (self, data) /\
    analyze_user_performance sample_sqrt data = Ok analysis /\
    keys analysis = [VStr "u1"; VStr "u2"] /\
    keys analysis = keys (Data.users data).
Proof.
  do 3 eexists.
  match goal with
  | |- ?A /\ _ => assert (Hload : A) by (vm_compute; reflexivity)
  end.
  split; [exact Hload|].
  match goal with
  | |- ?A /\ _ => assert (Hrun : A) by (vm_compute; reflexivity)
  end.
  split; [exact Hrun|].
  split; [vm_compute; reflexivity|].
  apply (analysis_has_one_entry_per_user
           no_int no_float sample_sqrt _ _ _ _ Hload).
  exact Hrun.
Defined.

(** ** The metadata of the categories *)

Lemma _combine_data_metadata (self self' : DataLoader) (data : Data.t) :
  _combine_data self = Ok (self', data) ->
  exists categories_metadata,
    for_each count_question (questions self) [] = Ok categories_metadata /\
    Metadata.categories (Data.metadata data)
      = snd (fold_left (fun a u => mark_user u a) (values (Data.users data))
                       ([], categories_metadata)) /\
    Metadata.self_assessment_categories (Data.metadata data)
      = fst (fold_left (fun a u => mark_user u a) (values (Data.users data))
                       ([], categories_metadata)) /\
    Metadata.total_questions (Data.metadata data) = len (questions self) /\
    Metadata.total_users (Data.metadata data) = len (Data.users data) /\
    Metadata.total_points_possible (Data.metadata data)
      = Zsum (map Question.worth (values (questions self))) /\
    Data.questions data = questions self.
Proof.
  unfold _combine_data. intros Hrun.
  bind_inv Hrun. bind_inv Hrun. exists a0. split; [exact E0|].
  destruct (fold_left (fun a1 u => mark_user u a1) (values a) ([], a0))
    as [sac cm] eqn:F.
  inversion Hrun; subst; clear Hrun.
  cbn [Data.metadata Data.users Data.questions Metadata.categories
       Metadata.self_assessment_categories Metadata.total_questions
       Metadata.total_users Metadata.total_points_possible].
  rewrite F. repeat split; reflexivity.
Qed.

Lemma count_question_sums (item : string * Question.t)
      (cm cm' : dict pyval CategoryMeta.t) :
  count_question item cm = Ok cm' ->
  Zsum (map CategoryMeta.question_count (values cm'))
    = Zsum (map CategoryMeta.question_count (values cm)) + 1 /\
  Zsum (map CategoryMeta.total_points (values cm'))
    = Zsum (map CategoryMeta.total_points (values cm))
      + Question.worth (snd item) /\
  ((forall c e, dict_get c cm = Some e -> unmarked e) ->
   (forall c e, dict_get c cm' = Some e -> unmarked e)).
Proof.
  unfold count_question. intros Hrun. bind_inv Hrun.
  inversion Hrun; subst; clear Hrun. apply dict_item_Ok in E.
  rewrite !Zsum_dict_set, E.
  cbn [CategoryMeta.question_count CategoryMeta.total_points].
  destruct (dict_mem (Question.category (snd item)) cm) eqn:M.
  - split; [lia|]. split; [lia|].
    intros U c e G.
    destruct (key_eq_dec c (Question.category (snd item))) as [->|N].
    + rewrite dict_get_set_same in G. inversion G; subst e.
      exact (U _ _ E).
    + rewrite dict_get_set_other in G by (intros Q; apply N; symmetry; exact Q).
      exact (U _ _ G).
  - assert (G0 : dict_get (Question.category (snd item)) cm = None).
    { unfold dict_mem in M. destruct (dict_get _ cm); [discriminate|reflexivity]. }
    rewrite dict_get_set_same in E. inversion E; subst a; clear E.
    rewrite !Zsum_dict_set, G0.
    cbn [CategoryMeta.question_count CategoryMeta.total_points].
    split; [lia|]. split; [lia|].
    intros U c e G.
    destruct (key_eq_dec c (Question.category (snd item))) as [->|N].
    + rewrite dict_get_set_same in G. inversion G; subst e.
      split; reflexivity.
    + rewrite !dict_get_set_other in G
        by (intros Q; apply N; symmetry; exact Q).
      exact (U _ _ G).
Qed.

Lemma count_questions_sums (qs : dict string Question.t) :
  forall cm cm' : dict pyval CategoryMeta.t,
    for_each count_question qs cm = Ok cm' ->
    Zsum (map CategoryMeta.question_count (values cm'))
      = Zsum (map CategoryMeta.question_count (values cm)) + len qs /\
    Zsum (map CategoryMeta.total_points (values cm'))
      = Zsum (map CategoryMeta.total_points (values cm))
        + Zsum (map Question.worth (values qs)) /\
    ((forall c e, dict_get c cm = Some e -> unmarked e) ->
     (forall c e, dict_get c cm' = Some e -> unmarked e)).
Proof.
  induction qs as [|item qs IH]; intros cm cm' Hrun; simpl in Hrun.
  - inversion Hrun; subst. unfold len, Zsum; simpl.
    split; [lia|]. split; [lia|]. auto.
  - bind_inv Hrun.
    destruct (count_question_sums _ _ _ E) as (A1 & B1 & U1).
    destruct (IH _ _ Hrun) as (A2 & B2 & U2).
    change (values (item :: qs)) with (snd item :: values qs).
    cbn [map]. rewrite Zsum_cons.
    unfold len in *. cbn [List.length].
    split; [lia|]. split; [lia|].
    intros U. exact (U2 (U1 U)).
Qed.

Lemma In_set_add {K : Type} `{KeyLaws K} (k x : K) (xs : list K) :
  In x (set_add k xs) <-> x = k \/ In x xs.
Proof.
  unfold set_add. destruct (mem k xs) eqn:M.
  - apply mem_In in M. split; [auto|]. intros [->|Hx]; assumption.
  - rewrite in_app_iff. simpl. split.
    + intros [Hx|[->|[]]]; auto.
    + intros [->|Hx]; auto.
Qed.

Lemma dict_set_same_counts (c : pyval) (e e' : CategoryMeta.t)
      (cm : dict pyval CategoryMeta.t) :
  dict_get c cm = Some e ->
  CategoryMeta.question_count e' = CategoryMeta.question_count e ->
  CategoryMeta.total_points e' = CategoryMeta.total_points e ->
  Forall2 same_counts (dict_set c e' cm) cm.
Proof.
  intros G Hq Hp. induction cm as [|[c0 e0] cm IH]; [discriminate G|].
  cbn [dict_get dict_set] in *. destruct (keqb c0 c) eqn:E.
  - inversion G; subst e0. constructor.
    + repeat split; assumption.
    + clear. induction cm as [|x cm IH]; constructor; [|exact IH].
      repeat split; reflexivity.
  - constructor; [repeat split; reflexivity|]. apply IH. exact G.
Qed.

Lemma same_counts_refl (cm : dict pyval CategoryMeta.t) :
  Forall2 same_counts cm cm.
Proof.
  induction cm as [|x cm IH]; constructor; [|exact IH].
  repeat split; reflexivity.
Qed.

Lemma same_counts_trans (a b c : dict pyval CategoryMeta.t) :
  Forall2 same_counts a b -> Forall2 same_counts b c -> Forall2 same_counts a c.
Proof.
  intros Hab. revert c. induction Hab as [|x y a b (K1 & Q1 & P1) Hab IH];
    intros c Hbc; inversion Hbc as [|? z ? c' (K2 & Q2 & P2) Hbc']; subst.
  - constructor.
  - constructor; [|apply IH; exact Hbc'].
    repeat split; congruence.
Qed.

Lemma same_counts_maps (a b : dict pyval CategoryMeta.t) :
  Forall2 same_counts a b ->
  keys a = keys b /\
  map CategoryMeta.question_count (values a)
    = map CategoryMeta.question_count (values b) /\
  map CategoryMeta.total_points (values a)
    = map CategoryMeta.total_points (values b).
Proof.
  unfold keys, values.
  induction 1 as [|x y a b (K1 & Q1 & P1) Hab (IH1 & IH2 & IH3)];
    [repeat split; reflexivity|].
  cbn [map]. repeat split; congruence.
Qed.

(** The last loop of [_combine_data], seen as one loop over the rated
    categories of all the users *)
Lemma mark_users_flat (us : list User.t) :
  forall acc : list pyval * dict pyval CategoryMeta.t,
    fold_left (fun a u => mark_user u a) us acc
    = fold_left (fun a c => mark_category c a)
                (List.concat (map rated_categories us)) acc.
Proof.
  induction us as [|u us IH]; intros acc; [reflexivity|].
  cbn [fold_left map List.concat]. rewrite fold_left_app, IH.
  unfold mark_user, rated_categories.
  destruct (rated_scores u); reflexivity.
Qed.

Lemma mark_categories_spec (cs : list pyval) :
  forall (sac : list pyval) (cm : dict pyval CategoryMeta.t),
    let out := fold_left (fun a c => mark_category c a) cs (sac, cm) in
    (forall c, In c (fst out) <-> In c sac \/ In c cs) /\
    Forall2 same_counts (snd out) cm /\
    (forall c e',
        dict_get c (snd out) = Some e' ->
        (In c cs ->
         CategoryMeta.has_self_assessment e' = true /\
         CategoryMeta.self_assessment_max e' = 10) /\
        (~ In c cs -> dict_get c cm = Some e')).
Proof.
  induction cs as [|c0 cs IH]; intros sac cm; cbn [fold_left].
  - cbn [fst snd]. split; [intros c; simpl; tauto|].
    split; [apply same_counts_refl|].
    intros c e' G. split; [intros []|intros _; exact G].
  - cbn zeta in IH. unfold mark_category at 2.
    match goal with
    | |- context [fold_left _ cs (?s, ?m)] =>
        destruct (IH s m) as (I1 & I2 & I3);
        set (out := fold_left (fun a c => mark_category c a) cs (s, m)) in *;
        set (cm1 := m) in *
    end.
    cbv zeta.
    assert (S1 : Forall2 same_counts cm1 cm).
    { subst cm1. destruct (dict_get c0 cm) as [e0|] eqn:G0.
      - eapply dict_set_same_counts; [exact G0| |]; reflexivity.
      - apply same_counts_refl. }
    split; [|split].
    + intros c. rewrite I1, In_set_add. simpl. split.
      * intros [[->|Hc]|Hc]; auto.
      * intros [Hc|[->|Hc]]; auto.
    + eapply same_counts_trans; eassumption.
    + intros c e' G. destruct (I3 c e' G) as (J1 & J2).
      assert (D : In c cs \/ ~ In c cs).
      { destruct (mem c cs) eqn:M; [left; apply mem_In; exact M|].
        right. intros Hin. apply mem_In in Hin. congruence. }
      destruct D as [Hin|Hout].
      * split; [intros _; apply J1; exact Hin|].
        intros N. exfalso. apply N. right; exact Hin.
      * specialize (J2 Hout). subst cm1.
        destruct (key_eq_dec c c0) as [->|Nc].
        -- split; [intros _|intros N; exfalso; apply N; left; reflexivity].
           destruct (dict_get c0 cm) as [e0|] eqn:G0.
           ++ rewrite dict_get_set_same in J2. inversion J2; subst e'.
              split; reflexivity.
           ++ congruence.
        -- split; [intros [E|Hin]; [exfalso; apply Nc; symmetry; exact E
                                   |contradiction]|].
           intros _. destruct (dict_get c0 cm) as [e0|] eqn:G0; [|exact J2].
           rewrite dict_get_set_other in J2
             by (intros Q; apply Nc; symmetry; exact Q).
           exact J2.
Qed.

(** X9. In the metadata returned by [_combine_data], [total_questions]
    and [total_users] are the numbers of questions and of users, and the
    per-category figures add up: the [question_count] of the categories
    sum to [total_questions] and their [total_points] sum to
    [total_points_possible]; the later marking of the self-assessed
    categories changes neither. *)
Theorem category_metadata_adds_up
        (self self' : DataLoader) (data : Data.t) :
  _combine_data self = Ok (self', data) ->
  let m := Data.metadata data in
  Metadata.total_questions m = len (Data.questions data) /\
  Metadata.total_users m = len (Data.users data) /\
  Zsum (map CategoryMeta.question_count (values (Metadata.categories m)))
    = Metadata.total_questions m /\
  Zsum (map CategoryMeta.total_points (values (Metadata.categories m)))
    = Metadata.total_points_possible m.
Proof.
  intros Hrun m. subst m.
  destruct (_combine_data_metadata _ _ _ Hrun)
    as (cm & Hc & Ecat & _ & Etq & Etu & Etp & Eq).
  destruct (count_questions_sums _ _ _ Hc) as (A & B & _).
  rewrite mark_users_flat in Ecat.
  destruct (mark_categories_spec
              (List.concat (map rated_categories (values (Data.users data))))
              [] cm) as (_ & S & _).
  rewrite <- Ecat in S.
  destruct (same_counts_maps _ _ S) as (_ & Mq & Mp).
  rewrite Mq, Mp, A, B, Etq, Etu, Etp, Eq.
  unfold Zsum at 1 3. simpl. repeat split; lia.
Qed.

Lemma category_metadata_witness :
  exists (self : DataLoader) (data : Data.t),
    _combine_data sample_loader = Ok (self, data) /\
    Metadata.total_questions (Data.metadata data) = 1 /\
    Metadata.total_users (Data.metadata data) = 2 /\
    Zsum (map CategoryMeta.question_count
              (values (Metadata.categories (Data.metadata data))))
      = Metadata.total_questions (Data.metadata data).
Proof.
  do 2 eexists.
  match goal with
  | |- ?A /\ _ => assert (Hrun : A) by (vm_compute; reflexivity)
  end.
  split; [exact Hrun|].
  split; [vm_compute; reflexivity|].
  split; [vm_compute; reflexivity|].
  apply (category_metadata_adds_up _ _ _ Hrun).
Defined.

(** X10. The self-assessed categories of the metadata are exactly the
    categories that some user has a score for; a category of the quiz is
    flagged [has_self_assessment] exactly when it is one of them, and its
    [self_assessment_max] is 10 when flagged and 0 otherwise. *)
Theorem self_assessed_categories_are_the_rated_ones
        (self self' : DataLoader) (data : Data.t) :
  _combine_data self = Ok (self', data) ->
  let m := Data.metadata data in
  (forall c,
      In c (Metadata.self_assessment_categories m) <->
      exists u ud, In (u, ud) (Data.users data) /\ In c (rated_categories ud)) /\
  (forall c e,
      dict_get c (Metadata.categories m) = Some e ->
      (CategoryMeta.has_self_assessment e = true <->
       In c (Metadata.self_assessment_categories m)) /\
      CategoryMeta.self_assessment_max e
        = if CategoryMeta.has_self_assessment e then 10 else 0).
Proof.
  intros Hrun m. subst m.
  destruct (_combine_data_metadata _ _ _ Hrun)
    as (cm & Hc & Ecat & Esac & _).
  destruct (count_questions_sums _ _ _ Hc) as (_ & _ & U).
  assert (U0 : forall c e, dict_get c cm = Some e -> unmarked e).
  { apply U. intros c e G. discriminate G. }
  rewrite mark_users_flat in Ecat, Esac.
  destruct (mark_categories_spec
              (List.concat (map rated_categories (values (Data.users data))))
              [] cm) as (I1 & _ & I3).
  rewrite <- Ecat in I3. rewrite <- Esac in I1.
  set (cs := List.concat (map rated_categories (values (Data.users data)))) in *.
  assert (Hcs : forall c,
             In c cs <->
             exists u ud, In (u, ud) (Data.users data) /\
                          In c (rated_categories ud)).
  { intros c. subst cs. rewrite in_concat. split.
    - intros (l & Hl & Hc'). apply in_map_iff in Hl.
      destruct Hl as (ud & <- & Hud). unfold values in Hud.
      apply in_map_iff in Hud. destruct Hud as ([u ud'] & E & Hin).
      cbn [snd] in E. subst ud'. eauto.
    - intros (u & ud & Hin & Hc').
      exists (rated_categories ud). split; [|exact Hc'].
      apply in_map. unfold values.
      change ud with (snd (u, ud)). apply in_map. exact Hin. }
  split.
  - intros c. rewrite I1, <- Hcs. simpl. tauto.
  - intros c e G. destruct (I3 c e G) as (J1 & J2).
    assert (D : In c cs \/ ~ In c cs).
    { destruct (mem c cs) eqn:M; [left; apply mem_In; exact M|].
      right. intros Hin. apply mem_In in Hin. congruence. }
    destruct D as [Hin|Hout].
    + destruct (J1 Hin) as (-> & ->). split; [|reflexivity].
      split; [intros _; apply I1; right; exact Hin|reflexivity].
    + destruct (U0 _ _ (J2 Hout)) as (Hf & Hm). rewrite Hf, Hm.
      split; [|reflexivity].
      split; [discriminate|]. intros Hs. apply I1 in Hs.
      destruct Hs as [[]|Hs]. contradiction.
Qed.

Lemma self_assessed_categories_witness :
  exists (self : DataLoader) (data : Data.t) (e : CategoryMeta.t),
    _combine_data sample_loader = Ok (self, data) /\
    Metadata.self_assessment_categories (Data.metadata data) = [VStr "X"] /\
    dict_get (VStr "X") (Metadata.categories (Data.metadata data)) = Some e /\
    CategoryMeta.self_assessment_max e
      = if CategoryMeta.has_self_assessment e then 10 else 0.
Proof.
  do 3 eexists.
  match goal with
  | |- ?A /\ _ => assert (Hrun : A) by (vm_compute; reflexivity)
  end.
  split; [exact Hrun|].
  split; [vm_compute; reflexivity|].
  match goal with
  | |- ?A /\ _ => assert (Hget : A) by (vm_compute; reflexivity)
  end.
  split; [exact Hget|].
  pose proof (self_assessed_categories_are_the_rated_ones _ _ _ Hrun) as K.
  cbv zeta in K. destruct K as (_ & K).
  exact (proj2 (K _ _ Hget)).
Defined.

(** ** When the analysis of a user completes *)

Lemma analyze_category_completes (sac : list pyval) (max_score : Z)
      (ud : User.t) (item : pyval * CategoryScore.t)
      (acc : list McScore.t * list SelfScore.t * list Comparison.t) :
  comparable sac ud item ->
  exists out, analyze_category sac max_score ud item acc = Ok out.
Proof.
  destruct item as [c s]. destruct acc as [[mc ss] cmp].
  unfold comparable, qualifies, analyze_category. cbn [fst snd].
  intros Hc.
  destruct (0 <? CategoryScore.points_possible s) eqn:P.
  - apply Z.ltb_lt in P. rewrite (truediv_positive _ _ P). cbn [bind].
    destruct (mem c sac); [|eexists; reflexivity].
    destruct (Hc eq_refl) as (Hsa & Hn).
    destruct (User.self_assessment ud); [|congruence].
    destruct (CategoryScore.normalized_self_assessment s); [|congruence].
    cbn [bind]. eexists; reflexivity.
  - cbn [bind]. destruct (mem c sac); eexists; reflexivity.
Qed.

Lemma analyze_category_unrated (sac : list pyval) (max_score : Z)
      (ud : User.t) (item : pyval * CategoryScore.t)
      (acc : list McScore.t * list SelfScore.t * list Comparison.t) :
  User.self_assessment ud = None ->
  if qualifies sac item
  then analyze_category sac max_score ud item acc = Raise TypeError
  else exists out, analyze_category sac max_score ud item acc = Ok out.
Proof.
  intros Hsa. destruct (qualifies sac item) eqn:Q.
  - destruct item as [c s]. destruct acc as [[mc ss] cmp].
    unfold qualifies in Q. cbn [fst snd] in Q.
    apply andb_prop in Q. destruct Q as (M & P).
    unfold analyze_category. rewrite P, M, Hsa.
    apply Z.ltb_lt in P. rewrite (truediv_positive _ _ P). reflexivity.
  - apply analyze_category_completes. intros Q'. congruence.
Qed.

Lemma analyze_categories_unrated (sac : list pyval) (max_score : Z)
      (ud : User.t) (items : dict pyval CategoryScore.t) :
  User.self_assessment ud = None ->
  (exists item, In item items /\ qualifies sac item = true) ->
  forall acc,
    for_each (analyze_category sac max_score ud) items acc = Raise TypeError.
Proof.
  intros Hsa. induction items as [|item items IH]; intros (x & Hin & Q) acc.
  - destruct Hin.
  - cbn [for_each].
    pose proof (analyze_category_unrated sac max_score ud item acc Hsa) as K.
    destruct (qualifies sac item) eqn:Qi.
    + rewrite K. reflexivity.
    + destruct K as (out & ->). cbn [bind]. apply IH.
      destruct Hin as [->|Hin]; [congruence|]. eauto.
Qed.

Lemma analyze_user_completes (float_sqrt : Q -> Q) (sac : list pyval)
      (max_score : Z) (ud : User.t) (ts : TotalScore.t)
      (bc : dict pyval CategoryScore.t)
      (out : list McScore.t * list SelfScore.t * list Comparison.t) :
  User.total_score ud = Some ts ->
  User.score_by_category ud = Some bc ->
  for_each (analyze_category sac max_score ud) bc ([], [], []) = Ok out ->
  exists a, analyze_user float_sqrt sac max_score ud = Ok a.
Proof.
  intros Hts Hbc Hloop. unfold analyze_user.
  rewrite Hts, Hbc. cbn [bind]. rewrite Hloop. cbn [bind].
  destruct out as [[mc ss] cmp].
  assert (A1 : exists p,
             (if 0 <? TotalScore.points_possible ts
              then ratio <- truediv (float_of_Z (TotalScore.points_earned ts))
                                    (float_of_Z (TotalScore.points_possible ts)) ;;
                   Ok (round (fmul ratio (float_of_Z 100)) 1)
              else Ok (float_of_Z 0)) = Ok p).
  { destruct (0 <? TotalScore.points_possible ts) eqn:P; [|eexists; reflexivity].
    apply Z.ltb_lt in P. rewrite (truediv_positive _ _ P).
    eexists; reflexivity. }
  destruct A1 as (p & ->). cbn [bind].
  assert (A2 : exists m,
             match ss with
             | _ :: _ =>
                 mean <- truediv (fsum (map SelfScore.score ss))
                                 (float_of_Z (len ss)) ;;
                 Ok (round mean 1)
             | [] => Ok (float_of_Z 0)
             end = Ok m).
  { destruct ss as [|s ss]; [eexists; reflexivity|].
    rewrite (truediv_positive _ _ (len_cons_pos s ss)). eexists; reflexivity. }
  destruct A2 as (m & ->). cbn [bind].
  assert (A3 : exists m,
             match cmp with
             | _ :: _ =>
                 mean <- truediv (fsum (map Comparison.difference cmp))
                                 (float_of_Z (len cmp)) ;;
                 Ok (round mean 3)
             | [] => Ok (float_of_Z 0)
             end = Ok m).
  { destruct cmp as [|s cmp]; [eexists; reflexivity|].
    rewrite (truediv_positive _ _ (len_cons_pos s cmp)). eexists; reflexivity. }
  destruct A3 as (d & ->). cbn [bind].
  rewrite calculate_proficiency_score_cases. cbv zeta.
  cbn [Analysis.by_category Analysis.comparison].
  destruct cmp; cbn [bind]; eexists; reflexivity.
Qed.

(** X11. For a user that [_combine_data] has scored, the analysis
    completes exactly when every compared category (one of the
    self-assessed categories with [points_possible > 0]) finds a
    self-assessment record of the user and a normalized self-assessment;
    with a compared category and no self-assessment record it raises
    [TypeError]. No other value in the user's data makes it fail. *)
Theorem user_analysis_completes_iff_comparable
        (float_sqrt : Q -> Q) (sac : list pyval) (max_score : Z)
        (ud : User.t) (ts : TotalScore.t) (bc : dict pyval CategoryScore.t) :
  User.total_score ud = Some ts ->
  User.score_by_category ud = Some bc ->
  ((exists a, analyze_user float_sqrt sac max_score ud = Ok a) <->
   (forall item, In item bc -> comparable sac ud item)) /\
  (User.self_assessment ud = None ->
   (exists item, In item bc /\ qualifies sac item = true) ->
   analyze_user float_sqrt sac max_score ud = Raise TypeError).
Proof.
  intros Hts Hbc. split; [split|].
  - intros (a & Hrun) item Hin Q.
    destruct (analyze_user_Ok _ _ _ _ _ Hrun)
      as (ts' & bc' & mc & ss & _ & Hbc' & Hloop & _).
    assert (bc' = bc) by congruence. subst bc'.
    destruct (analyze_categories_spec _ _ _ _ _ _ _ _ _ _ Hloop)
      as (_ & Hq & _).
    destruct (Hq item Hin Q) as (sa & n & -> & ->).
    split; discriminate.
  - intros Hall.
    destruct (for_each_total (fun _ => True)
                (analyze_category sac max_score ud) bc) with (s := ([] : list McScore.t, [] : list SelfScore.t, [] : list Comparison.t))
      as (out & Hloop & _); [|exact I|].
    + intros item s Hin _.
      destruct (analyze_category_completes sac max_score ud item s
                  (Hall item Hin)) as (o & Ho).
      exists o; auto.
    + eapply analyze_user_completes; eassumption.
  - intros Hsa Hex. unfold analyze_user. rewrite Hts, Hbc. cbn [bind].
    rewrite (analyze_categories_unrated _ _ _ _ Hsa Hex). reflexivity.
Qed.

Lemma user_analysis_completes_witness :
  User.total_score sample_user
    = Some {| TotalScore.points_earned := 2;
              TotalScore.points_possible := 4;
              TotalScore.normalized_score := Fin (1 # 2) |} /\
  (exists bc,
      User.score_by_category sample_user = Some bc /\
      ((exists a,
           analyze_user sample_sqrt sample_categories 10 sample_user = Ok a) <->
       (forall item, In item bc -> comparable sample_categories sample_user item))).
Proof.
  split; [reflexivity|].
  eexists. split; [reflexivity|].
  apply (user_analysis_completes_iff_comparable
           sample_sqrt sample_categories 10 sample_user _ _
           eq_refl eq_refl).
Defined.

(** ** The quiz totals of an analysis *)

Lemma analyze_category_mc (sac : list pyval) (max_score : Z) (ud : User.t)
      (item : pyval * CategoryScore.t)
      (mc mc' : list McScore.t) (ss ss' : list SelfScore.t)
      (cmp cmp' : list Comparison.t) :
  analyze_category sac max_score ud item (mc, ss, cmp) = Ok (mc', ss', cmp') ->
  map McScore.points mc'
    = map McScore.points mc
      ++ map (fun it => CategoryScore.points_earned (snd it))
             (filter has_points [item]) /\
  map McScore.possible mc'
    = map McScore.possible mc
      ++ map (fun it => CategoryScore.points_possible (snd it))
             (filter has_points [item]).
Proof.
  destruct item as [c s]. unfold analyze_category, has_points.
  cbn [snd filter]. intros Hrun. bind_inv Hrun.
  assert (Ea : mc' = a).
  { destruct (mem c sac); [destruct (0 <? CategoryScore.points_possible s)|].
    - bind_inv Hrun. bind_inv Hrun. inversion Hrun; reflexivity.
    - inversion Hrun; reflexivity.
    - inversion Hrun; reflexivity. }
  subst a. clear Hrun.
  destruct (0 <? CategoryScore.points_possible s).
  - bind_inv E. inversion E; subst. rewrite !map_app. split; reflexivity.
  - inversion E; subst. cbn [map]. rewrite !app_nil_r. split; reflexivity.
Qed.

Lemma analyze_categories_mc (sac : list pyval) (max_score : Z) (ud : User.t)
      (items : dict pyval CategoryScore.t) :
  forall (mc mc' : list McScore.t) (ss ss' : list SelfScore.t)
         (cmp cmp' : list Comparison.t),
    for_each (analyze_category sac max_score ud) items (mc, ss, cmp)
      = Ok (mc', ss', cmp') ->
    map McScore.points mc'
      = map McScore.points mc
        ++ map (fun it => CategoryScore.points_earned (snd it))
               (filter has_points items) /\
    map McScore.possible mc'
      = map McScore.possible mc
        ++ map (fun it => CategoryScore.points_possible (snd it))
               (filter has_points items).
Proof.
  induction items as [|item items IH]; intros mc mc' ss ss' cmp cmp' Hrun;
    cbn [for_each] in Hrun.
  - inversion Hrun; subst. cbn [filter map]. rewrite !app_nil_r.
    split; reflexivity.
  - bind_inv Hrun. destruct a as [[mc1 ss1] cmp1].
    destruct (analyze_category_mc _ _ _ _ _ _ _ _ _ _ E) as (A1 & B1).
    destruct (IH _ _ _ _ _ _ Hrun) as (A2 & B2).
    rewrite A2, B2, A1, B1.
    change (item :: items) with ([item] ++ items).
    rewrite !filter_app, !map_app, <- !app_assoc. split; reflexivity.
Qed.

Lemma Zsum_filter_zero {A : Type} (f : A -> Z) (p : A -> bool) (xs : list A) :
  (forall x, In x xs -> p x = false -> f x = 0) ->
  Zsum (map f (filter p xs)) = Zsum (map f xs).
Proof.
  induction xs as [|x xs IH]; intros Hz; [reflexivity|].
  cbn [filter map]. rewrite Zsum_cons.
  assert (K := IH (fun y Hy => Hz y (or_intror Hy))).
  destruct (p x) eqn:P.
  - cbn [map]. rewrite Zsum_cons. lia.
  - rewrite (Hz x (or_introl eq_refl) P). lia.
Qed.

Lemma tally_response_within (qs : dict string Question.t)
      (item : string * Response.t)
      (cs cs' : dict pyval (Z * Z)) (tp tp' tposs tposs' : Z) :
  0 <= Response.points_earned (snd item) <= Response.worth (snd item) ->
  within_possible cs ->
  tally_response qs item (cs, tp, tposs) = Ok (cs', tp', tposs') ->
  within_possible cs'.
Proof.
  destruct item as [q_id r]. cbn [snd]. unfold tally_response.
  intros Hr W Hrun. bind_inv Hrun. bind_inv Hrun.
  inversion Hrun; subst; clear Hrun. apply dict_item_Ok in E0.
  assert (Ha0 : 0 <= fst a0 <= snd a0).
  { destruct (dict_mem (Question.category a) cs).
    - apply dict_get_In in E0. exact (W _ _ E0).
    - rewrite dict_get_set_same in E0. inversion E0; subst. simpl. lia. }
  intros c e Hin. apply In_dict_set in Hin.
  destruct Hin as [(-> & ->)|Hin]; [cbn [fst snd]; lia|].
  destruct (dict_mem (Question.category a) cs); [exact (W _ _ Hin)|].
  apply In_dict_set in Hin.
  destruct Hin as [(-> & ->)|Hin]; [simpl; lia | exact (W _ _ Hin)].
Qed.

Lemma tally_within (qs : dict string Question.t) (rs : dict string Response.t) :
  (forall q_id r, In (q_id, r) rs ->
                  0 <= Response.points_earned r <= Response.worth r) ->
  forall (cs cs' : dict pyval (Z * Z)) (tp tp' tposs tposs' : Z),
    within_possible cs ->
    for_each (tally_response qs) rs (cs, tp, tposs) = Ok (cs', tp', tposs') ->
    within_possible cs'.
Proof.
  induction rs as [|[q_id r] rs IH]; intros Hr cs cs' tp tp' tposs tposs' W Hrun;
    cbn [for_each] in Hrun.
  - inversion Hrun; subst. exact W.
  - bind_inv Hrun. destruct a as [[cs1 tp1] tposs1].
    eapply (IH (fun q r' H' => Hr q r' (or_intror H'))); [|exact Hrun].
    eapply tally_response_within; [|exact W|exact E].
    cbn [snd]. apply (Hr q_id). left; reflexivity.
Qed.

Lemma grade_within_worth (timestamp answer : pyval) (q : Question.t) :
  0 <= Question.worth q ->
  0 <= Response.points_earned (grade timestamp answer q)
    <= Response.worth (grade timestamp answer q).
Proof.
  intros P. simpl. destruct (py_eq answer (Question.correct_answer q)); lia.
Qed.

Lemma analyze_user_totals (float_sqrt : Q -> Q) (sac : list pyval)
      (max_score : Z) (ud : User.t) (a : Analysis.t) :
  analyze_user float_sqrt sac max_score ud = Ok a ->
  exists ts,
    User.total_score ud = Some ts /\
    Analysis.points (Analysis.total_score a) = TotalScore.points_earned ts /\
    Analysis.possible (Analysis.total_score a) = TotalScore.points_possible ts /\
    Analysis.total_points (Analysis.mc_quiz a)
      = Zsum (map McScore.points (Analysis.mc_scores (Analysis.mc_quiz a))) /\
    Analysis.total_possible (Analysis.mc_quiz a)
      = Zsum (map McScore.possible (Analysis.mc_scores (Analysis.mc_quiz a))).
Proof.
  unfold analyze_user. intros Hrun.
  bind_inv Hrun. destruct (User.total_score ud) as [ts|]; [|discriminate].
  inversion E; subst a0; clear E.
  bind_inv Hrun. bind_inv Hrun. destruct a1 as [[mc ss] cmp].
  bind_inv Hrun. bind_inv Hrun. bind_inv Hrun. bind_inv Hrun.
  inversion Hrun; subst; clear Hrun.
  exists ts. repeat split; reflexivity.
Qed.

(** X12. When no question is worth a negative number of points, the quiz
    totals of a user's analysis are the user's total score: every category
    left out of [mc_scores] for having no possible points has no earned
    points either, so [mc_quiz.total_points] and [mc_quiz.total_possible]
    equal [total_score.points] and [total_score.possible]. *)
Theorem quiz_totals_equal_total_score
        (int_of_str : string -> option Z)
        (float_of_str : string -> option pyfloat) (float_sqrt : Q -> Q)
        (files : data_dir) (mappings : option (dict string string))
        (self : DataLoader) (data : Data.t)
        (sac : list pyval) (max_score : Z)
        (u : pyval) (ud : User.t) (a : Analysis.t) :
  load_all_data int_of_str float_of_str (init files mappings) = Ok (self, data) ->
  worth_not_negative (Data.questions data) ->
  In (u, ud) (Data.users data) ->
  analyze_user float_sqrt sac max_score ud = Ok a ->
  Analysis.total_points (Analysis.mc_quiz a)
    = Analysis.points (Analysis.total_score a) /\
  Analysis.total_possible (Analysis.mc_quiz a)
    = Analysis.possible (Analysis.total_score a).
Proof.
  intros Hload Hworth Hu Hrun.
  destruct (loaded_responses_graded _ _ _ _ _ _ Hload) as (G & _).
  destruct (load_all_data_Ok _ _ _ _ _ Hload) as (s1 & s2 & s3 & _ & _ & _ & H4).
  destruct (_combine_data_Ok _ _ _ H4) as (L4 & _).
  destruct (combine_users_In _ _ _ L4 _ _ Hu) as (ud0 & _ & Hc).
  destruct (combine_user_Ok _ _ _ _ _ Hc)
    as (_ & cs & tp & tposs & bc & n & Ht & Hn & E).
  assert (R : User.responses ud = User.responses ud0) by (rewrite E; reflexivity).
  assert (W : within_possible cs).
  { eapply (tally_within _ _) with (cs := @nil (pyval * (Z * Z))); [| |exact Ht].
    - intros q_id r Hr. rewrite <- R in Hr.
      destruct (G _ _ _ _ Hu Hr) as (q & t & ans & Hq & ->).
      apply grade_within_worth. eapply Hworth; exact Hq.
    - intros c e []. }
  destruct (tally_sums _ _ _ _ _ _ _ _ Ht) as (S1 & S2).
  unfold Zsum in S1 at 2. unfold Zsum in S2 at 2. simpl in S1, S2.
  destruct (analyze_user_totals _ _ _ _ _ Hrun)
    as (ts & Hts & -> & -> & -> & ->).
  destruct (analyze_user_Ok _ _ _ _ _ Hrun)
    as (ts' & bc' & mc & ss & _ & Hbc & Hloop & Hmc & _).
  rewrite Hmc.
  assert (ts = {| TotalScore.points_earned := tp;
                  TotalScore.points_possible := tposs;
                  TotalScore.normalized_score := n |} /\ bc' = bc).
  { rewrite E in Hts, Hbc. cbn in Hts, Hbc. split; congruence. }
  destruct H as (-> & ->). cbn [TotalScore.points_earned TotalScore.points_possible].
  destruct (analyze_categories_mc _ _ _ _ _ _ _ _ _ _ Hloop) as (A & B).
  rewrite A, B. cbn [map]. rewrite !app_nil_l.
  assert (Wbc : forall item, In item bc ->
                  0 <= CategoryScore.points_earned (snd item)
                    <= CategoryScore.points_possible (snd item)).
  { intros item Hin.
    destruct (traverse_In _ _ _ Hn _ Hin) as (x & Hx & Hxy).
    destruct (normalize_category_points _ _ _ Hxy) as (_ & -> & ->).
    destruct x as [c e]. exact (W _ _ Hx). }
  assert (E1 : map (fun x => CategoryScore.points_earned (snd x)) bc
               = map (fun x => fst (snd x)) cs).
  { apply (traverse_map (normalize_category ud0)); [|exact Hn].
    intros x y Hxy. apply normalize_category_points in Hxy. tauto. }
  assert (E2 : map (fun x => CategoryScore.points_possible (snd x)) bc
               = map (fun x => snd (snd x)) cs).
  { apply (traverse_map (normalize_category ud0)); [|exact Hn].
    intros x y Hxy. apply normalize_category_points in Hxy. tauto. }
  unfold values in S1, S2. rewrite !map_map in S1, S2.
  rewrite !Zsum_filter_zero, E1, E2; [split; lia| |].
  - intros item Hin P. unfold has_points in P. apply Z.ltb_ge in P.
    pose proof (Wbc item Hin). lia.
  - intros item Hin P. unfold has_points in P. apply Z.ltb_ge in P.
    pose proof (Wbc item Hin). lia.
Qed.

Lemma quiz_totals_witness :
  exists (self : DataLoader) (data : Data.t) (ud : User.t) (a : Analysis.t),
    load_all_data no_int no_float
                  (init (sample_files (Some sample_rating_both)) None)
      = Ok (self, data) /\
    worth_not_negative (Data.questions data) /\
    In (VStr "u1", ud) (Data.users data) /\
    analyze_user sample_sqrt [VStr "X"] 10 ud = Ok a /\
    Analysis.total_points (Analysis.mc_quiz a) = 1 /\
    Analysis.total_points (Analysis.mc_quiz a)
      = Analysis.points (Analysis.total_score a).
Proof.
  do 4 eexists.
  match goal with
  | |- ?A /\ _ => assert (Hload : A) by (vm_compute; reflexivity)
  end.
  split; [exact Hload|].
  match goal with
  | |- ?A /\ _ =>
      assert (Hworth : A)
        by (intros q_id q Hin; vm_compute in Hin;
            destruct Hin as [E|[]]; inversion E; subst;
            vm_compute; discriminate)
  end.
  split; [exact Hworth|].
  match goal with
  | |- ?A /\ _ => assert (Hin : A) by (cbn; left; reflexivity)
  end.
  split; [exact Hin|].
  match goal with
  | |- ?A /\ _ => assert (Hrun : A) by (vm_compute; reflexivity)
  end.
  split; [exact Hrun|].
  split; [vm_compute; reflexivity|].
  apply (quiz_totals_equal_total_score
           no_int no_float sample_sqrt _ _ _ _ _ _ _ _ _
           Hload Hworth Hin Hrun).
Defined.
